(** * MIPI DBI (tinydrm) bus encoding, command dispatch and flush pipeline

    A shallow embedding of [mipi-dbi.c]: the read-command table lookup, the
    Type C Option 1 transfers (native 9-bit words and the 9-bytes-for-8-words
    emulation), the Type C Option 3 command and read paths, the SPI set-up,
    and the framebuffer flush.

    Integers of the C code are [Z]; a byte is a [Z] in [0, 255].  Calls that
    leave the file (SPI core, GPIO, tinydrm helpers, backlight) are recorded
    in a trace together with the value they returned. *)

From Stdlib Require Import ZArith List Bool Lia.
Import ListNotations.
Open Scope Z_scope.

(** ** Constants *)

(** <uapi/asm-generic/errno-base.h>, <linux/errno.h> *)
Definition ENOMEM : Z := 12.
Definition EACCES : Z := 13.
Definition EINVAL : Z := 22.
Definition ENOTSUPP : Z := 524.

(** <video/mipi_display.h>: the MIPI DCS command set. *)
Definition MIPI_DCS_GET_DISPLAY_ID : Z := 0x04.
Definition MIPI_DCS_GET_RED_CHANNEL : Z := 0x06.
Definition MIPI_DCS_GET_GREEN_CHANNEL : Z := 0x07.
Definition MIPI_DCS_GET_BLUE_CHANNEL : Z := 0x08.
Definition MIPI_DCS_GET_DISPLAY_STATUS : Z := 0x09.
Definition MIPI_DCS_GET_POWER_MODE : Z := 0x0A.
Definition MIPI_DCS_GET_ADDRESS_MODE : Z := 0x0B.
Definition MIPI_DCS_GET_PIXEL_FORMAT : Z := 0x0C.
Definition MIPI_DCS_GET_DISPLAY_MODE : Z := 0x0D.
Definition MIPI_DCS_GET_SIGNAL_MODE : Z := 0x0E.
Definition MIPI_DCS_GET_DIAGNOSTIC_RESULT : Z := 0x0F.
Definition MIPI_DCS_SET_COLUMN_ADDRESS : Z := 0x2A.
Definition MIPI_DCS_SET_PAGE_ADDRESS : Z := 0x2B.
Definition MIPI_DCS_WRITE_MEMORY_START : Z := 0x2C.
Definition MIPI_DCS_READ_MEMORY_START : Z := 0x2E.
Definition MIPI_DCS_READ_MEMORY_CONTINUE : Z := 0x3E.
Definition MIPI_DCS_GET_SCANLINE : Z := 0x45.
Definition MIPI_DCS_GET_DISPLAY_BRIGHTNESS : Z := 0x52.
Definition MIPI_DCS_GET_CONTROL_DISPLAY : Z := 0x54.
Definition MIPI_DCS_GET_POWER_SAVE : Z := 0x56.
Definition MIPI_DCS_GET_CABC_MIN_BRIGHTNESS : Z := 0x5F.
Definition MIPI_DCS_READ_DDB_START : Z := 0xA1.
Definition MIPI_DCS_READ_DDB_CONTINUE : Z := 0xA8.

(** <uapi/drm/drm_fourcc.h> *)
Definition DRM_FORMAT_RGB565 : Z := 0x36314752.
Definition DRM_FORMAT_XRGB8888 : Z := 0x34325258.

Definition MIPI_DBI_MAX_SPI_READ_SPEED : Z := 2000000.

(** Conversions to the C integer types that the code stores into. *)
Definition to_u8 (v : Z) : Z := Z.land v 0xFF.
Definition to_u64 (v : Z) : Z := Z.land v (Z.ones 64).
Definition to_int (v : Z) : Z := (v + 2 ^ 31) mod 2 ^ 32 - 2 ^ 31.
Definition INT_MAX : Z := 2 ^ 31 - 1.

(** ** Data *)

Record spi_device := {
  max_speed_hz : Z
}.

Record spi_transfer := {
  bits_per_word : Z;
  speed_hz : Z;
  (** what the caller stored in the transmit buffer for this transfer, from
      the start of the buffer ([None] when [tx_buf] is left NULL): bytes, or
      16-bit words under 9 bits per word *)
  tx_buf : option (list Z);
  (** whether [rx_buf] is set *)
  rx_buf : bool;
  (** [len], in bytes *)
  len : Z
}.

Record drm_clip_rect := { x1 : Z; y1 : Z; x2 : Z; y2 : Z }.

Record drm_framebuffer := {
  width : Z;
  height : Z;
  format : Z;
  (** [cma_obj->base.import_attach] is set *)
  import_attach : bool
}.

(** The two functions that [mipi->command] is set to. *)
Inductive command_fn := typec1_command | typec3_command.

Record tinydrm_device := { enabled : bool; prepared : bool }.

Record mipi_dbi := {
  tinydrm : tinydrm_device;
  spi : spi_device;
  command : option command_fn;
  (** NULL, or the array the pointer designates *)
  read_commands : option (list Z);
  (** the D/C gpio descriptor is set *)
  dc : bool;
  (** size of the buffer behind [tx_buf], once allocated *)
  mipi_tx_buf : option Z;
  swap_bytes : bool;
  write_only : bool;
  enable_delay_ms : Z;
  rotation : Z
}.

Definition set_enabled (m : mipi_dbi) (b : bool) : mipi_dbi :=
  {| tinydrm := {| enabled := b; prepared := prepared (tinydrm m) |};
     spi := spi m; command := command m; read_commands := read_commands m;
     dc := dc m; mipi_tx_buf := mipi_tx_buf m; swap_bytes := swap_bytes m;
     write_only := write_only m; enable_delay_ms := enable_delay_ms m;
     rotation := rotation m |}.

(** Where the pixel bytes of a memory write come from. *)
Inductive pixel_source := from_tx_buf | from_fb_vaddr.

(** The data argument of [mipi_dbi_command_buf]: the local array built by the
    [mipi_dbi_command] macro, or a pixel buffer. *)
Inductive cmd_data :=
| cmd_bytes (d : list Z)
| cmd_pixels (p : pixel_source).

(** ** Calls that leave the file *)

Inductive call :=
| spi_sync (m : list spi_transfer)
| gpiod_set_value_cansleep (value : Z)
| tinydrm_spi_transfer (bpw : Z) (buf : list Z) (n : Z)
| mutex_lock
| mutex_unlock
| dma_buf_begin_cpu_access
| dma_buf_end_cpu_access
| tinydrm_memcpy (clip : drm_clip_rect)
| tinydrm_swab16 (clip : drm_clip_rect)
| tinydrm_xrgb8888_to_rgb565 (clip : drm_clip_rect) (swap : bool)
| mipi_dbi_command_buf (cmd : Z) (data : cmd_data) (n : Z)
| msleep (ms : Z)
| tinydrm_enable_backlight
| devm_tinydrm_init
| tinydrm_display_pipe_init (rot : Z)
| drm_mode_config_reset.

(** A call and the value it returned (0 for a void function). *)
Definition event : Type := call * Z.

(** What the outside answers.  Every answer may depend on all that happened
    before, so any behaviour of the bus and of the allocator is covered. *)
Record oracle := {
  (** return value of an external call, given what happened before it *)
  reply : list event -> call -> Z;
  (** byte [i] that the next [spi_sync] with a receive buffer clocks in,
      given what happened before it *)
  rx_byte : list event -> nat -> Z;
  (** whether an allocation of the given size succeeds at this point *)
  kmalloc_ok : list event -> Z -> bool;
  (** byte found [i] bytes past the end of a source buffer *)
  stray : nat -> Z
}.

(** The tinydrm helper library (tinydrm-helpers.c, tinydrm.h), whose pure
    functions the code calls. *)
Record helpers := {
  tinydrm_spi_max_transfer_size : spi_device -> Z -> Z;
  tinydrm_spi_bpw_supported : spi_device -> Z -> bool;
  tinydrm_machine_little_endian : bool;
  (** [Some (clips, num_clips)] when the flush is to go on *)
  tinydrm_check_dirty :
    mipi_dbi -> drm_framebuffer -> list drm_clip_rect -> Z ->
    option (list drm_clip_rect * Z);
  (** the merged rectangle and whether it is the full frame *)
  tinydrm_merge_clips :
    list drm_clip_rect -> Z -> Z -> Z -> Z -> drm_clip_rect * bool
}.

(** ** The monad: a trace of events, and no result when the C execution has
    none (an array read outside its bounds, a loop that never ends). *)

Definition M (A : Type) : Type := list event -> option (A * list event).

Definition ret {A} (a : A) : M A := fun tr => Some (a, tr).

Definition bind {A B} (c : M A) (k : A -> M B) : M B :=
  fun tr => match c tr with
            | Some (a, tr') => k a tr'
            | None => None
            end.

Definition undefined {A} : M A := fun _ => None.

Notation "x <- c ;; k" := (bind c (fun x => k))
  (at level 61, c at next level, right associativity).
Notation "c ;;; k" := (bind c (fun _ => k))
  (at level 61, right associativity).

(** ** The read-command table *)

Definition mipi_dbi_dcs_read_commands : list Z :=
  [ MIPI_DCS_GET_DISPLAY_ID;
    MIPI_DCS_GET_RED_CHANNEL;
    MIPI_DCS_GET_GREEN_CHANNEL;
    MIPI_DCS_GET_BLUE_CHANNEL;
    MIPI_DCS_GET_DISPLAY_STATUS;
    MIPI_DCS_GET_POWER_MODE;
    MIPI_DCS_GET_ADDRESS_MODE;
    MIPI_DCS_GET_PIXEL_FORMAT;
    MIPI_DCS_GET_DISPLAY_MODE;
    MIPI_DCS_GET_SIGNAL_MODE;
    MIPI_DCS_GET_DIAGNOSTIC_RESULT;
    MIPI_DCS_READ_MEMORY_START;
    MIPI_DCS_READ_MEMORY_CONTINUE;
    MIPI_DCS_GET_SCANLINE;
    MIPI_DCS_GET_DISPLAY_BRIGHTNESS;
    MIPI_DCS_GET_CONTROL_DISPLAY;
    MIPI_DCS_GET_POWER_SAVE;
    MIPI_DCS_GET_CABC_MIN_BRIGHTNESS;
    MIPI_DCS_READ_DDB_START;
    MIPI_DCS_READ_DDB_CONTINUE;
    0 (* sentinel *) ].

(** [for (i = 0; i < 0xff; i++)]: [left] iterations remain, the next one
    reads entry [i].  [None] is a read outside the array. *)
Fixpoint command_is_read_from (left : nat) (i : nat) (tbl : list Z) (cmd : Z)
  : option bool :=
  match left with
  | O => Some false
  | S left' =>
      match nth_error tbl i with
      | None => None
      | Some e =>
          if e =? 0 then Some false
          else if cmd =? e then Some true
          else command_is_read_from left' (S i) tbl cmd
      end
  end.

Definition mipi_dbi_command_is_read (mipi : mipi_dbi) (cmd : Z) : option bool :=
  match read_commands mipi with
  | None => Some false
  | Some tbl => command_is_read_from 255 0 tbl cmd
  end.

(** ** The emulated 9-bit packing *)

(** [SHIFT_U9_INTO_U64(_dst, _src, _pos)] *)
Definition SHIFT_U9_INTO_U64 (dst src pos : Z) : Z :=
  let dst := Z.lor dst (to_u64 (Z.shiftl 1 (63 - pos * 9))) in
  Z.lor dst (to_u64 (Z.shiftl src (63 - 8 - pos * 9))).

(** The eight bytes that storing [cpu_to_be64(tmp)] through [dst] writes,
    first to last. *)
Definition cpu_to_be64 (tmp : Z) : list Z :=
  map (fun k => to_u8 (Z.shiftr tmp (56 - 8 * Z.of_nat k))) (seq 0 8).

(** The bytes of an 8-bit transfer that reach the wire: the first [len] of
    the transmit buffer. *)
Definition wire_bytes (t : spi_transfer) : list Z :=
  match tx_buf t with
  | Some b => firstn (Z.to_nat (len t)) b
  | None => []
  end.

(** Sum of the [len] fields of all [spi_sync] transfers of a trace. *)
Fixpoint wire_length (evs : list event) : Z :=
  match evs with
  | [] => 0
  | (spi_sync m, _) :: evs' =>
      fold_right (fun t acc => len t + acc) 0 m + wire_length evs'
  | _ :: evs' => wire_length evs'
  end.

Record drm_display_mode := { hdisplay : Z; vdisplay : Z }.

Section Driver.

Context (hl : helpers) (oc : oracle).

Definition ext (c : call) : M Z :=
  fun tr => let r := reply oc tr c in Some (r, tr ++ [(c, r)]).

Definition ext_void (c : call) : M unit :=
  fun tr => Some (tt, tr ++ [(c, 0)]).

(** [kmalloc], [kzalloc], [devm_kmalloc]: whether the pointer is non-NULL. *)
Definition kmalloc (size : Z) : M bool :=
  fun tr => Some (kmalloc_ok oc tr size, tr).

(** [*src] at offset [pos] of a source buffer. *)
Definition src_at (buf : list Z) (pos : nat) : Z :=
  match nth_error buf pos with
  | Some b => b
  | None => stray oc (pos - length buf)
  end.

(** [for (j = 0; j < chunk; j++) SHIFT_U9_INTO_U64(tmp, *src++, j);]
    with [n] iterations left. *)
Fixpoint shift_partial (n : nat) (j : Z) (tmp : Z) (src : list Z) (pos : nat)
  : Z * nat :=
  match n with
  | O => (tmp, pos)
  | S n' =>
      shift_partial n' (j + 1) (SHIFT_U9_INTO_U64 tmp (src_at src pos) j)
                    src (S pos)
  end.

(** One turn of the loop over full blocks: seven words into [tmp], the
    control bit of the eighth, then the eighth byte on its own. *)
Definition pack_block (src : list Z) (pos : nat) : list Z :=
  let tmp := 0 in
  let tmp := SHIFT_U9_INTO_U64 tmp (src_at src pos) 0 in
  let tmp := SHIFT_U9_INTO_U64 tmp (src_at src (pos + 1)) 1 in
  let tmp := SHIFT_U9_INTO_U64 tmp (src_at src (pos + 2)) 2 in
  let tmp := SHIFT_U9_INTO_U64 tmp (src_at src (pos + 3)) 3 in
  let tmp := SHIFT_U9_INTO_U64 tmp (src_at src (pos + 4)) 4 in
  let tmp := SHIFT_U9_INTO_U64 tmp (src_at src (pos + 5)) 5 in
  let tmp := SHIFT_U9_INTO_U64 tmp (src_at src (pos + 6)) 6 in
  let tmp := Z.lor tmp 0x1 in
  cpu_to_be64 tmp ++ [src_at src (pos + 7)].

(** [for (i = 0; i < chunk; i += 8) { ...; added++; }]: the bytes stored
    through [dst], the new [src] offset and [added]. *)
Fixpoint pack_blocks (fuel : nat) (i chunk : Z) (src : list Z) (pos : nat)
         (out : list Z) (added : Z) : option (list Z * nat * Z) :=
  match fuel with
  | O => None
  | S fuel' =>
      if i <? chunk then
        pack_blocks fuel' (i + 8) chunk src (pos + 8)
                    (out ++ pack_block src pos) (added + 1)
      else Some (out, pos, added)
  end.

Definition tr8 (buf : list Z) (n : Z) : spi_transfer :=
  {| bits_per_word := 8; speed_hz := 0; tx_buf := Some buf;
     rx_buf := false; len := n |}.

(** [while (len) { ... }] of the emulation. *)
Fixpoint spi1e_loop (fuel : nat) (src : list Z) (pos : nat) (len : Z)
         (max_src_chunk : Z) : M Z :=
  match fuel with
  | O => undefined
  | S fuel' =>
      if len =? 0 then ret 0
      else
        let chunk := Z.min len max_src_chunk in
        let len := len - chunk in
        if chunk <? 8 then
          (* pad at end of block *)
          let '(tmp, pos') := shift_partial (Z.to_nat chunk) 0 0 src pos in
          let dst := cpu_to_be64 tmp ++ [0x00] in
          let chunk := 8 in
          let added := 1 in
          r <- ext (spi_sync [tr8 dst (chunk + added)]) ;;
          if negb (r =? 0) then ret r
          else spi1e_loop fuel' src pos' len max_src_chunk
        else
          match pack_blocks (S (Z.to_nat chunk)) 0 chunk src pos [] 0 with
          | None => undefined
          | Some (dst, pos', added) =>
              r <- ext (spi_sync [tr8 dst (chunk + added)]) ;;
              if negb (r =? 0) then ret r
              else spi1e_loop fuel' src pos' len max_src_chunk
          end
  end.

Definition mipi_dbi_spi1e_transfer (mipi : mipi_dbi) (dc : Z) (buf : list Z)
           (len : Z) (max_chunk : Z) : M Z :=
  let max_chunk := tinydrm_spi_max_transfer_size hl (spi mipi) max_chunk in
  if max_chunk <? 9 then ret (- EINVAL)
  else if dc =? 0 then
    (* pad at beginning of block *)
    if negb (len =? 1) then ret (- EINVAL)
    else
      ok <- kmalloc 9 ;;
      if negb ok then ret (- ENOMEM)
      else
        let dst := repeat 0 8 ++ [src_at buf 0] in
        ext (spi_sync [tr8 dst 9])
  else
    (* 8-byte aligned max_src_chunk that fits max_chunk *)
    let max_src_chunk := max_chunk / 9 * 8 in
    let max_src_chunk := Z.min max_src_chunk len in
    let max_src_chunk := Z.max 8 (Z.land max_src_chunk (Z.lnot 0x7)) in
    let max_chunk := max_src_chunk + max_src_chunk / 8 in
    ok <- kmalloc max_chunk ;;
    if negb ok then ret (- ENOMEM)
    else spi1e_loop (S (Z.to_nat len)) buf 0 len max_src_chunk.

(** ** Native 9-bit words *)

Definition tr9 (buf : list Z) (n : Z) : spi_transfer :=
  {| bits_per_word := 9; speed_hz := 0; tx_buf := Some buf;
     rx_buf := false; len := n |}.

(** [for (i = 0; i < chunk; i++) { dst16[i] = *src8++; if (dc) dst16[i] |= 0x0100; }] *)
Definition fill_dst16 (dc : Z) (src : list Z) (pos : nat) (chunk : Z) : list Z :=
  map (fun i => let w := src_at src (pos + i) in
                if dc =? 0 then w else Z.lor w 0x0100)
      (seq 0 (Z.to_nat chunk)).

Fixpoint spi1_loop (fuel : nat) (dc : Z) (src : list Z) (pos : nat) (len : Z)
         (max_src_chunk : Z) : M Z :=
  match fuel with
  | O => undefined
  | S fuel' =>
      if len =? 0 then ret 0
      else
        let chunk := Z.min len max_src_chunk in
        let dst16 := fill_dst16 dc src pos chunk in
        let len := len - chunk in
        r <- ext (spi_sync [tr9 dst16 chunk]) ;;
        if negb (r =? 0) then ret r
        else spi1_loop fuel' dc src (pos + Z.to_nat chunk) len max_src_chunk
  end.

(** The body of [mipi_dbi_spi1_transfer] once 9 bits per word are known to
    be supported. *)
Definition spi1_native (mipi : mipi_dbi) (dc : Z) (buf : list Z) (len : Z)
           (max_chunk : Z) : M Z :=
  let max_chunk := tinydrm_spi_max_transfer_size hl (spi mipi) max_chunk in
  let max_src_chunk := Z.min (max_chunk / 2) len in
  ok <- kmalloc (max_src_chunk * 2) ;;
  if negb ok then ret (- ENOMEM)
  else spi1_loop (S (Z.to_nat len)) dc buf 0 len max_src_chunk.

Definition mipi_dbi_spi1_transfer (mipi : mipi_dbi) (dc : Z) (buf : list Z)
           (len : Z) (max_chunk : Z) : M Z :=
  if negb (tinydrm_spi_bpw_supported hl (spi mipi) 9) then
    mipi_dbi_spi1e_transfer mipi dc buf len max_chunk
  else spi1_native mipi dc buf len max_chunk.

Definition mipi_dbi_typec1_command (mipi : mipi_dbi) (cmd : Z)
           (parameters : list Z) (num : Z) : M Z :=
  match mipi_dbi_command_is_read mipi cmd with
  | None => undefined
  | Some true => ret (- ENOTSUPP)
  | Some false =>
      r <- mipi_dbi_spi1_transfer mipi 0 [cmd] 1 4096 ;;
      if negb (r =? 0) then ret r
      else if negb (num =? 0) then
        mipi_dbi_spi1_transfer mipi 1 parameters num 4096
      else ret r
  end.

(** ** Type C Option 3 *)

(** The receive buffer after [spi_sync]: [n] bytes clocked in. *)
Definition received (n : Z) : M (list Z) :=
  fun tr => Some (map (fun i => to_u8 (rx_byte oc tr i)) (seq 0 (Z.to_nat n)), tr).

(** [(buf[i] << 1) | !!(buf[i + 1] & BIT(7))], stored into a [u8]. *)
Definition shift_in (buf : list Z) (i : nat) : Z :=
  to_u8 (Z.lor (Z.shiftl (nth i buf 0) 1)
               (if Z.land (nth (S i) buf 0) (Z.shiftl 1 7) =? 0 then 0 else 1)).

(** Returns the error code and, when something was stored into [data], the
    [len] bytes stored. *)
Definition mipi_dbi_typec3_command_read (mipi : mipi_dbi) (cmd : Z) (len : Z)
  : M (Z * option (list Z)) :=
  let speed := Z.min MIPI_DBI_MAX_SPI_READ_SPEED (max_speed_hz (spi mipi) / 2) in
  let tr0 := {| bits_per_word := 0; speed_hz := speed; tx_buf := Some [cmd];
                rx_buf := false; len := 1 |} in
  if len =? 0 then ret (- EINVAL, None)
  else if write_only mipi then ret (- EACCES, None)
  else
    let quirk := (cmd =? MIPI_DCS_GET_DISPLAY_ID)
                 || (cmd =? MIPI_DCS_GET_DISPLAY_STATUS) in
    if quirk && negb ((len =? 3) || (len =? 4)) then ret (- EINVAL, None)
    else
      let tr1_len := if quirk then len + 1 else len in
      let tr1 := {| bits_per_word := 0; speed_hz := speed; tx_buf := None;
                    rx_buf := true; len := tr1_len |} in
      ok <- kmalloc tr1_len ;;
      if negb ok then ret (- ENOMEM, None)
      else
        ext_void (gpiod_set_value_cansleep 0) ;;;
        buf <- received tr1_len ;;
        r <- ext (spi_sync [tr0; tr1]) ;;
        if negb (r =? 0) then ret (r, None)
        else if tr1_len =? len then
          ret (r, Some (firstn (Z.to_nat len) buf))
        else
          ret (r, Some (map (shift_in buf) (seq 0 (Z.to_nat len)))).

Definition mipi_dbi_typec3_command (mipi : mipi_dbi) (cmd : Z)
           (par : list Z) (num : Z) : M (Z * option (list Z)) :=
  match mipi_dbi_command_is_read mipi cmd with
  | None => undefined
  | Some true => mipi_dbi_typec3_command_read mipi cmd num
  | Some false =>
      ext_void (gpiod_set_value_cansleep 0) ;;;
      r <- ext (tinydrm_spi_transfer 8 [cmd] 1) ;;
      if negb (r =? 0) || (num =? 0) then ret (r, None)
      else
        let bpw := if (cmd =? MIPI_DCS_WRITE_MEMORY_START)
                      && negb (swap_bytes mipi) then 16 else 8 in
        ext_void (gpiod_set_value_cansleep 1) ;;;
        r <- ext (tinydrm_spi_transfer bpw par num) ;;
        ret (r, None)
  end.

(** [mipi->command(mipi, cmd, par, num)] *)
Definition call_command (mipi : mipi_dbi) (cmd : Z) (par : list Z) (num : Z)
  : M (Z * option (list Z)) :=
  match command mipi with
  | None => undefined
  | Some typec1_command =>
      r <- mipi_dbi_typec1_command mipi cmd par num ;; ret (r, None)
  | Some typec3_command => mipi_dbi_typec3_command mipi cmd par num
  end.

(** ** Set-up *)

Definition mipi_dbi_init (mipi : mipi_dbi) (mode : drm_display_mode)
           (rot : Z) : M (Z * mipi_dbi) :=
  let bufsize := vdisplay mode * hdisplay mode * 2 in
  ok <- kmalloc bufsize ;;
  (* [mipi->tx_buf = devm_kmalloc(...)]: NULL when the request is refused *)
  let mipi :=
    {| tinydrm := tinydrm mipi; spi := spi mipi; command := command mipi;
       read_commands := read_commands mipi; dc := dc mipi;
       mipi_tx_buf := if ok then Some bufsize else None;
       swap_bytes := swap_bytes mipi;
       write_only := write_only mipi;
       enable_delay_ms := enable_delay_ms mipi;
       rotation := rotation mipi |} in
  if negb ok then ret (- ENOMEM, mipi)
  else
    r <- ext devm_tinydrm_init ;;
    if negb (r =? 0) then ret (r, mipi)
    else
      r <- ext (tinydrm_display_pipe_init rot) ;;
      if negb (r =? 0) then ret (r, mipi)
      else
        let mipi :=
          {| tinydrm := tinydrm mipi; spi := spi mipi;
             command := command mipi;
             read_commands := read_commands mipi; dc := dc mipi;
             mipi_tx_buf := mipi_tx_buf mipi; swap_bytes := swap_bytes mipi;
             write_only := write_only mipi;
             enable_delay_ms := enable_delay_ms mipi;
             rotation := rot |} in
        ext_void drm_mode_config_reset ;;;
        ret (0, mipi).

(** [dc_desc] tells whether a D/C gpio descriptor is passed as [dc]. *)
Definition mipi_dbi_spi_init (spi : spi_device) (mipi : mipi_dbi)
           (dc_desc : bool) (write_only : bool) (mode : drm_display_mode)
           (rot : Z)
  : M (Z * mipi_dbi) :=
  let mipi :=
    {| tinydrm := tinydrm mipi; spi := spi;
       command := if dc_desc then Some typec3_command
                  else Some typec1_command;
       read_commands := Some mipi_dbi_dcs_read_commands;
       dc := if dc_desc then dc_desc else dc mipi;
       mipi_tx_buf := mipi_tx_buf mipi;
       swap_bytes :=
         if tinydrm_machine_little_endian hl
            && negb (tinydrm_spi_bpw_supported hl spi 16)
         then true else swap_bytes mipi;
       write_only := write_only;
       enable_delay_ms := enable_delay_ms mipi;
       rotation := rotation mipi |} in
  mipi_dbi_init mipi mode rot.

(** ** The flush *)

Definition mipi_dbi_buf_copy (fb : drm_framebuffer) (clip : drm_clip_rect)
           (swap : bool) : M Z :=
  r <- (if import_attach fb then ext dma_buf_begin_cpu_access else ret 0) ;;
  if negb (r =? 0) then ret r
  else
    let finish :=
      if import_attach fb then ext dma_buf_end_cpu_access else ret r in
    if format fb =? DRM_FORMAT_RGB565 then
      (if swap then ext_void (tinydrm_swab16 clip)
       else ext_void (tinydrm_memcpy clip)) ;;;
      finish
    else if format fb =? DRM_FORMAT_XRGB8888 then
      ext_void (tinydrm_xrgb8888_to_rgb565 clip swap) ;;;
      finish
    else ret (- EINVAL).

(** Modelled from the spec: the [mipi_dbi_command(mipi, cmd, seq...)] macro
    of mipi-dbi.h, which is not part of the sources at hand.  A command is a
    control byte followed by parameter bytes, and the address window
    commands carry 4 parameter bytes each: the arguments, each stored as one
    byte, are the parameters of a single [mipi_dbi_command_buf] call. *)
Definition mipi_dbi_command (cmd : Z) (args : list Z) : M Z :=
  ext (mipi_dbi_command_buf cmd (cmd_bytes (map to_u8 args))
                            (Z.of_nat (length args))).

(** The arguments given for one axis of the address window. *)
Definition window_args (lo hi : Z) : list Z :=
  [ Z.land (Z.shiftr lo 8) 0xFF; Z.land lo 0xFF;
    Z.land (Z.shiftr hi 8) 0xFF; Z.land (hi - 1) 0xFF ].

(** [goto out_unlock] carries [ret] and the device state to the unlock. *)
Definition mipi_dbi_fb_dirty (mipi : mipi_dbi) (fb : drm_framebuffer)
           (flags : Z) (clips : list drm_clip_rect) (num_clips : Z)
  : M (Z * mipi_dbi) :=
  let swap := swap_bytes mipi in
  ext_void mutex_lock ;;;
  out <-
    match tinydrm_check_dirty hl mipi fb clips num_clips with
    | None => ret (0, mipi)
    | Some (clips, num_clips) =>
        let '(clip, full) :=
          tinydrm_merge_clips hl clips num_clips flags (width fb) (height fb) in
        staged <-
          (if negb full || swap || (format fb =? DRM_FORMAT_XRGB8888) then
             r <- mipi_dbi_buf_copy fb clip swap ;; ret (r, from_tx_buf)
           else ret (0, from_fb_vaddr)) ;;
        let '(r, tr) := staged in
        if negb (r =? 0) then ret (r, mipi)
        else
          mipi_dbi_command MIPI_DCS_SET_COLUMN_ADDRESS
                           (window_args (x1 clip) (x2 clip)) ;;;
          mipi_dbi_command MIPI_DCS_SET_PAGE_ADDRESS
                           (window_args (y1 clip) (y2 clip)) ;;;
          r <- ext (mipi_dbi_command_buf MIPI_DCS_WRITE_MEMORY_START
                      (cmd_pixels tr)
                      (to_int ((x2 clip - x1 clip) * (y2 clip - y1 clip) * 2))) ;;
          if negb (r =? 0) then ret (r, mipi)
          else if negb (enabled (tinydrm mipi)) then
            (if negb (enable_delay_ms mipi =? 0)
             then ext_void (msleep (enable_delay_ms mipi)) else ret tt) ;;;
            r <- ext tinydrm_enable_backlight ;;
            if negb (r =? 0) then ret (r, mipi)
            else ret (r, set_enabled mipi true)
          else ret (r, mipi)
    end ;;
  ext_void mutex_unlock ;;;
  ret out.

(** ** Sequences of flushes on one device *)

Record flush_args := {
  fa_fb : drm_framebuffer;
  fa_flags : Z;
  fa_clips : list drm_clip_rect;
  fa_num_clips : Z
}.

(** One flush of a sequence: the device before and after, the value
    returned and the events of this flush. *)
Record flush_step := {
  before : mipi_dbi;
  after : mipi_dbi;
  result : Z;
  events : list event
}.

Fixpoint flush_sequence (args : list flush_args) (mipi : mipi_dbi)
         (tr : list event) : list flush_step :=
  match args with
  | [] => []
  | a :: args' =>
      match mipi_dbi_fb_dirty mipi (fa_fb a) (fa_flags a) (fa_clips a)
                              (fa_num_clips a) tr with
      | None => []
      | Some ((r, mipi'), tr') =>
          {| before := mipi; after := mipi'; result := r;
             events := skipn (length tr) tr' |}
          :: flush_sequence args' mipi' tr'
      end
  end.

End Driver.

(** Events of a trace, by kind. *)
Definition is_command (e : event) : bool :=
  match fst e with mipi_dbi_command_buf _ _ _ => true | _ => false end.

Definition is_staging_copy (e : event) : bool :=
  match fst e with
  | tinydrm_memcpy _ | tinydrm_swab16 _ | tinydrm_xrgb8888_to_rgb565 _ _ => true
  | _ => false
  end.

Definition is_backlight_enable (e : event) : bool :=
  match fst e with tinydrm_enable_backlight => true | _ => false end.

(** ** Sample platforms and devices, for concrete runs *)

(** A bus on which every call succeeds and every allocation is granted;
    [raw] is what a read clocks in. *)
Definition bus_ok (raw : list Z) : oracle :=
  {| reply := fun _ _ => 0;
     rx_byte := fun _ i => nth i raw 0;
     kmalloc_ok := fun _ _ => true;
     stray := fun _ => 0 |}.

(** A bus on which the backlight refuses to come on with [-EINVAL]. *)
Definition bus_no_backlight : oracle :=
  {| reply := fun _ c => match c with
                         | tinydrm_enable_backlight => - EINVAL
                         | _ => 0
                         end;
     rx_byte := fun _ _ => 0;
     kmalloc_ok := fun _ _ => true;
     stray := fun _ => 0 |}.

(** Helpers of a little-endian machine whose SPI master moves 8-bit words
    only ([bpw9 = false]) or 9-bit words too, and takes transfers of any
    requested size.  A flush with no clips is a full-frame flush, one with
    clips covers the first of them. *)
Definition sample_helpers (bpw9 : bool) : helpers :=
  {| tinydrm_spi_max_transfer_size := fun _ max_len => max_len;
     tinydrm_spi_bpw_supported :=
       fun _ bpw => (bpw =? 8) || (bpw9 && (bpw =? 9));
     tinydrm_machine_little_endian := true;
     tinydrm_check_dirty := fun _ _ clips num_clips => Some (clips, num_clips);
     tinydrm_merge_clips :=
       fun clips _ _ w h =>
         match clips with
         | c :: _ => (c, false)
         | [] => ({| x1 := 0; y1 := 0; x2 := w; y2 := h |}, true)
         end |}.

Definition sample_spi : spi_device := {| max_speed_hz := 32000000 |}.

(** A 320x240 panel behind a D/C line, as [mipi_dbi_spi_init] leaves it. *)
Definition sample_mipi (write_only enabled : bool) : mipi_dbi :=
  {| tinydrm := {| enabled := enabled; prepared := true |};
     spi := sample_spi;
     command := Some typec3_command;
     read_commands := Some mipi_dbi_dcs_read_commands;
     dc := true;
     mipi_tx_buf := Some 153600;
     swap_bytes := false;
     write_only := write_only;
     enable_delay_ms := 0;
     rotation := 0 |}.

Definition sample_fb : drm_framebuffer :=
  {| width := 320; height := 240; format := DRM_FORMAT_RGB565;
     import_attach := false |}.

Definition sample_mode : drm_display_mode :=
  {| hdisplay := 320; vdisplay := 240 |}.

(** ** Predicates on traces *)

(** Every event is an [spi_sync] of one transfer with [bpw] bits per word. *)
Definition only_spi_sync_of (bpw : Z) (evs : list event) : Prop :=
  Forall (fun e => exists t r, e = (spi_sync [t], r) /\ bits_per_word t = bpw)
         evs.

(** What one flush may do with the backlight: no enable when the device is
    already enabled; an enable only from a device that is not enabled, its
    outcome being the value returned and deciding the flag; the flag raised
    only by a successful enable that is the last thing done under the lock. *)
Definition enable_discipline (s : flush_step) : Prop :=
  (enabled (tinydrm (before s)) = true ->
   filter is_backlight_enable (events s) = []
   /\ enabled (tinydrm (after s)) = true)
  /\ (forall rb, In (tinydrm_enable_backlight, rb) (events s) ->
                 enabled (tinydrm (before s)) = false
                 /\ result s = rb
                 /\ enabled (tinydrm (after s)) = (rb =? 0))
  /\ (enabled (tinydrm (before s)) = false ->
      enabled (tinydrm (after s)) = true ->
      result s = 0
      /\ exists pre,
          events s = pre ++ [(tinydrm_enable_backlight, 0); (mutex_unlock, 0)]
          /\ filter is_backlight_enable pre = []).

(** Each step starts from the device the previous one left. *)
Fixpoint chained (m : mipi_dbi) (steps : list flush_step) : Prop :=
  match steps with
  | [] => True
  | s :: steps' => before s = m /\ chained (after s) steps'
  end.

(** ** What the emulation puts on the wire *)

(** Length of the transfer made for the last [r] source bytes, [r] less than
    the chunk size. *)
Definition last_transfer_len (r : Z) : Z :=
  if r =? 0 then 0
  else if r <? 8 then 9
  else r + (r + 7) / 8.

(** Wire bytes for [n] source bytes cut into chunks of [msc] bytes. *)
Definition wire_total (msc n : Z) : Z :=
  n / msc * (msc + msc / 8) + last_transfer_len (n mod msc).

(** The bus takes every message and the allocator grants every request. *)
Definition never_fails (oc : oracle) : Prop :=
  (forall h m, reply oc h (spi_sync m) = 0)
  /\ (forall h size, kmalloc_ok oc h size = true).

(** ** The receiving side of the 9-bit bus *)

(** A byte stream read as one big-endian number. *)
Definition stream_value (bytes : list Z) : Z :=
  fold_left (fun acc b => acc * 256 + b) bytes 0.

(** The eight 9-bit words that a controller clocks out of a 9-byte block,
    first to last: bit 8 of a word is its D/C bit. *)
Definition nine_bit_words (block : list Z) : list Z :=
  map (fun k => (stream_value block / 2 ^ (9 * (7 - Z.of_nat k))) mod 512)
      (seq 0 8).

(** The words of a stream of 9-byte blocks; a shorter tail holds no word. *)
Fixpoint unpack (bytes : list Z) : list Z :=
  match bytes with
  | b0 :: b1 :: b2 :: b3 :: b4 :: b5 :: b6 :: b7 :: b8 :: rest =>
      nine_bit_words [b0; b1; b2; b3; b4; b5; b6; b7; b8] ++ unpack rest
  | _ => []
  end.

(** A parameter word: the byte with the D/C bit set. *)
Definition data_word (b : Z) : Z := 0x100 + b.

Definition is_byte (b : Z) : Prop := 0 <= b < 256.

(** The bytes that the [spi_sync] messages of a trace put on an 8-bit
    wire, in order. *)
Fixpoint wire_stream (evs : list event) : list Z :=
  match evs with
  | [] => []
  | (spi_sync m, _) :: evs' => concat (map wire_bytes m) ++ wire_stream evs'
  | _ :: evs' => wire_stream evs'
  end.

(** The words that the [spi_sync] messages of a trace hold in their
    transmit buffers, in order. *)
Fixpoint stored_words (evs : list event) : list Z :=
  match evs with
  | [] => []
  | (spi_sync m, _) :: evs' =>
      concat (map (fun t => match tx_buf t with Some b => b | None => [] end) m)
      ++ stored_words evs'
  | _ :: evs' => stored_words evs'
  end.

(** A list of 9-bit words laid side by side, first word first, as one
    number. *)
Definition words_value (ws : list Z) : Z :=
  fold_left (fun acc w => acc * 512 + w) ws 0.

Definition is_word (w : Z) : Prop := 0 <= w < 512.



(** The 9-bit word of the native path for a source byte. *)
Definition native_word (dc b : Z) : Z :=
  if dc =? 0 then b else Z.lor b 0x0100.


(** ** The controller's side of a read with a dummy clock *)

(** The bytes a host samples when the data bytes [d] come one bit late:
    [carry] is the bit that precedes them and [tail] the seven bits that
    follow the last one. *)
Fixpoint one_bit_late (carry : Z) (d : list Z) (tail : Z) : list Z :=
  match d with
  | [] => [carry * 128 + tail]
  | b :: d' => (carry * 128 + b / 2) :: one_bit_late (b mod 2) d' tail
  end.


(** ** Events of a flush, by kind *)


Definition is_cpu_access (e : event) : bool :=
  match fst e with
  | dma_buf_begin_cpu_access | dma_buf_end_cpu_access => true
  | _ => false
  end.

(** The two address window commands, whose result the flush does not look
    at. *)
Definition is_window_command (c : call) : bool :=
  match c with
  | mipi_dbi_command_buf cmd (cmd_bytes _) _ =>
      (cmd =? MIPI_DCS_SET_COLUMN_ADDRESS) || (cmd =? MIPI_DCS_SET_PAGE_ADDRESS)
  | _ => false
  end.

(** The call that [mipi_dbi_command] makes for a command and its
    arguments. *)
Definition command_call (cmd : Z) (args : list Z) : call :=
  mipi_dbi_command_buf cmd (cmd_bytes (map to_u8 args)) (Z.of_nat (length args)).

(** A bus on which the controller refuses the address window commands with
    [-EINVAL] and everything else succeeds. *)
Definition bus_no_window : oracle :=
  {| reply := fun _ c => if is_window_command c then - EINVAL else 0;
     rx_byte := fun _ _ => 0;
     kmalloc_ok := fun _ _ => true;
     stray := fun _ => 0 |}.

(** ** The power mode *)

Definition DCS_POWER_MODE_DISPLAY : Z := Z.shiftl 1 2.
Definition DCS_POWER_MODE_DISPLAY_NORMAL_MODE : Z := Z.shiftl 1 3.
Definition DCS_POWER_MODE_SLEEP_MODE : Z := Z.shiftl 1 4.
Definition DCS_POWER_MODE_PARTIAL_MODE : Z := Z.shiftl 1 5.
Definition DCS_POWER_MODE_IDLE_MODE : Z := Z.shiftl 1 6.
Definition DCS_POWER_MODE_RESERVED_MASK : Z :=
  Z.lor (Z.lor (Z.shiftl 1 0) (Z.shiftl 1 1)) (Z.shiftl 1 7).

(** [mipi_dbi_display_is_on].  [mipi_dbi_command_buf] belongs to mipi-dbi.h,
    which is not part of the sources at hand, and is taken as the parameter
    [command_buf]: given the command, the buffer as it stands and the
    length, it returns the error code and what it stored into the buffer, if
    anything.  [val0] is what the uninitialised [val] holds. *)
Definition mipi_dbi_display_is_on
           (command_buf : Z -> list Z -> Z -> M (Z * option (list Z)))
           (val0 : Z) : M bool :=
  out <- command_buf MIPI_DCS_GET_POWER_MODE [val0] 1 ;;
  let '(r, data) := out in
  if negb (r =? 0) then ret false
  else
    let val := match data with Some d => nth 0 d val0 | None => val0 end in
    let val := to_u8 (Z.land val (Z.lnot DCS_POWER_MODE_RESERVED_MASK)) in
    if negb (val =? Z.lor (Z.lor DCS_POWER_MODE_DISPLAY
                                 DCS_POWER_MODE_DISPLAY_NORMAL_MODE)
                          DCS_POWER_MODE_SLEEP_MODE)
    then ret false
    else ret true.

(** ** Disabling the pipe *)

(** The calls of the disable path.  None of their results is looked at, so
    the path is a function of the device alone and its calls are listed in
    order. *)
Inductive pipe_call :=
| driver_call (c : call)
| memset_tx_buf (n : Z)
| tinydrm_disable_backlight
| regulator_disable.

Definition to_u16 (v : Z) : Z := Z.land v 0xFFFF.

(** [mipi_dbi_blank]: [min_width] and [min_height] are the fields of
    [drm->mode_config], stored into [u16] locals; [len] is computed in
    [int]. *)
Definition mipi_dbi_blank (min_width min_height : Z) : list pipe_call :=
  let height := to_u16 min_height in
  let width := to_u16 min_width in
  let len := to_int (width * height * 2) in
  [ memset_tx_buf len;
    driver_call (command_call MIPI_DCS_SET_COLUMN_ADDRESS
                   [0; 0; Z.land (Z.shiftr width 8) 0xFF;
                    Z.land (width - 1) 0xFF]);
    driver_call (command_call MIPI_DCS_SET_PAGE_ADDRESS
                   [0; 0; Z.land (Z.shiftr height 8) 0xFF;
                    Z.land (height - 1) 0xFF]);
    driver_call (mipi_dbi_command_buf MIPI_DCS_WRITE_MEMORY_START
                   (cmd_pixels from_tx_buf) len) ].

Definition set_power (m : mipi_dbi) (e p : bool) : mipi_dbi :=
  {| tinydrm := {| enabled := e; prepared := p |};
     spi := spi m; command := command m; read_commands := read_commands m;
     dc := dc m; mipi_tx_buf := mipi_tx_buf m; swap_bytes := swap_bytes m;
     write_only := write_only m; enable_delay_ms := enable_delay_ms m;
     rotation := rotation m |}.

(** [mipi_dbi_pipe_disable].  [backlight] and [regulator] tell whether
    [mipi->backlight] and [mipi->regulator] are set. *)
Definition mipi_dbi_pipe_disable (mipi : mipi_dbi) (backlight regulator : bool)
           (min_width min_height : Z) : list pipe_call * mipi_dbi :=
  let tdev := tinydrm mipi in
  let dark :=
    if enabled tdev then
      if backlight then [tinydrm_disable_backlight]
      else if negb regulator then mipi_dbi_blank min_width min_height
      else []
    else [] in
  let off := prepared tdev && regulator in
  ( [driver_call mutex_lock] ++ dark
      ++ (if off then [regulator_disable] else [])
      ++ [driver_call mutex_unlock],
    set_power mipi false (if off then false else prepared tdev) ).
(** * Properties *)

(** ** Bit and byte facts *)

Lemma top_bit_test (b : Z) :
  (if Z.land b (Z.shiftl 1 7) =? 0 then 0 else 1) = Z.b2z (Z.testbit b 7).
Proof.
  change (Z.shiftl 1 7) with (2 ^ 7).
  destruct (Z.testbit b 7) eqn:T.
  - destruct (Z.eqb_spec (Z.land b (2 ^ 7)) 0) as [E | _]; [ | reflexivity ].
    exfalso.
    assert (Z.testbit (Z.land b (2 ^ 7)) 7 = true) as X.
    { rewrite Z.land_spec, T, Z.pow2_bits_true by lia. reflexivity. }
    rewrite E, Z.bits_0 in X. discriminate.
  - destruct (Z.eqb_spec (Z.land b (2 ^ 7)) 0) as [_ | N]; [ reflexivity | ].
    exfalso. apply N. apply Z.bits_inj'. intros n Hn.
    rewrite Z.land_spec, Z.bits_0.
    destruct (Z.eq_dec n 7) as [-> | D].
    + rewrite T. reflexivity.
    + rewrite Z.pow2_bits_false by lia. apply andb_false_r.
Qed.

Lemma shift_in_spec (buf : list Z) (i : nat) :
  shift_in buf i =
  Z.land (Z.lor (Z.shiftl (nth i buf 0) 1) (Z.b2z (Z.testbit (nth (S i) buf 0) 7)))
         0xFF.
Proof. unfold shift_in, to_u8. rewrite top_bit_test. reflexivity. Qed.

(** ** The read-command table *)

Lemma command_is_read_from_spec (cmd : Z) (rest : list Z) :
  forall (pre done : list Z) (left : nat),
    Forall (fun e => e <> 0) pre ->
    (length pre <= left)%nat ->
    command_is_read_from left (length done) (done ++ pre ++ 0 :: rest) cmd
    = Some (existsb (Z.eqb cmd) pre).
Proof.
  induction pre as [ | e pre IH]; intros done left NZ LE.
  - destruct left as [ | left]; simpl; [ reflexivity | ].
    rewrite nth_error_app2, Nat.sub_diag by lia. reflexivity.
  - destruct left as [ | left]; simpl in LE; [ lia | ].
    inversion NZ as [ | ? ? He NZ']; subst.
    cbn [command_is_read_from].
    rewrite nth_error_app2, Nat.sub_diag by lia. cbn [nth_error app].
    destruct (Z.eqb_spec e 0) as [ | _]; [ contradiction | ].
    cbn [existsb].
    destruct (Z.eqb_spec cmd e) as [ | _]; [ reflexivity | ].
    cbn [orb].
    specialize (IH (done ++ [e]) left NZ' ltac:(lia)).
    rewrite length_app, Nat.add_1_r, <- app_assoc in IH. exact IH.
Qed.

Lemma existsb_eqb_In (cmd : Z) (l : list Z) :
  existsb (Z.eqb cmd) l = true <-> In cmd l.
Proof.
  rewrite existsb_exists. split.
  - intros (x & Hin & E). apply Z.eqb_eq in E. subst. exact Hin.
  - intros Hin. exists cmd. split; [ exact Hin | apply Z.eqb_refl ].
Qed.

(** C6: classification is a function of the device's table and the command
    byte alone, it answers for every command byte, the answer is "read"
    exactly when the byte stands in the table before the terminator, what
    follows the terminator plays no part (it is not even read: the array may
    end there), and the terminator value itself is never a read. *)
Theorem C6_command_classification :
  forall (mipi : mipi_dbi) (pre rest : list Z) (cmd : Z),
    read_commands mipi = Some (pre ++ 0 :: rest) ->
    Forall (fun e => e <> 0) pre ->
    (length pre <= 255)%nat ->
    mipi_dbi_command_is_read mipi cmd = Some (existsb (Z.eqb cmd) pre)
    /\ (mipi_dbi_command_is_read mipi cmd = Some true <-> In cmd pre)
    /\ (forall (mipi' : mipi_dbi) (rest' : list Z),
           read_commands mipi' = Some (pre ++ 0 :: rest') ->
           mipi_dbi_command_is_read mipi' cmd = mipi_dbi_command_is_read mipi cmd)
    /\ (cmd = 0 -> mipi_dbi_command_is_read mipi cmd = Some false).
Proof.
  intros mipi pre rest cmd Htbl NZ LE.
  assert (forall m r, read_commands m = Some (pre ++ 0 :: r) ->
                      mipi_dbi_command_is_read m cmd
                      = Some (existsb (Z.eqb cmd) pre)) as Hall.
  { intros m r Hm. unfold mipi_dbi_command_is_read. rewrite Hm.
    exact (command_is_read_from_spec cmd r pre [] 255 NZ LE). }
  rewrite (Hall mipi rest Htbl).
  split; [ reflexivity | ]. split; [ | split ].
  - rewrite <- existsb_eqb_In. split; intros E; congruence.
  - intros m r Hm. exact (Hall m r Hm).
  - intros ->. f_equal.
    destruct (existsb (Z.eqb 0) pre) eqn:E; [ | reflexivity ].
    apply existsb_eqb_In in E. rewrite Forall_forall in NZ.
    exfalso. exact (NZ 0 E eq_refl).
Qed.

Lemma C6_dcs_table_witness :
  mipi_dbi_command_is_read (sample_mipi false false) MIPI_DCS_GET_DISPLAY_STATUS
  = Some true
  /\ mipi_dbi_command_is_read (sample_mipi false false) MIPI_DCS_WRITE_MEMORY_START
     = Some false.
Proof.
  assert (Forall (fun e => e <> 0) (removelast mipi_dbi_dcs_read_commands)) as NZ.
  { repeat (constructor; [ intro E; cbv in E; discriminate E | ]).
    constructor. }
  split.
  - exact (proj1 (C6_command_classification
                    (sample_mipi false false)
                    (removelast mipi_dbi_dcs_read_commands) []
                    MIPI_DCS_GET_DISPLAY_STATUS eq_refl NZ
                    ltac:(simpl; lia))).
  - exact (proj1 (C6_command_classification
                    (sample_mipi false false)
                    (removelast mipi_dbi_dcs_read_commands) []
                    MIPI_DCS_WRITE_MEMORY_START eq_refl NZ
                    ltac:(simpl; lia))).
Defined.

(** ** The read path *)

(** C10: a read of length zero is refused with [-EINVAL] before anything
    else is looked at, the [write_only] flag included, and nothing is
    called: the trace is returned as it was. *)
Theorem C10_zero_length_read :
  forall (oc : oracle) (mipi : mipi_dbi) (cmd : Z) (tr : list event),
    mipi_dbi_typec3_command_read oc mipi cmd 0 tr = Some ((- EINVAL, None), tr)
    /\ - EINVAL <> - EACCES.
Proof.
  intros oc mipi cmd tr. split; [ reflexivity | discriminate ].
Qed.

(** C3, as stated, fails: on a write-only device a read of length zero
    returns [-EINVAL], not [-EACCES]. *)
Lemma C3_counterexample_zero_length :
  write_only (sample_mipi true false) = true
  /\ mipi_dbi_typec3_command_read (bus_ok []) (sample_mipi true false)
                                  MIPI_DCS_GET_POWER_MODE 0 []
     = Some ((- EINVAL, None), [])
  /\ mipi_dbi_typec3_command_read (bus_ok []) (sample_mipi true false)
                                  MIPI_DCS_GET_POWER_MODE 0 []
     <> Some ((- EACCES, None), []).
Proof.
  split; [ reflexivity | ]. split; [ reflexivity | ].
  intro E. vm_compute in E. discriminate E.
Qed.

(** C3, amended: on a write-only device every read of a non-zero length,
    whatever the command byte, returns [-EACCES] and calls nothing (the
    trace is unchanged, so no bus transfer is issued); a read of length zero
    returns [-EINVAL], also without calling anything. *)
Theorem C3_write_only_read_denied :
  forall (oc : oracle) (mipi : mipi_dbi) (cmd len : Z) (tr : list event),
    write_only mipi = true ->
    (len <> 0 ->
     mipi_dbi_typec3_command_read oc mipi cmd len tr
     = Some ((- EACCES, None), tr))
    /\ (len = 0 ->
        mipi_dbi_typec3_command_read oc mipi cmd len tr
        = Some ((- EINVAL, None), tr)).
Proof.
  intros oc mipi cmd len tr WO. unfold mipi_dbi_typec3_command_read.
  split; intros Hl.
  - destruct (Z.eqb_spec len 0) as [ | _]; [ contradiction | ].
    rewrite WO. reflexivity.
  - subst len. reflexivity.
Qed.

Lemma C3_write_only_read_denied_witness :
  mipi_dbi_typec3_command_read (bus_ok []) (sample_mipi true false)
                               MIPI_DCS_GET_DISPLAY_ID 3 []
  = Some ((- EACCES, None), []).
Proof.
  apply (C3_write_only_read_denied (bus_ok []) (sample_mipi true false)
                                   MIPI_DCS_GET_DISPLAY_ID 3 [] eq_refl).
  discriminate.
Defined.

(** C4: for [MIPI_DCS_GET_DISPLAY_ID] and [MIPI_DCS_GET_DISPLAY_STATUS] on a
    device that may be read, a read of 3 or 4 bytes clocks in one byte more
    than asked and stores, at each index [i], the low 8 bits of
    [(raw[i] << 1) | top_bit(raw[i+1])]; any other length returns [-EINVAL]
    and calls nothing.  The raw bytes 82 40 10 00 (hex) of a 3-byte
    identification read give 04 80 20. *)
Theorem C4_legacy_read_quirk :
  forall (oc : oracle) (mipi : mipi_dbi) (cmd num : Z) (tr : list event),
    cmd = MIPI_DCS_GET_DISPLAY_ID \/ cmd = MIPI_DCS_GET_DISPLAY_STATUS ->
    write_only mipi = false ->
    (num = 3 \/ num = 4 ->
     kmalloc_ok oc tr (num + 1) = true ->
     (forall m, reply oc (tr ++ [(gpiod_set_value_cansleep 0, 0)]) (spi_sync m) = 0) ->
     let raw i :=
       Z.land (rx_byte oc (tr ++ [(gpiod_set_value_cansleep 0, 0)]) i) 0xFF in
     exists t0 t1,
       mipi_dbi_typec3_command_read oc mipi cmd num tr
       = Some ((0, Some (map (fun i =>
                                Z.land (Z.lor (Z.shiftl (raw i) 1)
                                              (Z.b2z (Z.testbit (raw (S i)) 7)))
                                       0xFF)
                             (seq 0 (Z.to_nat num)))),
               tr ++ [(gpiod_set_value_cansleep 0, 0); (spi_sync [t0; t1], 0)])
       /\ tx_buf t0 = Some [cmd] /\ len t0 = 1
       /\ rx_buf t1 = true /\ len t1 = num + 1)
    /\ (num <> 3 -> num <> 4 ->
        mipi_dbi_typec3_command_read oc mipi cmd num tr
        = Some ((- EINVAL, None), tr))
    /\ map (shift_in [0x82; 0x40; 0x10; 0x00]) (seq 0 3) = [0x04; 0x80; 0x20].
Proof.
  intros oc mipi cmd num tr Hcmd WO.
  assert ((cmd =? MIPI_DCS_GET_DISPLAY_ID)
          || (cmd =? MIPI_DCS_GET_DISPLAY_STATUS) = true) as Q.
  { destruct Hcmd as [-> | ->]; reflexivity. }
  split; [ | split; [ | reflexivity ] ].
  - intros Hn Hk Hr raw.
    unfold mipi_dbi_typec3_command_read. rewrite Q, WO.
    destruct Hn as [-> | ->]; cbn -[Z.land Z.lor Z.shiftl Z.testbit];
      unfold bind, kmalloc; cbn in Hk; rewrite Hk;
      cbn -[Z.land Z.lor Z.shiftl Z.testbit];
      unfold ext; rewrite Hr;
      cbn -[Z.land Z.lor Z.shiftl Z.testbit];
      do 2 eexists.
    all: split;
      [ rewrite <- app_assoc; cbn [app];
        unfold ret, shift_in, to_u8, raw;
        change (Pos.to_nat 3) with 3%nat; change (Pos.to_nat 4) with 4%nat;
        change (Pos.to_nat 5) with 5%nat;
        cbn [seq map nth]; rewrite !top_bit_test; reflexivity
      | repeat split ].
  - intros N3 N4. unfold mipi_dbi_typec3_command_read. rewrite Q, WO.
    destruct (Z.eqb_spec num 0) as [ | _]; [ reflexivity | ].
    destruct (Z.eqb_spec num 3) as [ | _]; [ contradiction | ].
    destruct (Z.eqb_spec num 4) as [ | _]; [ contradiction | ].
    reflexivity.
Qed.

Lemma C4_identification_read_witness :
  exists tr',
    mipi_dbi_typec3_command_read (bus_ok [0x82; 0x40; 0x10; 0x00])
                                 (sample_mipi false false)
                                 MIPI_DCS_GET_DISPLAY_ID 3 []
    = Some ((0, Some [0x04; 0x80; 0x20]), tr').
Proof.
  destruct (proj1 (C4_legacy_read_quirk
                     (bus_ok [0x82; 0x40; 0x10; 0x00])
                     (sample_mipi false false)
                     MIPI_DCS_GET_DISPLAY_ID 3 []
                     (or_introl eq_refl) eq_refl)
                  (or_introl eq_refl) eq_refl (fun _ => eq_refl))
    as (t0 & t1 & E & _).
  eexists. exact E.
Defined.

(** ** The emulated 9-bit transfer *)

(** C7: with the control bit at "command" the emulation takes exactly one
    byte: any other length returns [-EINVAL] and calls nothing; the one byte
    goes out as a single 9-byte transfer, eight zero bytes and then the
    byte. *)
Theorem C7_command_byte_block :
  forall (hl : helpers) (oc : oracle) (mipi : mipi_dbi) (buf : list Z)
         (num max_chunk : Z) (tr : list event),
    (num <> 1 ->
     mipi_dbi_spi1e_transfer hl oc mipi 0 buf num max_chunk tr
     = Some (- EINVAL, tr))
    /\ (forall (b : Z) (rest : list Z),
           num = 1 -> buf = b :: rest ->
           9 <= tinydrm_spi_max_transfer_size hl (spi mipi) max_chunk ->
           kmalloc_ok oc tr 9 = true ->
           let t := tr8 [0; 0; 0; 0; 0; 0; 0; 0; b] 9 in
           mipi_dbi_spi1e_transfer hl oc mipi 0 buf num max_chunk tr
           = Some (reply oc tr (spi_sync [t]),
                   tr ++ [(spi_sync [t], reply oc tr (spi_sync [t]))])
           /\ wire_bytes t = [0; 0; 0; 0; 0; 0; 0; 0; b]).
Proof.
  intros hl oc mipi buf num max_chunk tr. split.
  - intros N. unfold mipi_dbi_spi1e_transfer.
    destruct (_ <? 9); [ reflexivity | ]. change (0 =? 0) with true. cbv iota.
    destruct (Z.eqb_spec num 1) as [ | _]; [ contradiction | reflexivity ].
  - intros b rest -> -> Hmax Hk t. split; [ | reflexivity ].
    unfold mipi_dbi_spi1e_transfer.
    destruct (Z.ltb_spec (tinydrm_spi_max_transfer_size hl (spi mipi) max_chunk) 9)
      as [ | _]; [ lia | ].
    change (0 =? 0) with true. change (1 =? 1) with true. cbn [negb].
    unfold bind, kmalloc. rewrite Hk. reflexivity.
Qed.

Lemma C7_command_byte_block_witness :
  mipi_dbi_spi1e_transfer (sample_helpers false) (bus_ok []) (sample_mipi false false)
                          0 [MIPI_DCS_SET_COLUMN_ADDRESS] 1 4096 []
  = Some (0, [(spi_sync [tr8 [0; 0; 0; 0; 0; 0; 0; 0; 0x2A] 9], 0)]).
Proof.
  exact (proj1 (proj2 (C7_command_byte_block
                         (sample_helpers false) (bus_ok []) (sample_mipi false false)
                         [MIPI_DCS_SET_COLUMN_ADDRESS] 1 4096 [])
                      MIPI_DCS_SET_COLUMN_ADDRESS [] eq_refl eq_refl
                      ltac:(cbv; discriminate) eq_refl)).
Defined.

(** ** Length of the emulated transfers *)

Lemma land_lnot_7 (x : Z) : Z.land x (Z.lnot 0x7) = 8 * (x / 8).
Proof.
  rewrite <- Z.ldiff_land. change 7 with (Z.ones 3).
  rewrite Z.ldiff_ones_r by lia.
  rewrite Z.shiftr_div_pow2, Z.shiftl_mul_pow2 by lia.
  change (2 ^ 3) with 8. lia.
Qed.

Lemma pack_blocks_added (oc : oracle) (src : list Z) (chunk : Z) :
  forall (fuel : nat) (i : Z) (pos : nat) (out : list Z) (added : Z),
    (Z.to_nat ((chunk - i + 7) / 8) < fuel)%nat ->
    exists out' pos',
      pack_blocks oc fuel i chunk src pos out added
      = Some (out', pos', added + Z.max 0 ((chunk - i + 7) / 8)).
Proof.
  induction fuel as [ | fuel IH]; intros i pos out added Hf; [ lia | ].
  cbn [pack_blocks].
  destruct (Z.ltb_spec i chunk) as [Hlt | Hge].
  - assert ((chunk - (i + 8) + 7) / 8 = (chunk - i + 7) / 8 - 1) as Hstep
        by (Z.div_mod_to_equations; lia).
    assert (1 <= (chunk - i + 7) / 8) as Hpos
        by (Z.div_mod_to_equations; lia).
    destruct (IH (i + 8) (pos + 8)%nat (out ++ pack_block oc src pos)
                 (added + 1)) as (out' & pos' & E).
    { rewrite Hstep. lia. }
    rewrite E, Hstep. do 2 eexists. f_equal. f_equal. lia.
  - assert ((chunk - i + 7) / 8 <= 0) as Hle
        by (Z.div_mod_to_equations; lia).
    do 2 eexists. f_equal. f_equal. lia.
Qed.

Lemma wire_total_zero (msc : Z) : wire_total msc 0 = 0.
Proof.
  unfold wire_total. rewrite Zdiv_0_l, Zmod_0_l. reflexivity.
Qed.

Lemma wire_total_small (msc n : Z) :
  0 < n < msc -> wire_total msc n = last_transfer_len n.
Proof.
  intros Hn. unfold wire_total.
  rewrite Z.div_small, Z.mod_small by lia. lia.
Qed.

Lemma wire_total_step (msc n : Z) :
  0 < msc <= n ->
  wire_total msc n = msc + msc / 8 + wire_total msc (n - msc).
Proof.
  intros Hn. unfold wire_total.
  replace n with (n - msc + 1 * msc) at 1 2 by ring.
  rewrite Z.div_add, Z.mod_add by lia. ring.
Qed.

Lemma spi1e_loop_length (oc : oracle) (src : list Z) (msc : Z) :
  never_fails oc -> 8 <= msc -> msc mod 8 = 0 ->
  forall (fuel : nat) (n : Z) (pos : nat) (tr : list event),
    0 <= n -> (Z.to_nat n < fuel)%nat ->
    exists new,
      spi1e_loop oc fuel src pos n msc tr = Some (0, tr ++ new)
      /\ wire_length new = wire_total msc n.
Proof.
  intros [Hr Hk] Hm Hm8.
  induction fuel as [ | fuel IH]; intros n pos tr Hn Hf; [ lia | ].
  cbn [spi1e_loop].
  destruct (Z.eqb_spec n 0) as [-> | Hn0].
  { exists []. rewrite app_nil_r, wire_total_zero. split; reflexivity. }
  assert (forall dst k pos',
             0 <= n - Z.min n msc -> (Z.to_nat (n - Z.min n msc) < fuel)%nat ->
             exists new,
               (x <- ext oc (spi_sync [tr8 dst k]) ;;
                if negb (x =? 0) then ret x
                else spi1e_loop oc fuel src pos' (n - Z.min n msc) msc) tr
               = Some (0, tr ++ new)
               /\ wire_length new = k + wire_total msc (n - Z.min n msc))
    as Step.
  { intros dst k pos' H0 H1. unfold bind, ext. rewrite Hr.
    change (negb (0 =? 0)) with false. cbv iota.
    destruct (IH (n - Z.min n msc) pos' (tr ++ [(spi_sync [tr8 dst k], 0)])
                 H0 H1) as (new & E & L).
    rewrite E, <- app_assoc. eexists. split; [ reflexivity | ].
    cbn [app wire_length fold_right len tr8]. rewrite L. lia. }
  destruct (Z.ltb_spec (Z.min n msc) 8) as [Hlt | Hge].
  - assert (Z.min n msc = n) as Hmin by lia.
    destruct (shift_partial oc _ _ _ _ _) as [tmp pos'].
    destruct (Step (cpu_to_be64 tmp ++ [0]) (8 + 1) pos') as (new & E & L);
      [ lia | lia | ].
    exists new. split; [ exact E | ].
    rewrite L, Hmin, Z.sub_diag, wire_total_zero, wire_total_small by lia.
    unfold last_transfer_len.
    destruct (Z.eqb_spec n 0); [ lia | ].
    destruct (Z.ltb_spec n 8); lia.
  - destruct (pack_blocks_added oc src (Z.min n msc)
                (S (Z.to_nat (Z.min n msc))) 0 pos [] 0)
      as (dst & pos' & E).
    { rewrite Z.sub_0_r.
      assert ((Z.min n msc + 7) / 8 <= Z.min n msc)
        by (Z.div_mod_to_equations; lia).
      lia. }
    rewrite E.
    destruct (Step dst (Z.min n msc + (0 + Z.max 0 ((Z.min n msc - 0 + 7) / 8)))
                   pos') as (new & E' & L); [ lia | lia | ].
    exists new. split; [ exact E' | ].
    rewrite L, Z.sub_0_r.
    assert (0 <= (Z.min n msc + 7) / 8) by (Z.div_mod_to_equations; lia).
    rewrite Z.max_r by lia.
    destruct (Z.le_gt_cases msc n) as [Hfull | Hlast].
    + rewrite Z.min_r by lia. rewrite (wire_total_step msc n) by lia.
      assert ((msc + 7) / 8 = msc / 8) by (Z.div_mod_to_equations; lia).
      lia.
    + rewrite Z.min_l in * by lia.
      rewrite Z.sub_diag, wire_total_zero, wire_total_small by lia.
      unfold last_transfer_len.
      destruct (Z.eqb_spec n 0); [ lia | ].
      destruct (Z.ltb_spec n 8); lia.
Qed.

(** With a bus that takes everything, the data transfer of [n] bytes
    returns 0 and puts [wire_total] bytes on the wire, the chunk size being
    the one the code derives from the transfer size limit. *)
Lemma spi1e_transfer_length (hl : helpers) (oc : oracle) (mipi : mipi_dbi)
      (d : Z) (buf : list Z) (n max_chunk : Z) (tr : list event) :
  never_fails oc -> d <> 0 -> 0 <= n ->
  9 <= tinydrm_spi_max_transfer_size hl (spi mipi) max_chunk ->
  let msc :=
    Z.max 8 (8 * (Z.min (tinydrm_spi_max_transfer_size hl (spi mipi) max_chunk
                         / 9 * 8) n / 8)) in
  exists new,
    mipi_dbi_spi1e_transfer hl oc mipi d buf n max_chunk tr
    = Some (0, tr ++ new)
    /\ wire_length new = wire_total msc n.
Proof.
  intros Hok Hd Hn Hmax msc. unfold mipi_dbi_spi1e_transfer.
  destruct (Z.ltb_spec (tinydrm_spi_max_transfer_size hl (spi mipi) max_chunk) 9)
    as [ | _]; [ lia | ].
  destruct (Z.eqb_spec d 0) as [ | _]; [ contradiction | ].
  unfold bind, kmalloc. rewrite (proj2 Hok). cbn [negb].
  rewrite land_lnot_7. fold msc.
  apply spi1e_loop_length; try assumption; try lia.
  unfold msc. destruct (Z.max_spec 8 (8 * (Z.min (tinydrm_spi_max_transfer_size hl (spi mipi) max_chunk / 9 * 8) n / 8))) as [[_ ->] | [_ ->]].
  - rewrite Z.mul_comm. apply Z.mod_mul. lia.
  - reflexivity.
Qed.

(** The claimed length ceil(n/8)*9 is reached exactly when what is left for
    the last transfer is shorter than 8 bytes or a multiple of 8. *)
Lemma wire_total_claimed_iff (msc n : Z) :
  8 <= msc -> msc mod 8 = 0 -> 0 <= n ->
  (wire_total msc n = (n + 7) / 8 * 9
   <-> n mod msc < 8 \/ (n mod msc) mod 8 = 0).
Proof.
  intros Hm Hm8 Hn. unfold wire_total.
  pose proof (Z.div_mod n msc ltac:(lia)) as Hdm.
  pose proof (Z.mod_pos_bound n msc ltac:(lia)) as Hr.
  pose proof (Z.div_pos n msc Hn ltac:(lia)) as Hq.
  set (q := n / msc) in *. set (r := n mod msc) in *.
  assert (exists m, msc = 8 * m /\ 1 <= m) as (m & -> & Hm1).
  { exists (msc / 8). Z.div_mod_to_equations. lia. }
  replace (8 * m / 8) with m by (rewrite Z.mul_comm, Z.div_mul; lia).
  assert ((n + 7) / 8 = q * m + (r + 7) / 8) as ->.
  { rewrite Hdm. replace (8 * m * q + r + 7) with (r + 7 + q * m * 8) by ring.
    rewrite Z.div_add by lia. ring. }
  unfold last_transfer_len.
  destruct (Z.eqb_spec r 0) as [-> | Hr0].
  - change ((0 + 7) / 8) with 0. split; [ intros _; left | intros _ ]; lia.
  - destruct (Z.ltb_spec r 8) as [Hlt | Hge].
    + assert ((r + 7) / 8 = 1) as -> by (Z.div_mod_to_equations; lia).
      split; [ intros _; left | intros _ ]; lia.
    + split.
      * intros E. right. revert E. Z.div_mod_to_equations. lia.
      * intros [ | E]; [ lia | ]. revert E. Z.div_mod_to_equations. lia.
Qed.

(** As long as the source bytes fit one chunk of the transfer size limit,
    the wire carries ceil(n/8)*9 bytes. *)
Lemma spi1e_transfer_length_one_chunk (hl : helpers) (oc : oracle)
      (mipi : mipi_dbi) (d : Z) (buf : list Z) (n max_chunk : Z)
      (tr : list event) :
  never_fails oc -> d <> 0 -> 0 <= n ->
  9 <= tinydrm_spi_max_transfer_size hl (spi mipi) max_chunk ->
  n <= tinydrm_spi_max_transfer_size hl (spi mipi) max_chunk / 9 * 8 ->
  exists new,
    mipi_dbi_spi1e_transfer hl oc mipi d buf n max_chunk tr
    = Some (0, tr ++ new)
    /\ wire_length new = (n + 7) / 8 * 9.
Proof.
  intros Hok Hd Hn Hmax Hfit.
  destruct (spi1e_transfer_length hl oc mipi d buf n max_chunk tr
              Hok Hd Hn Hmax) as (new & E & L).
  exists new. split; [ exact E | ].
  rewrite L, Z.min_r by lia.
  assert (8 <= Z.max 8 (8 * (n / 8))) as H8 by lia.
  assert (Z.max 8 (8 * (n / 8)) mod 8 = 0) as Hmod.
  { destruct (Z.max_spec 8 (8 * (n / 8))) as [[_ ->] | [_ ->]];
      [ rewrite Z.mul_comm; apply Z.mod_mul; lia | reflexivity ]. }
  apply wire_total_claimed_iff; try assumption. left.
  destruct (Z.lt_ge_cases n 8) as [Hs | Hl].
  - replace (n / 8) with 0 by (Z.div_mod_to_equations; lia).
    change (Z.max 8 (8 * 0)) with 8. Z.div_mod_to_equations. lia.
  - assert (1 <= n / 8) as Hk by (Z.div_mod_to_equations; lia).
    rewrite Z.max_r by lia.
    assert (n mod (8 * (n / 8)) = n mod 8) as ->.
    { symmetry. apply (Z.mod_unique n (8 * (n / 8)) 1).
      - left. Z.div_mod_to_equations. lia.
      - Z.div_mod_to_equations. lia. }
    Z.div_mod_to_equations. lia.
Qed.

(** C2 fails on the code.  With the 4096-byte limit that
    [mipi_dbi_typec1_command] passes, 3649 parameter bytes go out as a
    transfer of 4095 bytes (455 full groups) followed by one of 11 bytes: the
    9 bytes left are neither fewer than 8 nor a multiple of 8, the loop over
    full blocks packs two groups out of them and the transfer length is set
    to 9 + 2.  The total is 4106 bytes where ceil(3649/8)*9 is 4113. *)
Theorem C2_short_last_transfer :
  let run := mipi_dbi_spi1e_transfer (sample_helpers false) (bus_ok [])
               (sample_mipi false false) 1 (repeat 0xAB 3649) 3649 4096 [] in
  option_map fst run = Some 0
  /\ option_map (fun x => map (fun e => match fst e with
                                        | spi_sync [t] => len t
                                        | _ => -1
                                        end) (snd x)) run
     = Some [4095; 11]
  /\ option_map (fun x => wire_length (snd x)) run = Some 4106
  /\ (3649 + 7) / 8 * 9 = 4113.
Proof.
  vm_compute. repeat split.
Qed.

(** ** Which encoding a transfer uses *)

Lemma spi1e_loop_bpw (oc : oracle) :
  forall (fuel : nat) (src : list Z) (pos : nat) (n msc : Z)
         (tr : list event) (r : Z) (tr' : list event),
    spi1e_loop oc fuel src pos n msc tr = Some (r, tr') ->
    exists new, tr' = tr ++ new /\ only_spi_sync_of 8 new.
Proof.
  induction fuel as [ | fuel IH]; intros src pos n msc tr r tr' E;
    [ discriminate E | ].
  cbn [spi1e_loop] in E.
  destruct (n =? 0).
  { injection E as <- <-. exists []. rewrite app_nil_r. split; constructor. }
  assert (forall dst k pos',
             (x <- ext oc (spi_sync [tr8 dst k]) ;;
              if negb (x =? 0) then ret x
              else spi1e_loop oc fuel src pos' (n - Z.min n msc) msc) tr
             = Some (r, tr') ->
             exists new, tr' = tr ++ new /\ only_spi_sync_of 8 new) as Step.
  { intros dst k pos' E'. unfold bind, ext in E'.
    destruct (negb (_ =? 0)).
    - injection E' as <- <-. eexists. split; [ reflexivity | ].
      constructor; [ | constructor ]. do 2 eexists. split; reflexivity.
    - apply IH in E'. destruct E' as (new & -> & A).
      rewrite <- app_assoc. eexists. split; [ reflexivity | ].
      constructor; [ | exact A ]. do 2 eexists. split; reflexivity. }
  destruct (Z.min n msc <? 8).
  - destruct (shift_partial oc _ _ _ _ _) as [tmp pos']. eapply Step, E.
  - destruct (pack_blocks oc _ _ _ _ _ _ _) as [[[dst pos'] added] | ];
      [ eapply Step, E | discriminate E ].
Qed.

Lemma spi1e_transfer_bpw (hl : helpers) (oc : oracle) (mipi : mipi_dbi)
      (d : Z) (buf : list Z) (n max_chunk : Z) (tr : list event) (r : Z)
      (tr' : list event) :
  mipi_dbi_spi1e_transfer hl oc mipi d buf n max_chunk tr = Some (r, tr') ->
  exists new, tr' = tr ++ new /\ only_spi_sync_of 8 new.
Proof.
  unfold mipi_dbi_spi1e_transfer. intros E.
  assert (exists new, tr = tr ++ new /\ only_spi_sync_of 8 new) as Nil.
  { exists []. rewrite app_nil_r. split; constructor. }
  destruct (_ <? 9); [ injection E as <- <-; exact Nil | ].
  destruct (d =? 0).
  - destruct (negb (n =? 1)); [ injection E as <- <-; exact Nil | ].
    unfold bind, kmalloc in E. destruct (kmalloc_ok oc tr 9); cbn [negb] in E;
      [ | injection E as <- <-; exact Nil ].
    unfold ext in E. injection E as <- <-. eexists. split; [ reflexivity | ].
    constructor; [ | constructor ]. do 2 eexists. split; reflexivity.
  - unfold bind, kmalloc in E. destruct (kmalloc_ok oc tr _); cbn [negb] in E;
      [ | injection E as <- <-; exact Nil ].
    eapply spi1e_loop_bpw, E.
Qed.

Lemma spi1_loop_bpw (oc : oracle) (d : Z) (src : list Z) (msc : Z) :
  forall (fuel : nat) (pos : nat) (n : Z)
         (tr : list event) (r : Z) (tr' : list event),
    spi1_loop oc fuel d src pos n msc tr = Some (r, tr') ->
    exists new, tr' = tr ++ new /\ only_spi_sync_of 9 new.
Proof.
  induction fuel as [ | fuel IH]; intros pos n tr r tr' E;
    [ discriminate E | ].
  cbn [spi1_loop] in E.
  destruct (n =? 0).
  { injection E as <- <-. exists []. rewrite app_nil_r. split; constructor. }
  unfold bind, ext in E.
  destruct (negb (_ =? 0)).
  - injection E as <- <-. eexists. split; [ reflexivity | ].
    constructor; [ | constructor ]. do 2 eexists. split; reflexivity.
  - apply IH in E. destruct E as (new & -> & A).
    rewrite <- app_assoc. eexists. split; [ reflexivity | ].
    constructor; [ | exact A ]. do 2 eexists. split; reflexivity.
Qed.

Lemma spi1_native_bpw (hl : helpers) (oc : oracle) (mipi : mipi_dbi)
      (d : Z) (buf : list Z) (n max_chunk : Z) (tr : list event) (r : Z)
      (tr' : list event) :
  spi1_native hl oc mipi d buf n max_chunk tr = Some (r, tr') ->
  exists new, tr' = tr ++ new /\ only_spi_sync_of 9 new.
Proof.
  unfold spi1_native, bind, kmalloc. intros E.
  destruct (kmalloc_ok oc tr _); cbn [negb] in E.
  - eapply spi1_loop_bpw, E.
  - injection E as <- <-. exists []. rewrite app_nil_r. split; constructor.
Qed.

Lemma mipi_dbi_init_command (oc : oracle) (mipi : mipi_dbi)
      (mode : drm_display_mode) (rot : Z) (tr : list event) :
  exists r mipi' tr',
    mipi_dbi_init oc mipi mode rot tr = Some ((r, mipi'), tr')
    /\ command mipi' = command mipi /\ spi mipi' = spi mipi
    /\ dc mipi' = dc mipi /\ write_only mipi' = write_only mipi
    /\ read_commands mipi' = read_commands mipi.
Proof.
  unfold mipi_dbi_init, bind, kmalloc, ext, ext_void, ret.
  destruct (kmalloc_ok oc tr _); cbn [negb].
  - destruct (negb (_ =? 0)).
    + do 3 eexists. split; [ reflexivity | repeat split ].
    + destruct (negb (_ =? 0)).
      * do 3 eexists. split; [ reflexivity | repeat split ].
      * do 3 eexists. split; [ reflexivity | repeat split ].
  - do 3 eexists. split; [ reflexivity | repeat split ].
Qed.

(** The write path of Type C Option 3: the command byte goes out as one
    8-bit word with the D/C line low, the parameters with the line high, as
    16-bit words for a memory write without byte swapping and as 8-bit words
    otherwise. *)
Lemma typec3_command_write (oc : oracle) (mipi : mipi_dbi) (cmd : Z)
      (par : list Z) (num : Z) (tr : list event) :
  mipi_dbi_command_is_read mipi cmd = Some false ->
  num <> 0 ->
  reply oc (tr ++ [(gpiod_set_value_cansleep 0, 0)])
        (tinydrm_spi_transfer 8 [cmd] 1) = 0 ->
  exists r,
    mipi_dbi_typec3_command oc mipi cmd par num tr
    = Some ((r, None),
            tr ++ [ (gpiod_set_value_cansleep 0, 0);
                    (tinydrm_spi_transfer 8 [cmd] 1, 0);
                    (gpiod_set_value_cansleep 1, 0);
                    (tinydrm_spi_transfer
                       (if (cmd =? MIPI_DCS_WRITE_MEMORY_START)
                           && negb (swap_bytes mipi) then 16 else 8)
                       par num, r) ]).
Proof.
  intros Hw Hn Hr. unfold mipi_dbi_typec3_command. rewrite Hw.
  unfold bind, ext_void, ext, ret. rewrite Hr.
  destruct (Z.eqb_spec num 0) as [ | _]; [ contradiction | ].
  cbn [negb orb Z.eqb]. rewrite <- !app_assoc. cbn [app].
  eexists. reflexivity.
Qed.

(** Type C Option 1 has no read path: a read command is refused with
    [-ENOTSUPP] and nothing is sent. *)
Lemma typec1_command_read_refused (hl : helpers) (oc : oracle)
      (mipi : mipi_dbi) (cmd : Z) (par : list Z) (num : Z) (tr : list event) :
  mipi_dbi_command_is_read mipi cmd = Some true ->
  mipi_dbi_typec1_command hl oc mipi cmd par num tr = Some (- ENOTSUPP, tr).
Proof.
  intros Hr. unfold mipi_dbi_typec1_command. rewrite Hr. reflexivity.
Qed.

Example spi_init_without_dc :
  option_map (fun x => (fst (fst x), command (snd (fst x)),
                        swap_bytes (snd (fst x))))
             (mipi_dbi_spi_init (sample_helpers false) (bus_ok []) sample_spi
                {| tinydrm := {| enabled := false; prepared := false |};
                   spi := sample_spi; command := None; read_commands := None;
                   dc := false; mipi_tx_buf := None; swap_bytes := false;
                   write_only := false; enable_delay_ms := 0; rotation := 0 |}
                false false sample_mode 90 [])
  = Some (0, Some typec1_command, true).
Proof. reflexivity. Qed.

(** ** The flush *)

Ltac break_step :=
  match goal with
  | |- context [tinydrm_check_dirty ?h ?m ?f ?c ?n] =>
      destruct (tinydrm_check_dirty h m f c n) as [[? ?] | ]
  | |- context [tinydrm_merge_clips ?h ?c ?n ?f ?w ?hh] =>
      destruct (tinydrm_merge_clips h c n f w hh) as [? ?]
  | |- context [if ?b then _ else _] => destruct b eqn:?
  end; cbv beta iota.

Ltac absurd_branch :=
  match goal with
  | Hc : false = true |- _ => discriminate Hc
  | Hc : true = false |- _ => discriminate Hc
  | Hc : negb (- EINVAL =? 0) = false |- _ => discriminate Hc
  | Hc : negb (0 =? 0) = true |- _ => discriminate Hc
  end.

Ltac close_enabled_flag :=
  match goal with
  | Hb : negb (?x =? 0) = _ |- (?x =? 0) = true /\ _ \/ _ =>
      destruct (x =? 0); cbn in Hb;
      first [ discriminate Hb
            | left; split; reflexivity
            | right; split; reflexivity ]
  end.

Ltac split_at n :=
  lazymatch n with
  | O => exists []
  | 1%nat => eexists [_]
  | 2%nat => eexists [_; _]
  | 3%nat => eexists [_; _; _]
  | 4%nat => eexists [_; _; _; _]
  | 5%nat => eexists [_; _; _; _; _]
  | 6%nat => eexists [_; _; _; _; _; _]
  | 7%nat => eexists [_; _; _; _; _; _; _]
  | 8%nat => eexists [_; _; _; _; _; _; _; _]
  end.

Ltac split_before_backlight :=
  let go n :=
    solve [ split_at n; eexists; repeat (split; [ reflexivity | ]);
            close_enabled_flag ] in
  first [ go 0%nat | go 1%nat | go 2%nat | go 3%nat | go 4%nat
        | go 5%nat | go 6%nat | go 7%nat | go 8%nat ].

(** Every flush returns, and either leaves the backlight and the device
    alone, or ends in one backlight enable followed by the unlock. *)
Lemma fb_dirty_backlight_cases (hl : helpers) (oc : oracle) (mipi : mipi_dbi)
      (fb : drm_framebuffer) (flags : Z) (clips : list drm_clip_rect) (n : Z)
      (tr : list event) :
  exists r mipi' new,
    mipi_dbi_fb_dirty hl oc mipi fb flags clips n tr
    = Some ((r, mipi'), tr ++ new)
    /\ ((filter is_backlight_enable new = [] /\ mipi' = mipi)
        \/ (enabled (tinydrm mipi) = false
            /\ exists pre rb,
                new = pre ++ [(tinydrm_enable_backlight, rb); (mutex_unlock, 0)]
                /\ filter is_backlight_enable pre = []
                /\ r = rb
                /\ ((rb =? 0) = true /\ mipi' = set_enabled mipi true
                    \/ (rb =? 0) = false /\ mipi' = mipi))).
Proof.
  unfold mipi_dbi_fb_dirty, mipi_dbi_buf_copy, mipi_dbi_command,
    bind, ext, ext_void, ret.
  destruct (enabled (tinydrm mipi)) eqn:En; cbn [negb]; cbv beta iota.
  all: repeat break_step.
  all: try absurd_branch.
  all: rewrite <- ?app_assoc in *; cbn [app] in *; do 3 eexists;
    (split; [ reflexivity | ]).
  all: try solve [ left; split; reflexivity ].
  all: right; (split; [ reflexivity | ]); split_before_backlight.
Qed.

Lemma skipn_length_app {A} (l new : list A) : skipn (length l) (l ++ new) = new.
Proof.
  induction l as [ | a l IH]; [ reflexivity | exact IH ].
Qed.

Lemma filter_nil_not_In {A} (f : A -> bool) (l : list A) (a : A) :
  filter f l = [] -> f a = true -> ~ In a l.
Proof.
  intros E Ha Hin.
  assert (In a (filter f l)) as X by (apply filter_In; split; assumption).
  rewrite E in X. exact X.
Qed.

Lemma enable_discipline_step (hl : helpers) (oc : oracle) (mipi : mipi_dbi)
      (fb : drm_framebuffer) (flags : Z) (clips : list drm_clip_rect) (n : Z)
      (tr : list event) :
  exists r mipi' new,
    mipi_dbi_fb_dirty hl oc mipi fb flags clips n tr
    = Some ((r, mipi'), tr ++ new)
    /\ enable_discipline
         {| before := mipi; after := mipi'; result := r; events := new |}.
Proof.
  destruct (fb_dirty_backlight_cases hl oc mipi fb flags clips n tr)
    as (r & mipi' & new & E & C).
  exists r, mipi', new. split; [ exact E | ].
  unfold enable_discipline. cbn [before after result events].
  destruct C as [[F ->] | (En & pre & rb & -> & F & -> & S)].
  - split; [ | split ].
    + intros En. split; [ exact F | exact En ].
    + intros rb Hin. exfalso.
      exact (filter_nil_not_In is_backlight_enable new
               (tinydrm_enable_backlight, rb) F eq_refl Hin).
    + intros En En'. congruence.
  - split; [ | split ].
    + intros En'. congruence.
    + intros rb' Hin. apply in_app_or in Hin. destruct Hin as [Hin | Hin].
      * exfalso.
        exact (filter_nil_not_In is_backlight_enable pre
                 (tinydrm_enable_backlight, rb') F eq_refl Hin).
      * destruct Hin as [Heq | [Heq | []]]; [ | discriminate Heq ].
        injection Heq as <-. split; [ exact En | ]. split; [ reflexivity | ].
        destruct S as [[Hz ->] | [Hz ->]]; rewrite Hz;
          [ reflexivity | exact En ].
    + intros _ En'. destruct S as [[Hz ->] | [Hz ->]]; [ | congruence ].
      apply Z.eqb_eq in Hz. subst rb. split; [ reflexivity | ].
      exists pre. split; [ reflexivity | exact F ].
Qed.

(** A backlight that refuses to come on: the flush returns its error and the
    device stays not enabled, so the next flush tries again. *)
Example flush_backlight_failure :
  map (fun s => (result s, enabled (tinydrm (after s)),
                 length (filter is_backlight_enable (events s))))
      (flush_sequence (sample_helpers false) bus_no_backlight
         [ {| fa_fb := sample_fb; fa_flags := 0; fa_clips := [];
              fa_num_clips := 0 |};
           {| fa_fb := sample_fb; fa_flags := 0; fa_clips := [];
              fa_num_clips := 0 |} ]
         (sample_mipi false false) [])
  = [ (- EINVAL, false, 1%nat); (- EINVAL, false, 1%nat) ].
Proof. reflexivity. Qed.

(** C8: any number of flushes on one device all return; each of them keeps
    the enable discipline (the backlight is enabled only from a device whose
    [enabled] flag is false; the flag becomes true only by a backlight enable
    that returned 0 and is the last call before the unlock; a failed enable
    leaves the flag false and its error is the value returned); and from an
    enabled device on, no flush calls the backlight enable again. *)
Theorem C8_backlight_enabled_once :
  forall (hl : helpers) (oc : oracle) (args : list flush_args)
         (mipi : mipi_dbi) (tr : list event),
    let steps := flush_sequence hl oc args mipi tr in
    length steps = length args
    /\ chained mipi steps
    /\ Forall enable_discipline steps
    /\ (enabled (tinydrm mipi) = true ->
        Forall (fun s => filter is_backlight_enable (events s) = []
                         /\ enabled (tinydrm (after s)) = true) steps).
Proof.
  intros hl oc args. induction args as [ | a args IH]; intros mipi tr steps.
  - repeat split; constructor.
  - subst steps. cbn [flush_sequence].
    destruct (enable_discipline_step hl oc mipi (fa_fb a) (fa_flags a)
                (fa_clips a) (fa_num_clips a) tr)
      as (r & mipi' & new & E & D).
    rewrite E, skipn_length_app.
    destruct (IH mipi' (tr ++ new)) as (L & Ch & All & En).
    cbn [length chained before after].
    split; [ f_equal; exact L | ].
    split; [ split; [ reflexivity | exact Ch ] | ].
    split; [ constructor; [ exact D | exact All ] | ].
    intros Hen. destruct D as (D1 & _). cbn [before after events] in D1.
    destruct (D1 Hen) as (F & Hen').
    constructor; [ split; [ exact F | exact Hen' ] | exact (En Hen') ].
Qed.

Lemma C8_two_flushes_witness :
  Forall (fun s => filter is_backlight_enable (events s) = []
                   /\ enabled (tinydrm (after s)) = true)
         (flush_sequence (sample_helpers false) (bus_ok [])
            [ {| fa_fb := sample_fb; fa_flags := 0; fa_clips := [];
                 fa_num_clips := 0 |};
              {| fa_fb := sample_fb; fa_flags := 0; fa_clips := [];
                 fa_num_clips := 0 |} ]
            (sample_mipi false true) []).
Proof.
  exact (proj2 (proj2 (proj2
           (C8_backlight_enabled_once (sample_helpers false) (bus_ok [])
              [ {| fa_fb := sample_fb; fa_flags := 0; fa_clips := [];
                   fa_num_clips := 0 |};
                {| fa_fb := sample_fb; fa_flags := 0; fa_clips := [];
                   fa_num_clips := 0 |} ]
              (sample_mipi false true) []))) eq_refl).
Defined.

Lemma to_int_small (v : Z) : - 2 ^ 31 <= v <= INT_MAX -> to_int v = v.
Proof.
  unfold to_int, INT_MAX. intros Hv.
  rewrite Z.mod_small by lia. lia.
Qed.

(** C9: a flush of the full frame from a 16-bit source without byte
    swapping calls none of the copy helpers; its commands are one column
    address set, one page address set and one memory write, which names the
    framebuffer's own memory and width*height*2 bytes. *)
Theorem C9_full_frame_fast_path :
  forall (hl : helpers) (oc : oracle) (mipi : mipi_dbi) (fb : drm_framebuffer)
         (flags : Z) (clips clips' : list drm_clip_rect) (n n' : Z)
         (tr : list event),
    tinydrm_check_dirty hl mipi fb clips n = Some (clips', n') ->
    tinydrm_merge_clips hl clips' n' flags (width fb) (height fb)
    = ({| x1 := 0; y1 := 0; x2 := width fb; y2 := height fb |}, true) ->
    format fb = DRM_FORMAT_RGB565 ->
    swap_bytes mipi = false ->
    0 <= width fb * height fb * 2 <= INT_MAX ->
    exists r mipi' new,
      mipi_dbi_fb_dirty hl oc mipi fb flags clips n tr
      = Some ((r, mipi'), tr ++ new)
      /\ filter is_staging_copy new = []
      /\ map fst (filter is_command new)
         = [ mipi_dbi_command_buf MIPI_DCS_SET_COLUMN_ADDRESS
               (cmd_bytes (map to_u8 (window_args 0 (width fb)))) 4;
             mipi_dbi_command_buf MIPI_DCS_SET_PAGE_ADDRESS
               (cmd_bytes (map to_u8 (window_args 0 (height fb)))) 4;
             mipi_dbi_command_buf MIPI_DCS_WRITE_MEMORY_START
               (cmd_pixels from_fb_vaddr) (width fb * height fb * 2) ].
Proof.
  intros hl oc mipi fb flags clips clips' n n' tr Hd Hm Hf Hs Hb.
  unfold mipi_dbi_fb_dirty, mipi_dbi_command, bind, ext, ext_void, ret.
  rewrite Hd, Hm, Hs, Hf. cbv beta iota.
  change (negb true || false || (DRM_FORMAT_RGB565 =? DRM_FORMAT_XRGB8888))
    with false.
  cbv beta iota. change (negb (0 =? 0)) with false. cbv beta iota.
  cbn [x1 x2 y1 y2].
  replace ((width fb - 0) * (height fb - 0) * 2)
    with (width fb * height fb * 2) by ring.
  rewrite to_int_small by (unfold INT_MAX in *; lia).
  repeat break_step.
  all: rewrite <- ?app_assoc; cbn [app]; do 3 eexists;
    (split; [ reflexivity | split; reflexivity ]).
Qed.

Lemma C9_full_frame_fast_path_witness :
  exists r mipi' new,
    mipi_dbi_fb_dirty (sample_helpers false) (bus_ok [])
                      (sample_mipi false false) sample_fb 0 [] 0 []
    = Some ((r, mipi'), new)
    /\ filter is_staging_copy new = []
    /\ map fst (filter is_command new)
       = [ mipi_dbi_command_buf MIPI_DCS_SET_COLUMN_ADDRESS
             (cmd_bytes [0; 0; 1; 63]) 4;
           mipi_dbi_command_buf MIPI_DCS_SET_PAGE_ADDRESS
             (cmd_bytes [0; 0; 0; 239]) 4;
           mipi_dbi_command_buf MIPI_DCS_WRITE_MEMORY_START
             (cmd_pixels from_fb_vaddr) 153600 ].
Proof.
  apply (C9_full_frame_fast_path (sample_helpers false) (bus_ok [])
           (sample_mipi false false) sample_fb 0 [] [] 0 0 []);
    try reflexivity.
  unfold INT_MAX. simpl. lia.
Defined.

(** ** The address window *)

(** The third byte that [window_args] yields is the high byte of the end
    coordinate itself; it is the high byte of the last column or page
    exactly when the end coordinate is not a multiple of 256. *)
Lemma window_args_end_high_byte (lo hi : Z) :
  0 < hi < 65536 ->
  (nth 2 (window_args lo hi) 0 = Z.land (Z.shiftr (hi - 1) 8) 0xFF
   <-> hi mod 256 <> 0).
Proof.
  intros Hhi. cbn [window_args nth].
  change 0xFF with (Z.ones 8). rewrite !Z.land_ones, !Z.shiftr_div_pow2 by lia.
  change (2 ^ 8) with 256.
  rewrite (Z.mod_small (hi / 256)), (Z.mod_small ((hi - 1) / 256))
    by (split; [ apply Z.div_pos; lia | apply Z.div_lt_upper_bound; lia ]).
  split; intros X.
  - intros Y. revert X. Z.div_mod_to_equations. lia.
  - Z.div_mod_to_equations. lia.
Qed.

(** C1 fails on the code.  A flush of the rectangle (0,0)-(256,240) of a
    320x240 frame issues the column address set with parameters
    00 00 01 FF: the third byte is the high byte of x2 = 256, while the high
    byte of x2 - 1 = 255 is 00.  The window so announced ends at column 511
    instead of 255. *)
Theorem C1_column_end_high_byte :
  let run := mipi_dbi_fb_dirty (sample_helpers false) (bus_ok [])
               (sample_mipi false true) sample_fb 0
               [ {| x1 := 0; y1 := 0; x2 := 256; y2 := 240 |} ] 1 [] in
  option_map (fun x => map fst (filter is_command (snd x))) run
  = Some [ mipi_dbi_command_buf MIPI_DCS_SET_COLUMN_ADDRESS
             (cmd_bytes [0x00; 0x00; 0x01; 0xFF]) 4;
           mipi_dbi_command_buf MIPI_DCS_SET_PAGE_ADDRESS
             (cmd_bytes [0x00; 0x00; 0x00; 0xEF]) 4;
           mipi_dbi_command_buf MIPI_DCS_WRITE_MEMORY_START
             (cmd_pixels from_tx_buf) 122880 ]
  /\ Z.land (Z.shiftr (256 - 1) 8) 0xFF = 0x00
  /\ Z.land (256 - 1) 0xFF = 0xFF.
Proof.
  vm_compute. repeat split.
Qed.

(** * Further properties *)

(** ** The packed block, read back *)

Lemma lor_disjoint_add (a b m : Z) :
  0 <= m -> 0 <= b < 2 ^ m -> a mod 2 ^ m = 0 -> Z.lor a b = a + b.
Proof.
  intros Hm Hb Ha.
  assert (Z.land a b = 0) as Hl.
  { apply Z.bits_inj'. intros n Hn. rewrite Z.land_spec, Z.bits_0.
    destruct (Z.lt_ge_cases n m) as [Hlt | Hge].
    - assert (a = a / 2 ^ m * 2 ^ m) as ->.
      { pose proof (Z.div_mod a (2 ^ m) ltac:(lia)). lia. }
      rewrite Z.mul_pow2_bits_low by lia. reflexivity.
    - destruct (Z.eq_dec b 0) as [-> | Hb0].
      + rewrite Z.bits_0. apply andb_false_r.
      + assert (Z.log2 b < n) as Hlog.
        { apply Z.log2_lt_pow2; [ lia | ].
          apply Z.lt_le_trans with (2 ^ m); [ lia | ].
          apply Z.pow_le_mono_r; lia. }
        rewrite (Z.bits_above_log2 b n) by lia.
        apply andb_false_r. }
  rewrite <- Z.lxor_lor by exact Hl. symmetry. apply Z.add_nocarry_lxor, Hl.
Qed.

Lemma to_u64_small (v : Z) : 0 <= v < 2 ^ 64 -> to_u64 v = v.
Proof.
  intros Hv. unfold to_u64. rewrite Z.land_ones by lia.
  apply Z.mod_small. exact Hv.
Qed.

(** One [SHIFT_U9_INTO_U64] puts the word, D/C bit set, right below the
    [pos] words already there. *)
Lemma SHIFT_U9_INTO_U64_slot (dst q src pos : Z) :
  0 <= pos <= 6 -> is_byte src -> 0 <= q < 2 ^ (9 * pos) ->
  dst = q * 2 ^ (64 - 9 * pos) ->
  SHIFT_U9_INTO_U64 dst src pos
  = (q * 512 + data_word src) * 2 ^ (55 - 9 * pos).
Proof.
  intros Hp Hs Hq ->. unfold SHIFT_U9_INTO_U64, data_word, is_byte in *.
  rewrite !Z.shiftl_mul_pow2 by lia.
  replace (63 - 8 - pos * 9) with (55 - 9 * pos) by ring.
  replace (63 - pos * 9) with (8 + (55 - 9 * pos)) by ring.
  replace (64 - 9 * pos) with (9 + (55 - 9 * pos)) by ring.
  assert (2 ^ 64 = 2 ^ (9 * pos) * 512 * 2 ^ (55 - 9 * pos)) as H64.
  { replace 64 with (9 * pos + 9 + (55 - 9 * pos)) at 1 by ring.
    rewrite !Z.pow_add_r by lia. reflexivity. }
  rewrite !Z.pow_add_r by lia.
  change (2 ^ 8) with 256. change (2 ^ 9) with 512.
  assert (0 < 2 ^ (55 - 9 * pos)) as HP by (apply Z.pow_pos_nonneg; lia).
  assert (0 < 2 ^ (9 * pos)) as HQ by (apply Z.pow_pos_nonneg; lia).
  set (P := 2 ^ (55 - 9 * pos)) in *. set (Q := 2 ^ (9 * pos)) in *.
  assert (512 * P <= 2 ^ 64) as Hfit by nia.
  rewrite !to_u64_small by nia.
  rewrite (lor_disjoint_add (q * (512 * P)) (1 * (256 * P)) (9 + (55 - 9 * pos))).
  - rewrite (lor_disjoint_add _ (src * P) (8 + (55 - 9 * pos))).
    + ring.
    + lia.
    + rewrite Z.pow_add_r by lia. fold P. change (2 ^ 8) with 256. nia.
    + rewrite Z.pow_add_r by lia. fold P. change (2 ^ 8) with 256.
      replace (q * (512 * P) + 1 * (256 * P)) with ((2 * q + 1) * (256 * P))
        by ring.
      apply Z.mod_mul. lia.
  - lia.
  - rewrite Z.pow_add_r by lia. fold P. change (2 ^ 9) with 512. nia.
  - rewrite Z.pow_add_r by lia. fold P. change (2 ^ 9) with 512.
    apply Z.mod_mul. lia.
Qed.

Ltac eval_pows :=
  repeat match goal with
         | |- context [2 ^ ?e] =>
             let c := eval vm_compute in (2 ^ e) in
             progress change (2 ^ e) with c
         | H : context [2 ^ ?e] |- _ =>
             let c := eval vm_compute in (2 ^ e) in
             progress change (2 ^ e) with c in H
         end.

Lemma stream_value_snoc (l : list Z) (b : Z) :
  stream_value (l ++ [b]) = stream_value l * 256 + b.
Proof. unfold stream_value. rewrite fold_left_app. reflexivity. Qed.

Lemma words_value_snoc (ws : list Z) (w : Z) :
  words_value (ws ++ [w]) = words_value ws * 512 + w.
Proof. unfold words_value. rewrite fold_left_app. reflexivity. Qed.

Lemma shiftr_byte_step (t s : Z) :
  0 <= s ->
  Z.shiftr t s = Z.shiftr t (s + 8) * 256 + to_u8 (Z.shiftr t s).
Proof.
  intros Hs. unfold to_u8. change 0xFF with (Z.ones 8).
  rewrite Z.land_ones, !Z.shiftr_div_pow2, Z.pow_add_r by lia.
  change (2 ^ 8) with 256. rewrite <- Z.div_div by lia.
  pose proof (Z.div_mod (t / 2 ^ s) 256 ltac:(lia)). lia.
Qed.

Lemma cpu_to_be64_value (tmp : Z) :
  0 <= tmp < 2 ^ 64 -> stream_value (cpu_to_be64 tmp) = tmp.
Proof.
  intros Ht. unfold cpu_to_be64, stream_value.
  cbn [seq map fold_left].
  change (56 - 8 * Z.of_nat 0) with 56. change (56 - 8 * Z.of_nat 1) with 48.
  change (56 - 8 * Z.of_nat 2) with 40. change (56 - 8 * Z.of_nat 3) with 32.
  change (56 - 8 * Z.of_nat 4) with 24. change (56 - 8 * Z.of_nat 5) with 16.
  change (56 - 8 * Z.of_nat 6) with 8. change (56 - 8 * Z.of_nat 7) with 0.
  pose proof (shiftr_byte_step tmp 0 ltac:(lia)) as S0.
  pose proof (shiftr_byte_step tmp 8 ltac:(lia)) as S1.
  pose proof (shiftr_byte_step tmp 16 ltac:(lia)) as S2.
  pose proof (shiftr_byte_step tmp 24 ltac:(lia)) as S3.
  pose proof (shiftr_byte_step tmp 32 ltac:(lia)) as S4.
  pose proof (shiftr_byte_step tmp 40 ltac:(lia)) as S5.
  pose proof (shiftr_byte_step tmp 48 ltac:(lia)) as S6.
  pose proof (shiftr_byte_step tmp 56 ltac:(lia)) as S7.
  cbn [Z.add Pos.add Pos.succ Pos.add_carry] in *.
  rewrite Z.shiftr_0_r in *.
  assert (Z.shiftr tmp 64 = 0) as Htop.
  { rewrite Z.shiftr_div_pow2 by lia. apply Z.div_small. exact Ht. }
  rewrite Htop in S7. clear Ht Htop.
  revert S0 S1 S2 S3 S4 S5 S6 S7.
  generalize (to_u8 (Z.shiftr tmp 56)) (to_u8 (Z.shiftr tmp 48))
             (to_u8 (Z.shiftr tmp 40)) (to_u8 (Z.shiftr tmp 32))
             (to_u8 (Z.shiftr tmp 24)) (to_u8 (Z.shiftr tmp 16))
             (to_u8 (Z.shiftr tmp 8)) (to_u8 tmp).
  generalize (Z.shiftr tmp 56) (Z.shiftr tmp 48) (Z.shiftr tmp 40)
             (Z.shiftr tmp 32) (Z.shiftr tmp 24) (Z.shiftr tmp 16)
             (Z.shiftr tmp 8).
  intros. lia.
Qed.

(** The 64-bit word built for a full block: seven words and the D/C bit of
    the eighth. *)
Lemma full_block_word (b0 b1 b2 b3 b4 b5 b6 : Z) :
  is_byte b0 -> is_byte b1 -> is_byte b2 -> is_byte b3 ->
  is_byte b4 -> is_byte b5 -> is_byte b6 ->
  Z.lor (SHIFT_U9_INTO_U64
           (SHIFT_U9_INTO_U64
              (SHIFT_U9_INTO_U64
                 (SHIFT_U9_INTO_U64
                    (SHIFT_U9_INTO_U64
                       (SHIFT_U9_INTO_U64
                          (SHIFT_U9_INTO_U64 0 b0 0) b1 1) b2 2) b3 3) b4 4)
              b5 5) b6 6) 0x1
  = words_value (map data_word [b0; b1; b2; b3; b4; b5; b6]) * 2 + 1.
Proof.
  intros H0 H1 H2 H3 H4 H5 H6.
  rewrite (SHIFT_U9_INTO_U64_slot 0 0 b0 0);
    [ | lia | assumption | eval_pows; lia | reflexivity ].
  erewrite (SHIFT_U9_INTO_U64_slot _ _ b1 1);
    [ | lia | assumption | | reflexivity ];
    [ | unfold data_word, is_byte in *; eval_pows; lia ].
  erewrite (SHIFT_U9_INTO_U64_slot _ _ b2 2);
    [ | lia | assumption | | reflexivity ];
    [ | unfold data_word, is_byte in *; eval_pows; lia ].
  erewrite (SHIFT_U9_INTO_U64_slot _ _ b3 3);
    [ | lia | assumption | | reflexivity ];
    [ | unfold data_word, is_byte in *; eval_pows; lia ].
  erewrite (SHIFT_U9_INTO_U64_slot _ _ b4 4);
    [ | lia | assumption | | reflexivity ];
    [ | unfold data_word, is_byte in *; eval_pows; lia ].
  erewrite (SHIFT_U9_INTO_U64_slot _ _ b5 5);
    [ | lia | assumption | | reflexivity ];
    [ | unfold data_word, is_byte in *; eval_pows; lia ].
  erewrite (SHIFT_U9_INTO_U64_slot _ _ b6 6);
    [ | lia | assumption | | reflexivity ];
    [ | unfold data_word, is_byte in *; eval_pows; lia ].
  change (2 ^ (55 - 9 * 6)) with (2 ^ 1).
  rewrite (lor_disjoint_add _ 1 1); [ | lia | eval_pows; lia | apply Z.mod_mul; lia ].
  unfold words_value. cbn [map fold_left]. change (2 ^ 1) with 2. ring.
Qed.

(** Words laid side by side are read back one by one. *)
Lemma words_value_nth :
  forall ws : list Z,
    Forall is_word ws ->
    forall k, (k < length ws)%nat ->
              (words_value ws / 2 ^ (9 * Z.of_nat (length ws - 1 - k))) mod 512
              = nth k ws 0.
Proof.
  induction ws as [ | w ws IH] using rev_ind; intros Hw k Hk;
    [ cbn [length] in Hk; lia | ].
  apply Forall_app in Hw. destruct Hw as [Hws Hw].
  inversion Hw as [ | ? ? Hw0 _]; subst. unfold is_word in Hw0.
  rewrite length_app in *. cbn [length] in *. rewrite words_value_snoc.
  destruct (Nat.eq_dec k (length ws)) as [-> | Hne].
  - replace (length ws + 1 - 1 - length ws)%nat with 0%nat by lia.
    change (2 ^ (9 * Z.of_nat 0)) with 1. rewrite Z.div_1_r.
    rewrite nth_middle. rewrite Z.add_comm, Z.mod_add by lia.
    apply Z.mod_small. exact Hw0.
  - rewrite app_nth1 by lia. rewrite <- (IH Hws k) by lia.
    replace (9 * Z.of_nat (length ws + 1 - 1 - k))
      with (9 + 9 * Z.of_nat (length ws - 1 - k)) by lia.
    rewrite Z.pow_add_r by lia. change (2 ^ 9) with 512.
    rewrite <- Z.div_div by (try lia; apply Z.pow_pos_nonneg; lia).
    f_equal. f_equal.
    rewrite Z.add_comm, Z.div_add by lia.
    rewrite Z.div_small by exact Hw0. reflexivity.
Qed.

Lemma nine_bit_words_of (block : list Z) (w0 w1 w2 w3 w4 w5 w6 w7 : Z) :
  Forall is_word [w0; w1; w2; w3; w4; w5; w6; w7] ->
  stream_value block = words_value [w0; w1; w2; w3; w4; w5; w6; w7] ->
  nine_bit_words block = [w0; w1; w2; w3; w4; w5; w6; w7].
Proof.
  intros Hw HV. unfold nine_bit_words. rewrite HV. cbn [seq map].
  pose proof (words_value_nth _ Hw) as N. cbn [length] in N.
  repeat (apply (f_equal2 cons);
          [ match goal with
            | |- _ / 2 ^ (9 * (7 - Z.of_nat ?k)) mod 512 = _ =>
                exact (N k ltac:(lia))
            end | ]).
  reflexivity.
Qed.

Lemma unpack_one_block (tmp b : Z) :
  unpack (cpu_to_be64 tmp ++ [b]) = nine_bit_words (cpu_to_be64 tmp ++ [b]).
Proof.
  unfold cpu_to_be64. cbn [seq map app unpack]. apply app_nil_r.
Qed.

Lemma data_word_is_word (b : Z) : is_byte b -> is_word (data_word b).
Proof. unfold is_byte, is_word, data_word. lia. Qed.

(** A full block is read back as its eight source bytes, in order, each
    with the D/C bit set. *)
Lemma pack_block_unpack :
  forall (oc : oracle) (src : list Z) (pos : nat),
    (forall i, (i < 8)%nat -> is_byte (src_at oc src (pos + i))) ->
    unpack (pack_block oc src pos)
    = map (fun i => data_word (src_at oc src (pos + i))) (seq 0 8).
Proof.
  intros oc src pos Hb.
  pose proof (Hb 0%nat ltac:(lia)) as H0. rewrite Nat.add_0_r in H0.
  pose proof (Hb 1%nat ltac:(lia)) as H1.
  pose proof (Hb 2%nat ltac:(lia)) as H2.
  pose proof (Hb 3%nat ltac:(lia)) as H3.
  pose proof (Hb 4%nat ltac:(lia)) as H4.
  pose proof (Hb 5%nat ltac:(lia)) as H5.
  pose proof (Hb 6%nat ltac:(lia)) as H6.
  pose proof (Hb 7%nat ltac:(lia)) as H7.
  unfold pack_block. cbv zeta. rewrite unpack_one_block.
  cbn [seq map]. rewrite Nat.add_0_r.
  apply nine_bit_words_of.
  - repeat (constructor; [ apply data_word_is_word; assumption | ]).
    constructor.
  - rewrite stream_value_snoc, full_block_word by assumption.
    rewrite cpu_to_be64_value.
    + unfold words_value, data_word. cbn [map fold_left]. ring.
    + unfold words_value, data_word, is_byte in *. cbn [map fold_left].
      eval_pows. lia.
Qed.

Lemma nine_bit_words_list (block ws : list Z) :
  length ws = 8%nat -> Forall is_word ws ->
  stream_value block = words_value ws ->
  nine_bit_words block = ws.
Proof.
  intros Hl Hw HV.
  do 8 (destruct ws as [ | ? ws]; [ discriminate Hl | ]).
  destruct ws; [ | discriminate Hl ].
  apply nine_bit_words_of; assumption.
Qed.

Lemma words_value_pad (ws : list Z) (m : nat) :
  words_value (ws ++ repeat 0 m) = words_value ws * 2 ^ (9 * Z.of_nat m).
Proof.
  induction m as [ | m IH].
  - rewrite app_nil_r. change (2 ^ (9 * Z.of_nat 0)) with 1. ring.
  - replace (S m) with (m + 1)%nat by lia.
    rewrite repeat_app, app_assoc. cbn [repeat].
    rewrite words_value_snoc, IH.
    replace (9 * Z.of_nat (m + 1)) with (9 * Z.of_nat m + 9) by lia.
    rewrite Z.pow_add_r by lia. change (2 ^ 9) with 512. ring.
Qed.

(** The words put into the scratch word by the loop over a short block. *)
Lemma shift_partial_value (oc : oracle) (src : list Z) :
  forall (n : nat) (j q tmp : Z) (pos : nat),
    0 <= j -> j + Z.of_nat n <= 7 -> 0 <= q < 2 ^ (9 * j) ->
    tmp = q * 2 ^ (64 - 9 * j) ->
    (forall i, (i < n)%nat -> is_byte (src_at oc src (i + pos))) ->
    let q' := fold_left (fun acc w => acc * 512 + w)
                (map (fun i => data_word (src_at oc src (i + pos))) (seq 0 n))
                q in
    fst (shift_partial oc n j tmp src pos)
    = q' * 2 ^ (64 - 9 * (j + Z.of_nat n))
    /\ 0 <= q' < 2 ^ (9 * (j + Z.of_nat n)).
Proof.
  induction n as [ | n IH]; intros j q tmp pos Hj Hjn Hq Htmp Hb q'.
  - subst q'. cbn [seq map fold_left shift_partial fst].
    change (Z.of_nat 0) with 0. rewrite Z.add_0_r. split; assumption.
  - subst q'. cbn [seq map fold_left shift_partial].
    rewrite <- seq_shift, map_map.
    pose proof (Hb 0%nat ltac:(lia)) as B0. cbn [Nat.add] in B0.
    rewrite (SHIFT_U9_INTO_U64_slot tmp q (src_at oc src pos) j)
      by (try assumption; lia).
    assert (0 <= q * 512 + data_word (src_at oc src pos) < 2 ^ (9 * (j + 1)))
      as Hq1.
    { replace (9 * (j + 1)) with (9 * j + 9) by ring.
      rewrite Z.pow_add_r by lia. change (2 ^ 9) with 512.
      unfold data_word, is_byte in *. nia. }
    destruct (IH (j + 1) (q * 512 + data_word (src_at oc src pos))
                 ((q * 512 + data_word (src_at oc src pos))
                  * 2 ^ (55 - 9 * j)) (S pos))
      as [E R]; try lia; try assumption.
    { f_equal. f_equal. ring. }
    { intros i Hi. rewrite Nat.add_succ_r. apply (Hb (S i)). lia. }
    replace (j + Z.of_nat (S n)) with (j + 1 + Z.of_nat n) by lia.
    assert (forall i, data_word (src_at oc src (S i + pos))
                      = data_word (src_at oc src (i + S pos))) as Hsh
        by (intros i; rewrite Nat.add_succ_r; reflexivity).
    rewrite (map_ext _ _ Hsh). split; [ exact E | exact R ].
Qed.

(** A last block of fewer than 8 bytes is read back as these bytes with
    the D/C bit set, followed by no-op words (zero) up to eight. *)
Lemma partial_block_unpack :
  forall (oc : oracle) (src : list Z) (pos n : nat),
    (n <= 7)%nat ->
    (forall i, (i < n)%nat -> is_byte (src_at oc src (i + pos))) ->
    unpack (cpu_to_be64 (fst (shift_partial oc n 0 0 src pos)) ++ [0x00])
    = map (fun i => data_word (src_at oc src (i + pos))) (seq 0 n)
      ++ repeat 0 (8 - n).
Proof.
  intros oc src pos n Hn Hb.
  rewrite unpack_one_block.
  destruct (shift_partial_value oc src n 0 0 0 pos ltac:(lia) ltac:(lia)
              ltac:(eval_pows; lia) eq_refl Hb) as [E R].
  rewrite Z.add_0_l in E, R.
  fold (words_value
          (map (fun i => data_word (src_at oc src (i + pos))) (seq 0 n)))
    in E, R.
  set (ws := map (fun i => data_word (src_at oc src (i + pos))) (seq 0 n))
    in *.
  assert (0 < 2 ^ (64 - 9 * Z.of_nat n)) as HP
      by (apply Z.pow_pos_nonneg; lia).
  assert (2 ^ 64 = 2 ^ (9 * Z.of_nat n) * 2 ^ (64 - 9 * Z.of_nat n)) as H64.
  { rewrite <- Z.pow_add_r by lia. f_equal. ring. }
  apply nine_bit_words_list.
  - rewrite length_app, repeat_length. unfold ws.
    rewrite length_map, length_seq. lia.
  - apply Forall_app. split.
    + unfold ws. apply Forall_forall. intros w Hw.
      apply in_map_iff in Hw. destruct Hw as (i & <- & Hi).
      apply in_seq in Hi. apply data_word_is_word, Hb. lia.
    + apply Forall_forall. intros w Hw. apply repeat_spec in Hw. subst w.
      unfold is_word. lia.
  - rewrite stream_value_snoc, cpu_to_be64_value, E, words_value_pad
      by (rewrite E; nia).
    replace (9 * Z.of_nat (8 - n)) with (64 - 9 * Z.of_nat n + 8) by lia.
    rewrite Z.pow_add_r by lia. change (2 ^ 8) with 256. ring.
Qed.

(** The block sent for a command byte is read back as seven no-op words
    followed by the byte with the D/C bit clear. *)
Lemma command_block_unpack :
  forall b : Z, is_byte b -> unpack (repeat 0 8 ++ [b]) = repeat 0 7 ++ [b].
Proof.
  intros b Hb. cbn [repeat app unpack]. rewrite app_nil_r.
  apply nine_bit_words_of.
  - unfold is_byte in Hb.
    repeat (constructor; [ unfold is_word; lia | ]). constructor.
  - reflexivity.
Qed.

(** ** A whole data transfer of the emulation, read back *)

Lemma skipn_cons_nth {A} (d : A) (l : list A) :
  forall pos, (pos < length l)%nat ->
              skipn pos l = nth pos l d :: skipn (S pos) l.
Proof.
  induction l as [ | a l IH]; intros pos Hp; cbn [length] in Hp; [ lia | ].
  destruct pos as [ | pos]; [ reflexivity | ].
  cbn [skipn nth]. apply IH. lia.
Qed.

Lemma src_at_inside (oc : oracle) (buf : list Z) (pos : nat) :
  (pos < length buf)%nat -> src_at oc buf pos = nth pos buf 0.
Proof.
  intros Hp. unfold src_at.
  rewrite (nth_error_nth' buf 0 Hp). reflexivity.
Qed.

Lemma src_at_is_byte (oc : oracle) (buf : list Z) (pos : nat) :
  Forall is_byte buf -> (pos < length buf)%nat -> is_byte (src_at oc buf pos).
Proof.
  intros Hb Hp. rewrite src_at_inside by exact Hp.
  rewrite Forall_forall in Hb. apply Hb, nth_In, Hp.
Qed.

Lemma map_src_at (oc : oracle) (buf : list Z) :
  forall n pos, (pos + n <= length buf)%nat ->
                map (fun i => src_at oc buf (i + pos)) (seq 0 n)
                = firstn n (skipn pos buf).
Proof.
  induction n as [ | n IH]; intros pos Hp; [ reflexivity | ].
  cbn [seq map]. rewrite <- seq_shift, map_map.
  rewrite (skipn_cons_nth 0 buf pos) by lia. cbn [firstn Nat.add].
  rewrite src_at_inside by lia. f_equal.
  rewrite <- (IH (S pos)) by lia.
  apply map_ext. intros i. rewrite Nat.add_succ_r. reflexivity.
Qed.

Lemma firstn_plus {A} (n m : nat) (l : list A) :
  firstn (n + m) l = firstn n l ++ firstn m (skipn n l).
Proof.
  revert l. induction n as [ | n IH]; intros l; [ reflexivity | ].
  destruct l as [ | a l]; cbn [Nat.add firstn skipn app].
  - rewrite firstn_nil. reflexivity.
  - rewrite IH. reflexivity.
Qed.

Lemma unpack_block_app (tmp b : Z) (rest : list Z) :
  unpack ((cpu_to_be64 tmp ++ [b]) ++ rest)
  = unpack (cpu_to_be64 tmp ++ [b]) ++ unpack rest.
Proof.
  unfold cpu_to_be64. cbn [seq map app unpack]. rewrite app_nil_r.
  reflexivity.
Qed.

Lemma pack_block_words (oc : oracle) (buf : list Z) (pos : nat)
      (rest : list Z) :
  Forall is_byte buf -> (pos + 8 <= length buf)%nat ->
  unpack (pack_block oc buf pos ++ rest)
  = map data_word (firstn 8 (skipn pos buf)) ++ unpack rest
  /\ length (pack_block oc buf pos) = 9%nat.
Proof.
  intros Hb Hp. split; [ | reflexivity ].
  change (pack_block oc buf pos ++ rest)
    with ((cpu_to_be64
             (Z.lor (SHIFT_U9_INTO_U64
                       (SHIFT_U9_INTO_U64
                          (SHIFT_U9_INTO_U64
                             (SHIFT_U9_INTO_U64
                                (SHIFT_U9_INTO_U64
                                   (SHIFT_U9_INTO_U64
                                      (SHIFT_U9_INTO_U64 0 (src_at oc buf pos) 0)
                                      (src_at oc buf (pos + 1)) 1)
                                   (src_at oc buf (pos + 2)) 2)
                                (src_at oc buf (pos + 3)) 3)
                             (src_at oc buf (pos + 4)) 4)
                          (src_at oc buf (pos + 5)) 5)
                       (src_at oc buf (pos + 6)) 6) 1)
             ++ [src_at oc buf (pos + 7)]) ++ rest).
  rewrite unpack_block_app. f_equal.
  change (unpack (pack_block oc buf pos)
          = map data_word (firstn 8 (skipn pos buf))).
  rewrite pack_block_unpack
    by (intros i Hi; apply src_at_is_byte; [ exact Hb | lia ]).
  rewrite <- (map_src_at oc buf 8 pos) by lia. rewrite map_map.
  apply map_ext. intros i. rewrite Nat.add_comm. reflexivity.
Qed.

Lemma pack_blocks_unpack (oc : oracle) (buf : list Z) (chunk : Z) :
  Forall is_byte buf ->
  forall (k fuel : nat) (i : Z) (pos : nat) (out : list Z) (added : Z),
    chunk - i = 8 * Z.of_nat k -> (k < fuel)%nat ->
    (pos + 8 * k <= length buf)%nat ->
    exists blocks,
      pack_blocks oc fuel i chunk buf pos out added
      = Some (out ++ blocks, (pos + 8 * k)%nat, added + Z.of_nat k)
      /\ length blocks = (9 * k)%nat
      /\ forall rest,
          unpack (blocks ++ rest)
          = map data_word (firstn (8 * k) (skipn pos buf)) ++ unpack rest.
Proof.
  intros Hb. induction k as [ | k IH]; intros fuel i pos out added Hc Hf Hp.
  - destruct fuel as [ | fuel]; [ lia | ]. cbn [pack_blocks].
    destruct (Z.ltb_spec i chunk) as [ | _]; [ lia | ].
    exists []. rewrite app_nil_r, Nat.mul_0_r, Nat.add_0_r, Z.add_0_r.
    repeat split.
  - destruct fuel as [ | fuel]; [ lia | ]. cbn [pack_blocks].
    destruct (Z.ltb_spec i chunk) as [_ | ]; [ | lia ].
    destruct (IH fuel (i + 8) (pos + 8)%nat (out ++ pack_block oc buf pos)
                 (added + 1)) as (blocks & E & L & U); [ lia | lia | lia | ].
    exists (pack_block oc buf pos ++ blocks).
    rewrite E, <- app_assoc. split; [ | split ].
    + f_equal. f_equal; [ f_equal; lia | lia ].
    + rewrite length_app, L.
      change (length (pack_block oc buf pos)) with 9%nat. lia.
    + intros rest. rewrite <- app_assoc.
      destruct (pack_block_words oc buf pos (blocks ++ rest) Hb ltac:(lia))
        as [-> _].
      rewrite U, app_assoc, <- map_app. f_equal. f_equal.
      replace (8 * S k)%nat with (8 + 8 * k)%nat by lia.
      rewrite firstn_plus, skipn_skipn, (Nat.add_comm 8 pos). reflexivity.
Qed.

Lemma shift_partial_pos (oc : oracle) (src : list Z) :
  forall (n : nat) (j tmp : Z) (pos : nat),
    snd (shift_partial oc n j tmp src pos) = (n + pos)%nat.
Proof.
  induction n as [ | n IH]; intros j tmp pos; [ reflexivity | ].
  cbn [shift_partial]. rewrite IH. lia.
Qed.

Lemma wire_bytes_whole (dst : list Z) (k : Z) :
  Z.to_nat k = length dst -> wire_bytes (tr8 dst k) = dst.
Proof.
  intros Hk. unfold wire_bytes, tr8. cbn [tx_buf len]. rewrite Hk.
  apply firstn_all.
Qed.

Lemma spi1e_loop_unpack (oc : oracle) (buf : list Z) (msc : Z) :
  never_fails oc -> Forall is_byte buf -> 8 <= msc -> msc mod 8 = 0 ->
  forall (fuel pos : nat) (n : Z) (tr : list event),
    (pos <= length buf)%nat -> n = Z.of_nat (length buf - pos) ->
    (Z.to_nat n < fuel)%nat ->
    n mod msc < 8 \/ (n mod msc) mod 8 = 0 ->
    exists new,
      spi1e_loop oc fuel buf pos n msc tr = Some (0, tr ++ new)
      /\ unpack (wire_stream new)
         = map data_word (skipn pos buf)
           ++ repeat 0 (Z.to_nat ((8 - n mod 8) mod 8)).
Proof.
  intros [Hr Hk] Hb Hm Hm8.
  induction fuel as [ | fuel IH]; intros pos n tr Hp Hn Hf Hh; [ lia | ].
  cbn [spi1e_loop].
  destruct (Z.eqb_spec n 0) as [-> | Hn0].
  { exists []. rewrite app_nil_r. split; [ reflexivity | ].
    rewrite skipn_all2 by lia. reflexivity. }
  assert (forall dst k pos' n',
             Z.to_nat k = length dst ->
             (pos' <= length buf)%nat -> n' = Z.of_nat (length buf - pos') ->
             (Z.to_nat n' < fuel)%nat ->
             n' mod msc < 8 \/ (n' mod msc) mod 8 = 0 ->
             exists new,
               (x <- ext oc (spi_sync [tr8 dst k]) ;;
                if negb (x =? 0) then ret x
                else spi1e_loop oc fuel buf pos' n' msc) tr
               = Some (0, tr ++ new)
               /\ wire_stream new
                  = dst ++ wire_stream (skipn 1 new)
               /\ unpack (wire_stream (skipn 1 new))
                  = map data_word (skipn pos' buf)
                    ++ repeat 0 (Z.to_nat ((8 - n' mod 8) mod 8)))
    as Step.
  { intros dst k pos' n' Hlen Hp' Hn' Hf' Hh'. unfold bind, ext. rewrite Hr.
    change (negb (0 =? 0)) with false. cbv iota.
    destruct (IH pos' n' (tr ++ [(spi_sync [tr8 dst k], 0)])
                 Hp' Hn' Hf' Hh') as (new & E & U).
    rewrite E, <- app_assoc. eexists. split; [ reflexivity | ].
    cbn [app skipn wire_stream map concat].
    rewrite wire_bytes_whole, app_nil_r by exact Hlen.
    split; [ reflexivity | exact U ]. }
  assert (0 < n) as Hpos by lia.
  destruct (Z.ltb_spec (Z.min n msc) 8) as [Hlt | Hge].
  - assert (Z.min n msc = n) as Hmin by lia. rewrite Hmin.
    destruct (shift_partial oc (Z.to_nat n) 0 0 buf pos) as [tmp pos'] eqn:Es.
    assert (tmp = fst (shift_partial oc (Z.to_nat n) 0 0 buf pos)) as Htmp
        by (rewrite Es; reflexivity).
    assert (pos' = (Z.to_nat n + pos)%nat) as Hpos'
        by (rewrite <- (shift_partial_pos oc buf (Z.to_nat n) 0 0 pos), Es;
            reflexivity).
    destruct (Step (cpu_to_be64 tmp ++ [0]) (8 + 1) pos' (n - n))
      as (new & E & W & U); [ reflexivity | lia | lia | lia | | ].
    { left. rewrite Z.sub_diag, Zmod_0_l. lia. }
    exists new. split; [ exact E | ].
    rewrite W, unpack_block_app, U, Htmp.
    rewrite partial_block_unpack
      by first [ lia | intros i Hi; apply src_at_is_byte; [ exact Hb | lia ] ].
    rewrite (skipn_all2 buf) by lia.
    rewrite Z.sub_diag. cbn [map app]. rewrite app_nil_r.
    rewrite <- map_map, map_src_at by lia.
    rewrite firstn_all2 by (rewrite length_skipn; lia).
    f_equal. f_equal.
    rewrite (Z.mod_small n 8), (Z.mod_small (8 - n) 8) by lia. lia.
  - assert (exists k, Z.min n msc = 8 * Z.of_nat k /\ (1 <= k)%nat)
      as (k & Hk8 & Hk1).
    { exists (Z.to_nat (Z.min n msc / 8)).
      assert (Z.min n msc mod 8 = 0) as Hc8.
      { destruct (Z.le_gt_cases msc n) as [Hfull | Hlast].
        - rewrite Z.min_r by lia. exact Hm8.
        - rewrite Z.min_l by lia. rewrite Z.mod_small in Hh by lia.
          destruct Hh as [ | Hh]; [ lia | exact Hh ]. }
      split; [ | ]; Z.div_mod_to_equations; lia. }
    destruct (pack_blocks_unpack oc buf (Z.min n msc) Hb k
                (S (Z.to_nat (Z.min n msc))) 0 pos [] 0)
      as (blocks & E & L & U); [ lia | lia | lia | ].
    rewrite E. cbn [app].
    destruct (Step blocks (Z.min n msc + (0 + Z.of_nat k)) (pos + 8 * k)%nat
                   (n - Z.min n msc))
      as (new & E' & W & U'); [ lia | lia | lia | lia | | ].
    { destruct (Z.le_gt_cases msc n) as [Hfull | Hlast].
      - rewrite Z.min_r by lia.
        replace (n - msc) with (n + (-1) * msc) by ring.
        rewrite Z.mod_add by lia. exact Hh.
      - rewrite Z.min_l by lia. rewrite Z.sub_diag, Zmod_0_l. left. lia. }
    exists new. split; [ exact E' | ].
    rewrite W, U, U', app_assoc, <- map_app.
    f_equal.
    + f_equal. rewrite <- (firstn_skipn (8 * k) (skipn pos buf)) at 2.
      f_equal. rewrite skipn_skipn. f_equal. lia.
    + f_equal. f_equal. f_equal. rewrite Hk8.
      replace (n - 8 * Z.of_nat k) with (n + (- Z.of_nat k) * 8) by ring.
      rewrite Z.mod_add by lia. reflexivity.
Qed.

(** X1: a data transfer through the emulation, read back 9 bits at a time,
    is the source bytes in order, each with the D/C bit set, followed by
    no-op words up to a multiple of eight -- whenever the bytes left for the
    last transfer are fewer than 8 or a multiple of 8. *)
Theorem spi1e_transfer_unpack :
  forall (hl : helpers) (oc : oracle) (mipi : mipi_dbi) (d : Z)
         (buf : list Z) (max_chunk : Z) (tr : list event),
    never_fails oc -> d <> 0 -> Forall is_byte buf ->
    9 <= tinydrm_spi_max_transfer_size hl (spi mipi) max_chunk ->
    let n := Z.of_nat (length buf) in
    let msc :=
      Z.max 8 (8 * (Z.min (tinydrm_spi_max_transfer_size hl (spi mipi) max_chunk
                           / 9 * 8) n / 8)) in
    n mod msc < 8 \/ (n mod msc) mod 8 = 0 ->
    exists new,
      mipi_dbi_spi1e_transfer hl oc mipi d buf n max_chunk tr
      = Some (0, tr ++ new)
      /\ unpack (wire_stream new)
         = map data_word buf ++ repeat 0 (Z.to_nat ((8 - n mod 8) mod 8)).
Proof.
  intros hl oc mipi d buf max_chunk tr Hok Hd Hb Hmax n msc Hh.
  unfold mipi_dbi_spi1e_transfer.
  destruct (Z.ltb_spec (tinydrm_spi_max_transfer_size hl (spi mipi) max_chunk) 9)
    as [ | _]; [ lia | ].
  destruct (Z.eqb_spec d 0) as [ | _]; [ contradiction | ].
  unfold bind, kmalloc. rewrite (proj2 Hok). cbn [negb].
  rewrite land_lnot_7. fold msc.
  apply (spi1e_loop_unpack oc buf msc Hok Hb); try lia; try exact Hh.
  unfold msc.
  destruct (Z.max_spec 8 (8 * (Z.min (tinydrm_spi_max_transfer_size hl (spi mipi) max_chunk / 9 * 8) n / 8)))
    as [[_ ->] | [_ ->]];
    [ rewrite Z.mul_comm; apply Z.mod_mul; lia | reflexivity ].
Qed.

Lemma spi1e_transfer_unpack_witness :
  exists new,
    mipi_dbi_spi1e_transfer (sample_helpers false) (bus_ok [])
      (sample_mipi false false) 1 [0; 0; 1; 0x3F] 4 4096 []
    = Some (0, [] ++ new)
    /\ unpack (wire_stream new) = [0x100; 0x100; 0x101; 0x13F; 0; 0; 0; 0].
Proof.
  refine (spi1e_transfer_unpack (sample_helpers false) (bus_ok [])
            (sample_mipi false false) 1 [0; 0; 1; 0x3F] 4096 [] _ _ _ _ _).
  - split; intros; reflexivity.
  - lia.
  - repeat constructor; unfold is_byte; lia.
  - simpl. lia.
  - left. vm_compute. reflexivity.
Defined.

(** ** What a transfer of the emulation never does *)

Lemma pack_blocks_length (oc : oracle) (src : list Z) (chunk : Z) :
  forall (fuel : nat) (i : Z) (pos : nat) (out : list Z) (added : Z),
    (Z.to_nat ((chunk - i + 7) / 8) < fuel)%nat ->
    exists out' pos',
      pack_blocks oc fuel i chunk src pos out added
      = Some (out', pos', added + Z.max 0 ((chunk - i + 7) / 8))
      /\ Z.of_nat (length out')
         = Z.of_nat (length out) + 9 * Z.max 0 ((chunk - i + 7) / 8).
Proof.
  induction fuel as [ | fuel IH]; intros i pos out added Hf; [ lia | ].
  cbn [pack_blocks].
  destruct (Z.ltb_spec i chunk) as [Hlt | Hge].
  - assert ((chunk - (i + 8) + 7) / 8 = (chunk - i + 7) / 8 - 1) as Hstep
        by (Z.div_mod_to_equations; lia).
    assert (1 <= (chunk - i + 7) / 8) as Hpos
        by (Z.div_mod_to_equations; lia).
    destruct (IH (i + 8) (pos + 8)%nat (out ++ pack_block oc src pos)
                 (added + 1)) as (out' & pos' & E & L).
    { rewrite Hstep. lia. }
    rewrite E, Hstep. exists out', pos'. split.
    + f_equal. f_equal. lia.
    + rewrite L, Hstep, length_app.
      change (length (pack_block oc src pos)) with 9%nat. lia.
  - assert ((chunk - i + 7) / 8 <= 0) as Hle
        by (Z.div_mod_to_equations; lia).
    exists out, pos. split; [ f_equal; f_equal; lia | lia ].
Qed.

Lemma spi1e_loop_bounded (oc : oracle) (src : list Z) (msc : Z) :
  8 <= msc -> msc mod 8 = 0 ->
  forall (fuel : nat) (pos : nat) (n : Z) (tr : list event) (r : Z)
         (tr' : list event),
    0 <= n ->
    spi1e_loop oc fuel src pos n msc tr = Some (r, tr') ->
    exists new,
      tr' = tr ++ new
      /\ Forall (fun e => exists dst k x,
                     e = (spi_sync [tr8 dst k], x)
                     /\ 9 <= k <= msc + msc / 8
                     /\ k <= Z.of_nat (length dst) <= msc + msc / 8) new.
Proof.
  intros Hm Hm8.
  induction fuel as [ | fuel IH]; intros pos n tr r tr' Hn E;
    [ discriminate E | ].
  cbn [spi1e_loop] in E.
  destruct (Z.eqb_spec n 0) as [-> | Hn0].
  { injection E as <- <-. exists []. rewrite app_nil_r. split; constructor. }
  assert (forall dst k pos',
             9 <= k <= msc + msc / 8 ->
             k <= Z.of_nat (length dst) <= msc + msc / 8 ->
             (x <- ext oc (spi_sync [tr8 dst k]) ;;
              if negb (x =? 0) then ret x
              else spi1e_loop oc fuel src pos' (n - Z.min n msc) msc) tr
             = Some (r, tr') ->
             exists new,
               tr' = tr ++ new
               /\ Forall (fun e => exists dst k x,
                              e = (spi_sync [tr8 dst k], x)
                              /\ 9 <= k <= msc + msc / 8
                              /\ k <= Z.of_nat (length dst) <= msc + msc / 8)
                         new) as Step.
  { intros dst k pos' Hk Hl E'. unfold bind, ext in E'.
    destruct (negb (_ =? 0)).
    - injection E' as <- <-. eexists. split; [ reflexivity | ].
      constructor; [ | constructor ]. exists dst, k. eexists.
      split; [ reflexivity | split; assumption ].
    - apply IH in E'; [ | lia ]. destruct E' as (new & -> & A).
      rewrite <- app_assoc. eexists. split; [ reflexivity | ].
      constructor; [ | exact A ]. exists dst, k. eexists.
      split; [ reflexivity | split; assumption ]. }
  assert (9 <= msc + msc / 8) as H9 by (Z.div_mod_to_equations; lia).
  destruct (Z.ltb_spec (Z.min n msc) 8) as [Hlt | Hge].
  - destruct (shift_partial oc _ _ _ _ _) as [tmp pos'].
    eapply Step; [ | | exact E ].
    + lia.
    + change (length (cpu_to_be64 tmp ++ [0])) with 9%nat. lia.
  - destruct (pack_blocks_length oc src (Z.min n msc)
                (S (Z.to_nat (Z.min n msc))) 0 pos [] 0)
      as (dst & pos' & Ep & L).
    { rewrite Z.sub_0_r.
      assert ((Z.min n msc + 7) / 8 <= Z.min n msc)
        by (Z.div_mod_to_equations; lia).
      lia. }
    rewrite Ep in E. rewrite Z.sub_0_r in *. cbn [length] in L.
    assert (1 <= (Z.min n msc + 7) / 8 <= msc / 8) as Hc
        by (Z.div_mod_to_equations; lia).
    assert (Z.min n msc <= 8 * ((Z.min n msc + 7) / 8)) as Hc'
        by (Z.div_mod_to_equations; lia).
    eapply Step; [ | | exact E ].
    + rewrite Z.max_r by lia. lia.
    + rewrite L, Z.max_r by lia.
      assert (msc = 8 * (msc / 8)) by (Z.div_mod_to_equations; lia). lia.
Qed.

(** X2: whatever the bus answers, every message of the emulation is one
    8-bit transfer of at least 9 bytes that fits the transfer size limit,
    covers only bytes that were stored for it, and whose stored bytes fit
    the buffer allocated for them. *)
Theorem spi1e_transfer_bounded :
  forall (hl : helpers) (oc : oracle) (mipi : mipi_dbi) (d : Z)
         (buf : list Z) (n max_chunk : Z) (tr : list event) (r : Z)
         (tr' : list event),
    0 <= n ->
    mipi_dbi_spi1e_transfer hl oc mipi d buf n max_chunk tr = Some (r, tr') ->
    let limit := tinydrm_spi_max_transfer_size hl (spi mipi) max_chunk in
    let msc := Z.max 8 (Z.land (Z.min (limit / 9 * 8) n) (Z.lnot 0x7)) in
    let allocated := if d =? 0 then 9 else msc + msc / 8 in
    exists new,
      tr' = tr ++ new
      /\ Forall (fun e => exists dst k x,
                     e = (spi_sync [tr8 dst k], x)
                     /\ 9 <= k <= limit
                     /\ k <= Z.of_nat (length dst) <= allocated) new.
Proof.
  intros hl oc mipi d buf n max_chunk tr r tr' Hn E limit msc allocated.
  unfold mipi_dbi_spi1e_transfer in E. fold limit in E.
  assert (exists new : list event,
             tr = tr ++ new
             /\ Forall (fun e => exists dst k x,
                            e = (spi_sync [tr8 dst k], x)
                            /\ 9 <= k <= limit
                            /\ k <= Z.of_nat (length dst) <= allocated) new)
    as Nil.
  { exists []. rewrite app_nil_r. split; constructor. }
  destruct (Z.ltb_spec limit 9) as [ | Hmax];
    [ injection E as <- <-; exact Nil | ].
  unfold allocated. destruct (Z.eqb_spec d 0) as [-> | Hd].
  - destruct (negb (n =? 1)); [ injection E as <- <-; exact Nil | ].
    unfold bind, kmalloc in E. destruct (kmalloc_ok oc tr 9); cbn [negb] in E;
      [ | injection E as <- <-; exact Nil ].
    unfold ext in E. injection E as <- <-. eexists. split; [ reflexivity | ].
    constructor; [ | constructor ]. do 3 eexists.
    split; [ reflexivity | ]. split; [ lia | ].
    cbn [length]. lia.
  - cbv zeta in E. unfold bind, kmalloc in E. fold msc in E.
    destruct (kmalloc_ok oc tr _); cbn [negb] in E;
      [ | injection E as <- <-; exact Nil ].
    assert (msc = Z.max 8 (8 * (Z.min (limit / 9 * 8) n / 8))) as Hmsc
        by (unfold msc; rewrite land_lnot_7; reflexivity).
    clearbody msc.
    assert (1 <= limit / 9) as Ha by (Z.div_mod_to_equations; lia).
    assert (Z.min (limit / 9 * 8) n / 8 <= limit / 9) as Hb.
    { apply Z.div_le_upper_bound; lia. }
    assert (msc mod 8 = 0) as Hm8.
    { rewrite Hmsc.
      destruct (Z.max_spec 8 (8 * (Z.min (limit / 9 * 8) n / 8)))
        as [[_ ->] | [_ ->]];
        [ rewrite Z.mul_comm; apply Z.mod_mul; lia | reflexivity ]. }
    assert (8 <= msc <= 8 * (limit / 9)) as Hm by lia.
    assert (msc + msc / 8 <= limit) as Hfit.
    { assert (msc / 8 <= limit / 9) by (apply Z.div_le_upper_bound; lia).
      assert (9 * (limit / 9) <= limit) by (Z.div_mod_to_equations; lia).
      lia. }
    destruct (spi1e_loop_bounded oc buf msc ltac:(lia) Hm8 _ _ _ _ _ _ Hn E)
      as (new & -> & A).
    exists new. split; [ reflexivity | ].
    eapply Forall_impl; [ | exact A ].
    intros e (dst & k & x & -> & Hk & Hl). exists dst, k, x.
    split; [ reflexivity | ]. split; lia.
Qed.

Lemma spi1e_transfer_bounded_witness :
  exists new,
    [(spi_sync [tr8 (repeat 0 8 ++ [MIPI_DCS_SET_COLUMN_ADDRESS]) 9], 0)]
    = [] ++ new
    /\ Forall (fun e => exists dst k x,
                   e = (spi_sync [tr8 dst k], x)
                   /\ 9 <= k <= 4096
                   /\ k <= Z.of_nat (length dst) <= 9) new.
Proof.
  refine (spi1e_transfer_bounded (sample_helpers false) (bus_ok [])
            (sample_mipi false false) 0 [MIPI_DCS_SET_COLUMN_ADDRESS] 1 4096
            [] 0 _ _ eq_refl).
  lia.
Defined.

(** ** Failures of the bus *)














(** ** The native 9-bit transfer *)

Lemma fill_dst16_words (oc : oracle) (d : Z) (buf : list Z) (pos : nat)
      (chunk : Z) :
  (pos + Z.to_nat chunk <= length buf)%nat ->
  fill_dst16 oc d buf pos chunk
  = map (native_word d) (firstn (Z.to_nat chunk) (skipn pos buf)).
Proof.
  intros Hp. unfold fill_dst16.
  rewrite <- (map_src_at oc buf (Z.to_nat chunk) pos) by exact Hp.
  rewrite map_map. apply map_ext. intros i.
  rewrite (Nat.add_comm i pos). reflexivity.
Qed.

Lemma spi1_loop_words (oc : oracle) (d : Z) (buf : list Z) (msc : Z) :
  never_fails oc -> 1 <= msc ->
  forall (fuel pos : nat) (n : Z) (tr : list event),
    (pos <= length buf)%nat -> n = Z.of_nat (length buf - pos) ->
    (Z.to_nat n < fuel)%nat ->
    exists new,
      spi1_loop oc fuel d buf pos n msc tr = Some (0, tr ++ new)
      /\ stored_words new = map (native_word d) (skipn pos buf)
      /\ wire_length new = n
      /\ Forall (fun e => exists t, fst e = spi_sync [t]
                                    /\ 1 <= len t <= msc
                                    /\ tx_buf t <> None) new.
Proof.
  intros [Hr Hk] Hm.
  induction fuel as [ | fuel IH]; intros pos n tr Hp Hn Hf; [ lia | ].
  cbn [spi1_loop].
  destruct (Z.eqb_spec n 0) as [-> | Hn0].
  { exists []. rewrite app_nil_r. split; [ reflexivity | ].
    rewrite skipn_all2 by lia. repeat split. constructor. }
  unfold bind, ext. rewrite Hr. change (negb (0 =? 0)) with false. cbv iota.
  destruct (IH (pos + Z.to_nat (Z.min n msc))%nat (n - Z.min n msc)
               (tr ++ [(spi_sync [tr9 (fill_dst16 oc d buf pos (Z.min n msc))
                                      (Z.min n msc)], 0)]))
    as (new & E & W & L & A); [ lia | lia | lia | ].
  rewrite E, <- app_assoc. eexists. split; [ reflexivity | ].
  cbn [app stored_words wire_length map concat fold_right tr9 tx_buf len].
  rewrite app_nil_r, W, L, fill_dst16_words by lia.
  split; [ | split ].
  - rewrite <- map_app. f_equal.
    rewrite <- (firstn_skipn (Z.to_nat (Z.min n msc)) (skipn pos buf)) at 2.
    f_equal. rewrite skipn_skipn. f_equal. lia.
  - lia.
  - constructor; [ | exact A ]. eexists. split; [ reflexivity | ].
    cbn [len tx_buf tr9]. split; [ lia | discriminate ].
Qed.

(** On a bus that takes everything, the native transfer of a buffer
    returns 0 after storing, message after message, the source bytes in
    order as 16-bit words, bit 8 of each telling data from command; every
    message has 9 bits per word, stores at least one word and at most half
    the transfer size limit, and has its [len] field set to the number of
    words stored. *)
Lemma spi1_native_run :
  forall (hl : helpers) (oc : oracle) (mipi : mipi_dbi) (d : Z)
         (buf : list Z) (max_chunk : Z) (tr : list event),
    never_fails oc ->
    2 <= tinydrm_spi_max_transfer_size hl (spi mipi) max_chunk ->
    exists new,
      spi1_native hl oc mipi d buf (Z.of_nat (length buf)) max_chunk tr
      = Some (0, tr ++ new)
      /\ stored_words new = map (native_word d) buf
      /\ wire_length new = Z.of_nat (length buf)
      /\ Forall (fun e =>
                   exists t,
                     fst e = spi_sync [t]
                     /\ bits_per_word t = 9
                     /\ tx_buf t <> None
                     /\ 1 <= len t
                     /\ 2 * len t
                        <= tinydrm_spi_max_transfer_size hl (spi mipi) max_chunk)
                new.
Proof.
  intros hl oc mipi d buf max_chunk tr Hok Hmax.
  unfold spi1_native, bind, kmalloc. rewrite (proj2 Hok). cbn [negb].
  set (limit := tinydrm_spi_max_transfer_size hl (spi mipi) max_chunk) in *.
  destruct buf as [ | b buf].
  - cbn [length Z.of_nat]. exists []. rewrite app_nil_r.
    repeat split. constructor.
  - set (n := Z.of_nat (length (b :: buf))).
    assert (1 <= n) as Hn by (unfold n; cbn [length]; lia).
    assert (1 <= limit / 2) as Hl by (Z.div_mod_to_equations; lia).
    destruct (spi1_loop_words oc d (b :: buf) (Z.min (limit / 2) n) Hok
                ltac:(lia) (S (Z.to_nat n)) 0%nat n tr)
      as (new & E & W & L & A); [ lia | unfold n; lia | lia | ].
    exists new. split; [ exact E | ]. split; [ exact W | ].
    split; [ exact L | ].
    pose proof (spi1_loop_bpw oc d (b :: buf) (Z.min (limit / 2) n) _ _ _ _ _ _ E)
      as (new' & Enew & B).
    apply app_inv_head in Enew. subst new'.
    unfold only_spi_sync_of in B. rewrite Forall_forall in A, B.
    apply Forall_forall. intros e He.
    destruct (A e He) as (t & Ht & Hlen & Htx).
    destruct (B e He) as (t' & x & -> & Hb). cbn [fst] in Ht.
    injection Ht as <-. exists t'. split; [ reflexivity | ].
    split; [ exact Hb | ]. split; [ exact Htx | ]. split; [ lia | ].
    assert (2 * (limit / 2) <= limit) by (Z.div_mod_to_equations; lia). lia.
Qed.

(** ** Reads *)

(** X4: whatever the command, the length and the answers of the bus, a read
    calls nothing at all, or drives D/C low and then sends exactly one SPI
    message of two transfers: the command byte out, then the answer in, both
    clocked at no more than 2 MHz and no more than half the device's maximum
    speed; the answer is asked one byte longer for the two legacy commands
    and as long as requested for all others. *)
Theorem typec3_read_events :
  forall (oc : oracle) (mipi : mipi_dbi) (cmd num : Z) (tr : list event),
    0 <= max_speed_hz (spi mipi) ->
    exists r data new,
      mipi_dbi_typec3_command_read oc mipi cmd num tr
      = Some ((r, data), tr ++ new)
      /\ ((new = [] /\ data = None
           /\ (r = - EINVAL \/ r = - EACCES \/ r = - ENOMEM))
          \/ exists t0 t1,
              new = [(gpiod_set_value_cansleep 0, 0); (spi_sync [t0; t1], r)]
              /\ tx_buf t0 = Some [cmd] /\ len t0 = 1 /\ rx_buf t0 = false
              /\ tx_buf t1 = None /\ rx_buf t1 = true
              /\ len t1 = (if (cmd =? MIPI_DCS_GET_DISPLAY_ID)
                              || (cmd =? MIPI_DCS_GET_DISPLAY_STATUS)
                           then num + 1 else num)
              /\ speed_hz t0 = speed_hz t1
              /\ speed_hz t0 <= MIPI_DBI_MAX_SPI_READ_SPEED
              /\ 2 * speed_hz t0 <= max_speed_hz (spi mipi)
              /\ (r <> 0 <-> data = None)).
Proof.
  intros oc mipi cmd num tr Hs.
  unfold mipi_dbi_typec3_command_read, bind, kmalloc, ext_void, received,
    ext, ret.
  assert (2 * Z.min MIPI_DBI_MAX_SPI_READ_SPEED (max_speed_hz (spi mipi) / 2)
          <= max_speed_hz (spi mipi)) as Hhalf.
  { assert (2 * (max_speed_hz (spi mipi) / 2) <= max_speed_hz (spi mipi))
      by (Z.div_mod_to_equations; lia). lia. }
  destruct (num =? 0).
  { exists (- EINVAL), None, []. rewrite app_nil_r.
    split; [ reflexivity | left; repeat split; left; reflexivity ]. }
  destruct (write_only mipi).
  { exists (- EACCES), None, []. rewrite app_nil_r.
    split; [ reflexivity | left; repeat split; right; left; reflexivity ]. }
  destruct ((cmd =? MIPI_DCS_GET_DISPLAY_ID)
            || (cmd =? MIPI_DCS_GET_DISPLAY_STATUS)) eqn:Q; cbn [andb].
  - destruct (negb ((num =? 3) || (num =? 4))).
    { exists (- EINVAL), None, []. rewrite app_nil_r.
      split; [ reflexivity | left; repeat split; left; reflexivity ]. }
    destruct (kmalloc_ok oc tr (num + 1)); cbn [negb].
    2: { exists (- ENOMEM), None, []. rewrite app_nil_r.
         split; [ reflexivity | left; repeat split; right; right; reflexivity ]. }
    match goal with
    | |- context [reply oc ?h ?c] =>
        destruct (Z.eqb_spec (reply oc h c) 0) as [Hz | Hnz]; cbn [negb]
    end.
    + rewrite <- app_assoc. cbn [app].
      destruct (Z.eqb_spec (num + 1) num) as [ | _]; [ lia | ].
      do 3 eexists. split; [ reflexivity | ]. right. do 2 eexists.
      split; [ rewrite Hz; reflexivity | ].
      cbn [tx_buf len rx_buf speed_hz].
      repeat split; try lia; try discriminate; intros C; contradiction.
    + rewrite <- app_assoc. cbn [app].
      do 3 eexists. split; [ reflexivity | ]. right. do 2 eexists.
      split; [ reflexivity | ].
      cbn [tx_buf len rx_buf speed_hz].
      repeat split; try lia; try discriminate; intros _; exact Hnz.
  - destruct (kmalloc_ok oc tr num); cbn [negb].
    2: { exists (- ENOMEM), None, []. rewrite app_nil_r.
         split; [ reflexivity | left; repeat split; right; right; reflexivity ]. }
    match goal with
    | |- context [reply oc ?h ?c] =>
        destruct (Z.eqb_spec (reply oc h c) 0) as [Hz | Hnz]; cbn [negb]
    end.
    + rewrite <- app_assoc. cbn [app]. rewrite Z.eqb_refl.
      do 3 eexists. split; [ reflexivity | ]. right. do 2 eexists.
      split; [ rewrite Hz; reflexivity | ].
      cbn [tx_buf len rx_buf speed_hz].
      repeat split; try lia; try discriminate; intros C; contradiction.
    + rewrite <- app_assoc. cbn [app].
      do 3 eexists. split; [ reflexivity | ]. right. do 2 eexists.
      split; [ reflexivity | ].
      cbn [tx_buf len rx_buf speed_hz].
      repeat split; try lia; try discriminate; intros _; exact Hnz.
Qed.

Lemma typec3_read_events_witness :
  exists r data new,
    mipi_dbi_typec3_command_read (bus_ok [0x9C]) (sample_mipi false false)
      MIPI_DCS_GET_POWER_MODE 1 []
    = Some ((r, data), [] ++ new)
    /\ ((new = [] /\ data = None
         /\ (r = - EINVAL \/ r = - EACCES \/ r = - ENOMEM))
        \/ exists t0 t1,
            new = [(gpiod_set_value_cansleep 0, 0); (spi_sync [t0; t1], r)]
            /\ tx_buf t0 = Some [MIPI_DCS_GET_POWER_MODE] /\ len t0 = 1
            /\ rx_buf t0 = false
            /\ tx_buf t1 = None /\ rx_buf t1 = true
            /\ len t1 = (if (MIPI_DCS_GET_POWER_MODE =? MIPI_DCS_GET_DISPLAY_ID)
                            || (MIPI_DCS_GET_POWER_MODE
                                =? MIPI_DCS_GET_DISPLAY_STATUS)
                         then 1 + 1 else 1)
            /\ speed_hz t0 = speed_hz t1
            /\ speed_hz t0 <= MIPI_DBI_MAX_SPI_READ_SPEED
            /\ 2 * speed_hz t0 <= max_speed_hz (spi (sample_mipi false false))
            /\ (r <> 0 <-> data = None)).
Proof.
  apply (typec3_read_events (bus_ok [0x9C]) (sample_mipi false false)
           MIPI_DCS_GET_POWER_MODE 1 []).
  simpl. lia.
Defined.

(** X5: a successful read of any command but the two legacy ones stores
    exactly the requested number of bytes, and they are the bytes clocked
    in, in order and unchanged. *)
Theorem typec3_read_plain :
  forall (oc : oracle) (mipi : mipi_dbi) (cmd num : Z) (tr : list event),
    cmd <> MIPI_DCS_GET_DISPLAY_ID -> cmd <> MIPI_DCS_GET_DISPLAY_STATUS ->
    write_only mipi = false -> 0 < num ->
    kmalloc_ok oc tr num = true ->
    (forall m, reply oc (tr ++ [(gpiod_set_value_cansleep 0, 0)]) (spi_sync m)
               = 0) ->
    exists tr',
      mipi_dbi_typec3_command_read oc mipi cmd num tr
      = Some ((0, Some (map (fun i =>
                               Z.land (rx_byte oc
                                         (tr ++ [(gpiod_set_value_cansleep 0, 0)])
                                         i) 0xFF)
                            (seq 0 (Z.to_nat num)))), tr').
Proof.
  intros oc mipi cmd num tr Hc1 Hc2 Hwo Hn Hk Hr.
  unfold mipi_dbi_typec3_command_read, bind, kmalloc, ext_void, received,
    ext, ret.
  destruct (Z.eqb_spec num 0) as [ | _]; [ lia | ]. rewrite Hwo.
  destruct (Z.eqb_spec cmd MIPI_DCS_GET_DISPLAY_ID) as [ | _];
    [ contradiction | ].
  destruct (Z.eqb_spec cmd MIPI_DCS_GET_DISPLAY_STATUS) as [ | _];
    [ contradiction | ].
  cbn [orb andb]. rewrite Hk. cbn [negb]. rewrite Hr.
  change (negb (0 =? 0)) with false. cbv iota. rewrite Z.eqb_refl.
  rewrite firstn_all2 by (rewrite length_map, length_seq; lia).
  eexists. reflexivity.
Qed.

Lemma typec3_read_plain_witness :
  exists tr',
    mipi_dbi_typec3_command_read (bus_ok [0x9C]) (sample_mipi false false)
      MIPI_DCS_GET_POWER_MODE 1 []
    = Some ((0, Some [0x9C]), tr').
Proof.
  refine (typec3_read_plain (bus_ok [0x9C]) (sample_mipi false false)
            MIPI_DCS_GET_POWER_MODE 1 [] _ _ eq_refl _ eq_refl
            (fun _ => eq_refl)).
  - unfold MIPI_DCS_GET_POWER_MODE, MIPI_DCS_GET_DISPLAY_ID. lia.
  - unfold MIPI_DCS_GET_POWER_MODE, MIPI_DCS_GET_DISPLAY_STATUS. lia.
  - lia.
Defined.

Lemma shift_in_cons (x : Z) (raw : list Z) (i : nat) :
  shift_in (x :: raw) (S i) = shift_in raw i.
Proof. reflexivity. Qed.

Lemma one_bit_late_head (carry : Z) (d : list Z) (tail : Z) :
  (carry = 0 \/ carry = 1) -> 0 <= tail < 128 -> Forall is_byte d ->
  Z.b2z (Z.testbit (nth 0 (one_bit_late carry d tail) 0) 7) = carry.
Proof.
  intros Hc Ht Hd. rewrite Z.testbit_spec' by lia. change (2 ^ 7) with 128.
  destruct d as [ | b d]; cbn [one_bit_late nth].
  - Z.div_mod_to_equations. lia.
  - inversion Hd as [ | ? ? Hb _]; subst. unfold is_byte in Hb.
    Z.div_mod_to_equations. lia.
Qed.

Lemma shift_in_late_bytes :
  forall (d : list Z) (carry tail : Z),
    Forall is_byte d -> (carry = 0 \/ carry = 1) -> 0 <= tail < 128 ->
    map (shift_in (one_bit_late carry d tail)) (seq 0 (length d)) = d.
Proof.
  induction d as [ | b d IH]; intros carry tail Hd Hc Ht; [ reflexivity | ].
  inversion Hd as [ | ? ? Hb Hd']; subst.
  cbn [length seq map one_bit_late]. rewrite <- seq_shift, map_map.
  f_equal.
  - rewrite shift_in_spec. cbn [nth].
    change (nth 1 (?x :: ?l) 0) with (nth 0 l 0).
    rewrite (one_bit_late_head (b mod 2) d tail);
      [ | Z.div_mod_to_equations; lia | exact Ht | exact Hd' ].
    rewrite Z.shiftl_mul_pow2 by lia. change (2 ^ 1) with 2.
    rewrite (lor_disjoint_add _ (b mod 2) 1);
      [ | lia | change (2 ^ 1) with 2; Z.div_mod_to_equations; lia
        | change (2 ^ 1) with 2; apply Z.mod_mul; lia ].
    change 0xFF with (Z.ones 8). rewrite Z.land_ones by lia.
    change (2 ^ 8) with 256. unfold is_byte in Hb.
    Z.div_mod_to_equations. lia.
  - erewrite map_ext; [ apply (IH (b mod 2) tail Hd') | ].
    + Z.div_mod_to_equations. lia.
    + exact Ht.
    + intros i. apply shift_in_cons.
Qed.

(** X6: undoing the dummy clock.  When the data bytes reach the host one bit
    late, the reconstruction applied to the two legacy commands gives the
    data bytes back, whatever the dummy bit and the bits after the data. *)
Theorem shift_in_one_bit_late :
  forall (d : list Z) (carry tail : Z),
    Forall is_byte d -> (carry = 0 \/ carry = 1) -> 0 <= tail < 128 ->
    map (shift_in (one_bit_late carry d tail)) (seq 0 (length d)) = d.
Proof.
  exact shift_in_late_bytes.
Qed.

Lemma shift_in_one_bit_late_witness :
  map (shift_in [0x2A; 0xC0; 0x33; 0x00]) (seq 0 3) = [0x55; 0x80; 0x66].
Proof.
  refine (shift_in_one_bit_late [0x55; 0x80; 0x66] 0 0 _ _ _).
  - repeat constructor; unfold is_byte; lia.
  - left. reflexivity.
  - lia.
Defined.

(** X7: a 3- or 4-byte read of a legacy command from a controller that
    answers one bit late returns the controller's data bytes. *)
Theorem typec3_read_legacy_data :
  forall (oc : oracle) (mipi : mipi_dbi) (cmd : Z) (d : list Z)
         (carry tail : Z) (tr : list event),
    cmd = MIPI_DCS_GET_DISPLAY_ID \/ cmd = MIPI_DCS_GET_DISPLAY_STATUS ->
    write_only mipi = false ->
    length d = 3%nat \/ length d = 4%nat ->
    Forall is_byte d -> (carry = 0 \/ carry = 1) -> 0 <= tail < 128 ->
    kmalloc_ok oc tr (Z.of_nat (length d) + 1) = true ->
    (forall m, reply oc (tr ++ [(gpiod_set_value_cansleep 0, 0)]) (spi_sync m)
               = 0) ->
    (forall i, rx_byte oc (tr ++ [(gpiod_set_value_cansleep 0, 0)]) i
               = nth i (one_bit_late carry d tail) 0) ->
    exists tr',
      mipi_dbi_typec3_command_read oc mipi cmd (Z.of_nat (length d)) tr
      = Some ((0, Some d), tr').
Proof.
  intros oc mipi cmd d carry tail tr Hcmd Hwo Hlen Hd Hc Ht Hk Hr Hrx.
  assert ((cmd =? MIPI_DCS_GET_DISPLAY_ID)
          || (cmd =? MIPI_DCS_GET_DISPLAY_STATUS) = true) as Q
      by (destruct Hcmd as [-> | ->]; reflexivity).
  pose proof (shift_in_late_bytes d carry tail Hd Hc Ht) as RT.
  assert (forall i, to_u8 (rx_byte oc (tr ++ [(gpiod_set_value_cansleep 0, 0)]) i)
                    = nth i (one_bit_late carry d tail) 0) as Hrx8.
  { intros i. rewrite Hrx. unfold to_u8. change 0xFF with (Z.ones 8).
    rewrite Z.land_ones by lia. apply Z.mod_small.
    clear - Hd Hc Ht. revert carry Hc i.
    induction d as [ | b d IH]; intros carry Hc i; cbn [one_bit_late].
    - destruct i as [ | [ | i]]; cbn [nth]; lia.
    - inversion Hd as [ | ? ? Hb Hd']; subst. unfold is_byte in Hb.
      destruct i as [ | i]; cbn [nth].
      + Z.div_mod_to_equations. lia.
      + apply (IH Hd'). Z.div_mod_to_equations. lia. }
  clear Hrx Hd.
  destruct d as [ | b0 [ | b1 [ | b2 [ | b3 [ | b4 d]]]]];
    cbn [length] in Hlen; try (exfalso; lia); clear Hlen;
    cbn [length] in *.
  all: change (Z.of_nat 3 + 1) with 4 in Hk;
    change (Z.of_nat 4 + 1) with 5 in Hk;
    change (Z.of_nat 3) with 3; change (Z.of_nat 4) with 4.
  all: unfold mipi_dbi_typec3_command_read, bind, kmalloc, ext_void,
    received, ext, ret.
  all: rewrite Q, Hwo; cbn [Z.eqb Pos.eqb orb negb andb Z.add Pos.add Pos.succ].
  all: rewrite Hk; cbn [negb]; rewrite Hr.
  all: change (negb (0 =? 0)) with false; cbv iota.
  all: change (Z.to_nat 3) with 3%nat; change (Z.to_nat 4) with 4%nat;
    change (Z.to_nat 5) with 5%nat; cbv beta; cbn [seq map].
  all: rewrite !Hrx8; cbn [one_bit_late nth].
  all: cbn [seq map one_bit_late] in RT; rewrite RT.
  all: eexists; reflexivity.
Qed.

Lemma typec3_read_legacy_data_witness :
  exists tr',
    mipi_dbi_typec3_command_read (bus_ok [0x2A; 0xC0; 0x33; 0x00])
      (sample_mipi false false) MIPI_DCS_GET_DISPLAY_ID 3 []
    = Some ((0, Some [0x55; 0x80; 0x66]), tr').
Proof.
  refine (typec3_read_legacy_data (bus_ok [0x2A; 0xC0; 0x33; 0x00])
            (sample_mipi false false) MIPI_DCS_GET_DISPLAY_ID
            [0x55; 0x80; 0x66] 0 0 [] _ eq_refl _ _ _ _ eq_refl
            (fun _ => eq_refl) _).
  - left. reflexivity.
  - left. reflexivity.
  - repeat constructor; unfold is_byte; lia.
  - left. reflexivity.
  - lia.
  - intros i. do 5 (destruct i as [ | i]; [ reflexivity | ]).
    destruct i; reflexivity.
Defined.
(** ** Which transport set-up selects *)

Lemma stored_words_app (a b : list event) :
  stored_words (a ++ b) = stored_words a ++ stored_words b.
Proof.
  induction a as [ | [c r] a IH]; [ reflexivity | ].
  cbn [app stored_words]. destruct c; try exact IH.
  rewrite IH. apply app_assoc.
Qed.

Lemma wire_stream_app (a b : list event) :
  wire_stream (a ++ b) = wire_stream a ++ wire_stream b.
Proof.
  induction a as [ | [c r] a IH]; [ reflexivity | ].
  cbn [app wire_stream]. destruct c; try exact IH.
  rewrite IH. apply app_assoc.
Qed.

(** A command that is not a read, sent by Type C Option 1 over native 9-bit
    words on a bus that takes everything. *)
Lemma typec1_command_native (hl : helpers) (oc : oracle) (mipi : mipi_dbi)
      (cmd : Z) (par : list Z) (tr : list event) :
  never_fails oc ->
  tinydrm_spi_bpw_supported hl (spi mipi) 9 = true ->
  mipi_dbi_command_is_read mipi cmd = Some false ->
  2 <= tinydrm_spi_max_transfer_size hl (spi mipi) 4096 ->
  exists new,
    mipi_dbi_typec1_command hl oc mipi cmd par (Z.of_nat (length par)) tr
    = Some (0, tr ++ new)
    /\ only_spi_sync_of 9 new
    /\ stored_words new = cmd :: map (native_word 1) par.
Proof.
  intros Hok H9 Hw Hmax.
  unfold mipi_dbi_typec1_command. rewrite Hw.
  unfold mipi_dbi_spi1_transfer. rewrite H9. cbn [negb]. unfold bind.
  destruct (spi1_native_run hl oc mipi 0 [cmd] 4096 tr Hok Hmax)
    as (new1 & E1 & S1 & _ & _).
  change (Z.of_nat (length [cmd])) with 1 in E1. rewrite E1.
  change (negb (0 =? 0)) with false. cbv iota.
  destruct (spi1_native_bpw hl oc mipi 0 [cmd] 1 4096 tr 0 _ E1)
    as (new1' & X1 & B1).
  apply app_inv_head in X1. subst new1'.
  destruct (Z.eqb_spec (Z.of_nat (length par)) 0) as [N0 | N0]; cbn [negb].
  - exists new1. split; [ reflexivity | ]. split; [ exact B1 | ].
    rewrite S1. destruct par; [ reflexivity | discriminate N0 ].
  - destruct (spi1_native_run hl oc mipi 1 par 4096 (tr ++ new1) Hok Hmax)
      as (new2 & E2 & S2 & _ & _).
    rewrite E2.
    destruct (spi1_native_bpw hl oc mipi 1 par _ 4096 _ 0 _ E2)
      as (new2' & X2 & B2).
    apply app_inv_head in X2. subst new2'.
    exists (new1 ++ new2). split; [ rewrite app_assoc; reflexivity | ].
    split; [ apply Forall_app; split; assumption | ].
    rewrite stored_words_app, S1, S2. reflexivity.
Qed.

(** The same command over the byte-packed emulation. *)
Lemma typec1_command_emulated (hl : helpers) (oc : oracle) (mipi : mipi_dbi)
      (cmd : Z) (par : list Z) (tr : list event) :
  never_fails oc ->
  tinydrm_spi_bpw_supported hl (spi mipi) 9 = false ->
  mipi_dbi_command_is_read mipi cmd = Some false ->
  is_byte cmd -> Forall is_byte par ->
  9 <= tinydrm_spi_max_transfer_size hl (spi mipi) 4096 ->
  let n := Z.of_nat (length par) in
  let msc :=
    Z.max 8 (8 * (Z.min (tinydrm_spi_max_transfer_size hl (spi mipi) 4096
                         / 9 * 8) n / 8)) in
  exists new2,
    mipi_dbi_typec1_command hl oc mipi cmd par n tr
    = Some (0, tr ++ (spi_sync [tr8 (repeat 0 8 ++ [cmd]) 9], 0) :: new2)
    /\ only_spi_sync_of 8 new2
    /\ wire_length new2 = wire_total msc n
    /\ (n mod msc < 8 \/ (n mod msc) mod 8 = 0 ->
        unpack (wire_stream ((spi_sync [tr8 (repeat 0 8 ++ [cmd]) 9], 0)
                               :: new2))
        = repeat 0 7 ++ [cmd] ++ map data_word par
          ++ repeat 0 (Z.to_nat ((8 - n mod 8) mod 8))).
Proof.
  intros Hok H9 Hw Hc Hb Hmax n msc.
  unfold mipi_dbi_typec1_command. rewrite Hw.
  unfold mipi_dbi_spi1_transfer. rewrite H9. cbn [negb].
  unfold bind.
  assert (mipi_dbi_spi1e_transfer hl oc mipi 0 [cmd] 1 4096 tr
          = Some (0, tr ++ [(spi_sync [tr8 (repeat 0 8 ++ [cmd]) 9], 0)]))
    as E1.
  { unfold mipi_dbi_spi1e_transfer.
    destruct (Z.ltb_spec (tinydrm_spi_max_transfer_size hl (spi mipi) 4096) 9)
      as [ | _]; [ lia | ].
    change (0 =? 0) with true. change (negb (1 =? 1)) with false. cbv iota.
    unfold bind, kmalloc, ext. rewrite (proj2 Hok). cbn [negb].
    rewrite (proj1 Hok). reflexivity. }
  rewrite E1. change (negb (0 =? 0)) with false. cbv iota.
  assert (unpack (repeat 0 8 ++ [cmd]) = repeat 0 7 ++ [cmd]) as Ucmd.
  { exact (command_block_unpack cmd Hc). }
  assert (forall rest,
             unpack (wire_stream ((spi_sync [tr8 (repeat 0 8 ++ [cmd]) 9], 0)
                                    :: rest))
             = (repeat 0 7 ++ [cmd]) ++ unpack (wire_stream rest)) as Ucons.
  { intros rest. rewrite <- Ucmd.
    cbn [wire_stream map concat wire_bytes tx_buf tr8 len].
    change (Z.to_nat 9) with 9%nat. cbn [repeat app firstn unpack].
    reflexivity. }
  destruct (Z.eqb_spec n 0) as [N0 | N0]; cbn [negb].
  - exists []. rewrite N0.
    split; [ reflexivity | ]. split; [ constructor | ].
    split; [ rewrite wire_total_zero; reflexivity | ].
    intros _. rewrite Ucons.
    assert (par = []) as -> by (destruct par; [ reflexivity | discriminate N0 ]).
    reflexivity.
  - set (tr1 := tr ++ [(spi_sync [tr8 (repeat 0 8 ++ [cmd]) 9], 0)]).
    destruct (spi1e_transfer_length hl oc mipi 1 par n 4096 tr1
                Hok ltac:(lia) ltac:(lia) Hmax) as (new2 & E2 & L2).
    fold msc in L2. rewrite E2.
    destruct (spi1e_transfer_bpw hl oc mipi 1 par n 4096 tr1 0 _ E2)
      as (new2' & X2 & B2).
    apply app_inv_head in X2. subst new2'.
    exists new2. split; [ unfold tr1; rewrite <- app_assoc; reflexivity | ].
    split; [ exact B2 | ]. split; [ exact L2 | ].
    intros Hh. rewrite Ucons.
    assert (exists new3,
               mipi_dbi_spi1e_transfer hl oc mipi 1 par n 4096 tr1
               = Some (0, tr1 ++ new3)
               /\ unpack (wire_stream new3)
                  = map data_word par
                    ++ repeat 0 (Z.to_nat ((8 - n mod 8) mod 8)))
      as (new3 & E3 & U3).
    { unfold mipi_dbi_spi1e_transfer.
      destruct (Z.ltb_spec (tinydrm_spi_max_transfer_size hl (spi mipi) 4096) 9)
        as [ | _]; [ lia | ].
      change (1 =? 0) with false. cbv iota.
      unfold bind, kmalloc. rewrite (proj2 Hok). cbn [negb].
      rewrite land_lnot_7. fold msc.
      apply (spi1e_loop_unpack oc par msc Hok Hb); try lia; try exact Hh.
      unfold msc.
      destruct (Z.max_spec 8 (8 * (Z.min (tinydrm_spi_max_transfer_size hl
                                            (spi mipi) 4096 / 9 * 8) n / 8)))
        as [[_ ->] | [_ ->]];
        [ rewrite Z.mul_comm; apply Z.mod_mul; lia | reflexivity ]. }
    rewrite E2 in E3. injection E3 as E3. apply app_inv_head in E3.
    subst new3. rewrite U3, <- app_assoc. reflexivity.
Qed.

(** A command that is not a read, sent by Type C Option 3, whatever the bus
    answers. *)
Lemma typec3_command_sends (oc : oracle) (mipi : mipi_dbi) (cmd : Z)
      (par : list Z) (num : Z) (tr : list event) :
  mipi_dbi_command_is_read mipi cmd = Some false ->
  let r1 := reply oc (tr ++ [(gpiod_set_value_cansleep 0, 0)])
                  (tinydrm_spi_transfer 8 [cmd] 1) in
  let head := [ (gpiod_set_value_cansleep 0, 0);
                (tinydrm_spi_transfer 8 [cmd] 1, r1) ] in
  let bpw := if (cmd =? MIPI_DCS_WRITE_MEMORY_START)
                && negb (swap_bytes mipi) then 16 else 8 in
  exists r,
    mipi_dbi_typec3_command oc mipi cmd par num tr
    = Some ((r, None),
            tr ++ head
               ++ (if (r1 =? 0) && negb (num =? 0)
                   then [ (gpiod_set_value_cansleep 1, 0);
                          (tinydrm_spi_transfer bpw par num, r) ]
                   else []))
    /\ ((r1 =? 0) && negb (num =? 0) = false -> r = r1).
Proof.
  intros Hw r1 head bpw.
  unfold mipi_dbi_typec3_command. rewrite Hw.
  unfold bind, ext_void, ext, ret. fold r1.
  destruct (r1 =? 0), (num =? 0); cbn [negb orb andb].
  all: eexists; rewrite <- ?app_assoc; cbn [app]; split;
    [ reflexivity | intros X; first [ reflexivity | discriminate X ] ].
Qed.

Lemma dcs_read_commands_nonzero :
  Forall (fun e => e <> 0) (removelast mipi_dbi_dcs_read_commands).
Proof.
  repeat (constructor; [ intro E; cbv in E; discriminate E | ]).
  constructor.
Qed.

Lemma dcs_table_is_read (mipi : mipi_dbi) (cmd : Z) :
  read_commands mipi = Some mipi_dbi_dcs_read_commands ->
  mipi_dbi_command_is_read mipi cmd
  = Some (existsb (Z.eqb cmd) (removelast mipi_dbi_dcs_read_commands)).
Proof.
  intros Ht. unfold mipi_dbi_command_is_read. rewrite Ht.
  exact (command_is_read_from_spec cmd [] (removelast mipi_dbi_dcs_read_commands)
           [] 255 dcs_read_commands_nonzero ltac:(simpl; lia)).
Qed.

(** C5: what set-up selects, seen on the wire.  Take a command byte that is
    not one of the DCS read commands, any parameter bytes, and a bus and an
    allocator that grant everything, with a transfer size limit of 9 bytes
    or more.  Set-up always returns a device, and a command sent through the
    function it has put into [mipi->command] goes out as follows.

    With a D/C descriptor, whatever the master says about 9-bit words: the
    D/C line is set low and the command byte sent as one 8-bit word; then,
    when that went well and there are parameters, the line is set high and
    the parameters are sent as 8-bit words (16-bit ones for a memory write
    without byte swapping).  No 9-bit word and no packed block is sent.

    Without one, on a master that supports 9 bits per word: every message
    has 9 bits per word and the words stored are the command byte with bit 8
    clear followed by the parameters with bit 8 set.

    Without one, on a master that does not: the first message is the 9-byte
    block of 8-bit words that holds the command byte last, every other
    message has 8 bits per word, the parameters take the wire length of the
    emulation, and, whenever what is left for the last message is fewer than
    8 bytes or a multiple of 8, the wire read back 9 bits at a time is seven
    no-op words, the command with the D/C bit clear, the parameters with the
    D/C bit set and no-op words up to a multiple of eight. *)
Theorem C5_transport_selection :
  forall (hl : helpers) (oc : oracle) (s : spi_device) (mipi : mipi_dbi)
         (dc_desc wo : bool) (mode : drm_display_mode) (rot : Z)
         (tr : list event) (cmd : Z) (par : list Z) (tr0 : list event),
    never_fails oc ->
    9 <= tinydrm_spi_max_transfer_size hl s 4096 ->
    is_byte cmd ->
    ~ In cmd (removelast mipi_dbi_dcs_read_commands) ->
    Forall is_byte par ->
    let n := Z.of_nat (length par) in
    let msc :=
      Z.max 8 (8 * (Z.min (tinydrm_spi_max_transfer_size hl s 4096 / 9 * 8) n
                    / 8)) in
    let block := (spi_sync [tr8 (repeat 0 8 ++ [cmd]) 9], 0) in
    exists r mipi' tr',
      mipi_dbi_spi_init hl oc s mipi dc_desc wo mode rot tr
      = Some ((r, mipi'), tr')
      /\ (dc_desc = true ->
          command mipi' = Some typec3_command
          /\ let r1 := reply oc (tr0 ++ [(gpiod_set_value_cansleep 0, 0)])
                             (tinydrm_spi_transfer 8 [cmd] 1) in
             let bpw := if (cmd =? MIPI_DCS_WRITE_MEMORY_START)
                           && negb (swap_bytes mipi') then 16 else 8 in
             exists r0,
               call_command hl oc mipi' cmd par n tr0
               = Some ((r0, None),
                       tr0 ++ [ (gpiod_set_value_cansleep 0, 0);
                                (tinydrm_spi_transfer 8 [cmd] 1, r1) ]
                           ++ (if (r1 =? 0) && negb (n =? 0)
                               then [ (gpiod_set_value_cansleep 1, 0);
                                      (tinydrm_spi_transfer bpw par n, r0) ]
                               else []))
               /\ ((r1 =? 0) && negb (n =? 0) = false -> r0 = r1))
      /\ (dc_desc = false ->
          command mipi' = Some typec1_command
          /\ (tinydrm_spi_bpw_supported hl s 9 = true ->
              exists new,
                call_command hl oc mipi' cmd par n tr0
                = Some ((0, None), tr0 ++ new)
                /\ only_spi_sync_of 9 new
                /\ stored_words new = cmd :: map (native_word 1) par)
          /\ (tinydrm_spi_bpw_supported hl s 9 = false ->
              exists new,
                call_command hl oc mipi' cmd par n tr0
                = Some ((0, None), tr0 ++ block :: new)
                /\ only_spi_sync_of 8 new
                /\ wire_length new = wire_total msc n
                /\ (n mod msc < 8 \/ (n mod msc) mod 8 = 0 ->
                    unpack (wire_stream (block :: new))
                    = repeat 0 7 ++ [cmd] ++ map data_word par
                      ++ repeat 0 (Z.to_nat ((8 - n mod 8) mod 8))))).
Proof.
  intros hl oc s mipi dc_desc wo mode rot tr cmd par tr0
         Hok Hmax Hc Hnr Hb n msc block.
  unfold mipi_dbi_spi_init.
  match goal with
  | |- context [mipi_dbi_init oc ?m mode rot tr] =>
      destruct (mipi_dbi_init_command oc m mode rot tr)
        as (r & mipi' & tr' & E & Hcm & Hs & _ & _ & Ht)
  end.
  cbn [command spi read_commands] in Hcm, Hs, Ht.
  exists r, mipi', tr'. split; [ exact E | ].
  assert (mipi_dbi_command_is_read mipi' cmd = Some false) as Hw.
  { rewrite (dcs_table_is_read mipi' cmd Ht). f_equal.
    destruct (existsb (Z.eqb cmd) (removelast mipi_dbi_dcs_read_commands))
      eqn:X; [ | reflexivity ].
    apply existsb_eqb_In in X. contradiction. }
  split; intros ->.
  - split; [ exact Hcm | ]. unfold call_command. rewrite Hcm.
    exact (typec3_command_sends oc mipi' cmd par n tr0 Hw).
  - split; [ exact Hcm | ]. unfold call_command. rewrite Hcm. unfold bind.
    assert (9 <= tinydrm_spi_max_transfer_size hl (spi mipi') 4096) as Hmax'
        by (rewrite Hs; exact Hmax).
    split; intros H9; rewrite <- Hs in H9.
    + destruct (typec1_command_native hl oc mipi' cmd par tr0 Hok H9 Hw
                  ltac:(lia)) as (new & E1 & B & S).
      fold n in E1. rewrite E1. exists new.
      split; [ reflexivity | split; assumption ].
    + destruct (typec1_command_emulated hl oc mipi' cmd par tr0 Hok H9 Hw
                  Hc Hb Hmax') as (new & E1 & B & L & U).
      rewrite Hs in L, U. fold n in E1, L, U. fold msc in L, U.
      rewrite E1. exists new.
      split; [ reflexivity | ]. split; [ exact B | ].
      split; [ exact L | exact U ].
Qed.

Lemma C5_transport_selection_witness :
  exists mipi' new,
    option_map (fun x => snd (fst x))
               (mipi_dbi_spi_init (sample_helpers false) (bus_ok []) sample_spi
                  (sample_mipi false false) false false sample_mode 0 [])
    = Some mipi'
    /\ call_command (sample_helpers false) (bus_ok []) mipi'
                    MIPI_DCS_SET_COLUMN_ADDRESS [0; 0; 1; 0x3F] 4 []
       = Some ((0, None),
               [] ++ (spi_sync [tr8 (repeat 0 8 ++ [MIPI_DCS_SET_COLUMN_ADDRESS])
                                    9], 0) :: new)
    /\ unpack (wire_stream
                 ((spi_sync [tr8 (repeat 0 8 ++ [MIPI_DCS_SET_COLUMN_ADDRESS])
                                 9], 0) :: new))
       = [ 0; 0; 0; 0; 0; 0; 0; MIPI_DCS_SET_COLUMN_ADDRESS;
           0x100; 0x100; 0x101; 0x13F; 0; 0; 0; 0 ].
Proof.
  assert (never_fails (bus_ok [])) as Hok by (split; intros; reflexivity).
  assert (9 <= tinydrm_spi_max_transfer_size (sample_helpers false)
                 sample_spi 4096) as Hmax by (simpl; lia).
  assert (is_byte MIPI_DCS_SET_COLUMN_ADDRESS) as Hc
      by (unfold is_byte, MIPI_DCS_SET_COLUMN_ADDRESS; lia).
  assert (~ In MIPI_DCS_SET_COLUMN_ADDRESS
               (removelast mipi_dbi_dcs_read_commands)) as Hnr.
  { intros H. vm_compute in H.
    repeat (destruct H as [H | H]; [ discriminate H | ]). exact H. }
  assert (Forall is_byte [0; 0; 1; 0x3F]) as Hb
      by (repeat constructor; unfold is_byte; lia).
  pose proof (C5_transport_selection (sample_helpers false) (bus_ok [])
                sample_spi (sample_mipi false false) false false sample_mode 0
                [] MIPI_DCS_SET_COLUMN_ADDRESS [0; 0; 1; 0x3F] []
                Hok Hmax Hc Hnr Hb) as X.
  cbv zeta in X.
  destruct X as (r & mipi' & tr' & E & _ & Hno).
  destruct (Hno eq_refl) as (_ & _ & Hem).
  destruct (Hem eq_refl) as (new & E1 & _ & _ & U).
  exists mipi', new. split; [ rewrite E; reflexivity | ].
  split; [ exact E1 | ].
  apply U. left. vm_compute. reflexivity.
Defined.
(** ** The flush: lock, commands, result *)



Ltac close_source :=
  match goal with
  | |- _ = _ -> _ => let H := fresh in intros H; first [ reflexivity | discriminate H ]
  end.

Ltac split_commands :=
  let go n :=
    solve [ split_at n; do 6 eexists;
            split; [ reflexivity | ];
            repeat (split; [ first [ reflexivity | close_source ] | ]);
            first [ reflexivity | close_source ] ] in
  first [ go 1%nat | go 2%nat | go 3%nat | go 4%nat | go 5%nat ].

(** X9: the commands of a flush.  Either the flush sends no command at all
    and leaves the device as it was, or it sends exactly three, one after the
    other with nothing in between: the column window and the page window of
    one and the same rectangle, then the memory write of that rectangle.
    What is copied into the transmit buffer is copied before the first
    command: once when the pixels are sent from the transmit buffer, never
    when they are sent from the framebuffer itself. *)
Theorem fb_dirty_commands :
  forall (hl : helpers) (oc : oracle) (mipi : mipi_dbi) (fb : drm_framebuffer)
         (flags : Z) (clips : list drm_clip_rect) (n : Z) (tr : list event),
  exists r mipi' new,
    mipi_dbi_fb_dirty hl oc mipi fb flags clips n tr
    = Some ((r, mipi'), tr ++ new)
    /\ ((filter is_command new = [] /\ mipi' = mipi)
        \/ exists pre clip src rc rp rm post,
            new = pre
                  ++ [ (command_call MIPI_DCS_SET_COLUMN_ADDRESS
                          (window_args (x1 clip) (x2 clip)), rc);
                       (command_call MIPI_DCS_SET_PAGE_ADDRESS
                          (window_args (y1 clip) (y2 clip)), rp);
                       (mipi_dbi_command_buf MIPI_DCS_WRITE_MEMORY_START
                          (cmd_pixels src)
                          (to_int ((x2 clip - x1 clip) * (y2 clip - y1 clip) * 2)),
                        rm) ]
                  ++ post
            /\ filter is_command pre = []
            /\ filter is_command post = []
            /\ filter is_staging_copy post = []
            /\ (src = from_tx_buf ->
                length (filter is_staging_copy pre) = 1%nat)
            /\ (src = from_fb_vaddr -> filter is_staging_copy pre = [])).
Proof.
  intros hl oc mipi fb flags clips n tr.
  unfold mipi_dbi_fb_dirty, mipi_dbi_buf_copy, mipi_dbi_command,
    bind, ext, ext_void, ret.
  repeat break_step.
  all: try absurd_branch.
  all: rewrite <- ?app_assoc in *; cbn [app] in *; do 3 eexists;
    (split; [ reflexivity | ]).
  all: try solve [ left; split; reflexivity ].
  all: right; split_commands.
Qed.

Ltac zero_or_not :=
  repeat match goal with
  | H : negb (?x =? 0) = true |- _ =>
      apply negb_true_iff, Z.eqb_neq in H
  | H : negb (?x =? 0) = false |- _ =>
      apply negb_false_iff, Z.eqb_eq in H
  end.

(** X10: what a flush returns and what it leaves.  A flush with nothing to do
    returns 0 having only taken and released the lock.  A flush that fails
    leaves the device as it was.  A flush that returns 0 with something to
    do has had its memory write accepted by the controller and leaves the
    device enabled.  No flush changes anything of the device but the
    [enabled] flag. *)
Theorem fb_dirty_result :
  forall (hl : helpers) (oc : oracle) (mipi : mipi_dbi) (fb : drm_framebuffer)
         (flags : Z) (clips : list drm_clip_rect) (n : Z) (tr : list event),
  exists r mipi' new,
    mipi_dbi_fb_dirty hl oc mipi fb flags clips n tr
    = Some ((r, mipi'), tr ++ new)
    /\ (tinydrm_check_dirty hl mipi fb clips n = None ->
        r = 0 /\ mipi' = mipi /\ new = [(mutex_lock, 0); (mutex_unlock, 0)])
    /\ (r <> 0 -> mipi' = mipi)
    /\ (r = 0 -> tinydrm_check_dirty hl mipi fb clips n <> None ->
        enabled (tinydrm mipi') = true
        /\ exists src size,
            In (mipi_dbi_command_buf MIPI_DCS_WRITE_MEMORY_START
                  (cmd_pixels src) size, 0) new)
    /\ (mipi' = mipi \/ mipi' = set_enabled mipi true).
Proof.
  intros hl oc mipi fb flags clips n tr.
  unfold mipi_dbi_fb_dirty, mipi_dbi_buf_copy, mipi_dbi_command,
    bind, ext, ext_void, ret.
  destruct (tinydrm_check_dirty hl mipi fb clips n) as [[cl nc] | ] eqn:CD;
    cbv beta iota.
  2: { rewrite <- ?app_assoc; cbn [app]. do 3 eexists.
       split; [ reflexivity | ].
       repeat split; try (left; reflexivity); intros; congruence. }
  destruct (enabled (tinydrm mipi)) eqn:En; cbn [negb]; cbv beta iota.
  all: repeat break_step.
  all: try absurd_branch.
  all: rewrite <- ?app_assoc in *; cbn [app] in *; do 3 eexists;
    (split; [ reflexivity | ]).
  all: zero_or_not.
  all: split; [ intros X; discriminate X | ].
  all: split; [ first [ intros _; reflexivity | intros X; congruence ] | ].
  all: split;
    [ | first [ left; reflexivity | right; reflexivity ] ].
  all: intros R _; try (exfalso; first [ congruence | discriminate R ]).
  all: (split; [ first [ exact En | reflexivity ] | ]).
  all: do 2 eexists; cbn [In];
    repeat match goal with
    | |- _ \/ _ =>
        first [ left; apply (f_equal2 pair); [ reflexivity | assumption ]
              | right ]
    end.
Qed.

(** X11: the flush does not look at the result of the address window
    commands.  When the controller refuses them, and everything else
    succeeds, a flush of a framebuffer in a supported format still sends the
    pixels, returns 0 and leaves the device enabled. *)
Theorem fb_dirty_window_result_ignored :
  forall (hl : helpers) (oc : oracle) (mipi : mipi_dbi) (fb : drm_framebuffer)
         (flags : Z) (clips : list drm_clip_rect) (n : Z) (tr : list event),
    (forall h c, is_window_command c = false -> reply oc h c = 0) ->
    tinydrm_check_dirty hl mipi fb clips n <> None ->
    format fb = DRM_FORMAT_RGB565 \/ format fb = DRM_FORMAT_XRGB8888 ->
    exists mipi' pre clip rc rp src size post,
      mipi_dbi_fb_dirty hl oc mipi fb flags clips n tr
      = Some ((0, mipi'),
              tr ++ pre
                 ++ [ (command_call MIPI_DCS_SET_COLUMN_ADDRESS
                         (window_args (x1 clip) (x2 clip)), rc);
                      (command_call MIPI_DCS_SET_PAGE_ADDRESS
                         (window_args (y1 clip) (y2 clip)), rp);
                      (mipi_dbi_command_buf MIPI_DCS_WRITE_MEMORY_START
                         (cmd_pixels src) size, 0) ]
                 ++ post)
      /\ rc = reply oc (tr ++ pre)
                    (command_call MIPI_DCS_SET_COLUMN_ADDRESS
                       (window_args (x1 clip) (x2 clip)))
      /\ enabled (tinydrm mipi') = true.
Proof.
  intros hl oc mipi fb flags clips n tr Hok CD Hfmt.
  unfold mipi_dbi_fb_dirty, mipi_dbi_buf_copy, mipi_dbi_command,
    bind, ext, ext_void, ret.
  destruct (tinydrm_check_dirty hl mipi fb clips n) as [[cl nc] | ];
    [ clear CD | contradiction ].
  cbv beta iota.
  assert ((format fb =? DRM_FORMAT_RGB565) = false ->
          (format fb =? DRM_FORMAT_XRGB8888) = true) as Hx.
  { destruct Hfmt as [-> | ->]; [ discriminate | reflexivity ]. }
  destruct (enabled (tinydrm mipi)) eqn:En; cbn [negb]; cbv beta iota.
  all: repeat break_step.
  all: rewrite ?(Hok _ dma_buf_begin_cpu_access eq_refl) in *.
  all: rewrite ?(Hok _ dma_buf_end_cpu_access eq_refl) in *.
  all: rewrite ?(Hok _ tinydrm_enable_backlight eq_refl) in *.
  all: rewrite ?(Hok _ (mipi_dbi_command_buf MIPI_DCS_WRITE_MEMORY_START
                          (cmd_pixels _) _) eq_refl) in *.
  all: try absurd_branch.
  all: try (specialize (Hx eq_refl); discriminate Hx).
  all: rewrite <- ?app_assoc in *; cbn [app] in *.
  all: eexists.
  all: first [ exists [(mutex_lock, 0)]; do 6 eexists;
               split; [ reflexivity | split; [ reflexivity | first [ exact En | reflexivity ] ] ]
             | eexists [(mutex_lock, 0); _]; do 6 eexists;
               split; [ reflexivity | split; [ reflexivity | first [ exact En | reflexivity ] ] ]
             | eexists [(mutex_lock, 0); _; _]; do 6 eexists;
               split; [ reflexivity | split; [ reflexivity | first [ exact En | reflexivity ] ] ]
             | eexists [(mutex_lock, 0); _; _; _]; do 6 eexists;
               split; [ reflexivity | split; [ reflexivity | first [ exact En | reflexivity ] ] ] ].
Qed.

Lemma fb_dirty_window_result_ignored_witness :
  exists mipi' pre clip rc rp src size post,
    mipi_dbi_fb_dirty (sample_helpers false) bus_no_window
                      (sample_mipi false false) sample_fb 0 [] 0 []
    = Some ((0, mipi'),
            [] ++ pre
               ++ [ (command_call MIPI_DCS_SET_COLUMN_ADDRESS
                       (window_args (x1 clip) (x2 clip)), rc);
                    (command_call MIPI_DCS_SET_PAGE_ADDRESS
                       (window_args (y1 clip) (y2 clip)), rp);
                    (mipi_dbi_command_buf MIPI_DCS_WRITE_MEMORY_START
                       (cmd_pixels src) size, 0) ]
               ++ post)
    /\ rc = reply bus_no_window ([] ++ pre)
                  (command_call MIPI_DCS_SET_COLUMN_ADDRESS
                     (window_args (x1 clip) (x2 clip)))
    /\ enabled (tinydrm mipi') = true.
Proof.
  apply (fb_dirty_window_result_ignored
           (sample_helpers false) bus_no_window (sample_mipi false false)
           sample_fb 0 [] 0 []).
  - intros h c Hc. cbn [reply bus_no_window]. rewrite Hc. reflexivity.
  - discriminate.
  - left. reflexivity.
Defined.

(** ** Staging *)

(** X12: the copy into the transmit buffer.  It returns 0 only after exactly
    one copy or conversion.  The buffer of a framebuffer that is not
    imported is never handed to the dma-buf calls.  On an imported one the
    copy is made between an accepted begin of CPU access and its end, whose
    result is the value returned.  A framebuffer in a format other than
    RGB565 and XRGB8888 is refused without any copy; when it is imported,
    CPU access has been begun by then and is not ended. *)
Theorem buf_copy_cpu_access :
  forall (oc : oracle) (fb : drm_framebuffer) (clip : drm_clip_rect)
         (swap : bool) (tr : list event),
  exists r new,
    mipi_dbi_buf_copy oc fb clip swap tr = Some (r, tr ++ new)
    /\ (r = 0 -> length (filter is_staging_copy new) = 1%nat)
    /\ (import_attach fb = false -> filter is_cpu_access new = [])
    /\ (import_attach fb = true ->
        forall e, In e new -> is_staging_copy e = true ->
                  new = [(dma_buf_begin_cpu_access, 0); e;
                         (dma_buf_end_cpu_access, r)])
    /\ (format fb <> DRM_FORMAT_RGB565 -> format fb <> DRM_FORMAT_XRGB8888 ->
        r <> 0
        /\ filter is_staging_copy new = []
        /\ ~ In dma_buf_end_cpu_access (map fst new)
        /\ (import_attach fb = true ->
            reply oc tr dma_buf_begin_cpu_access = 0 ->
            r = - EINVAL /\ new = [(dma_buf_begin_cpu_access, 0)])).
Proof.
  intros oc fb clip swap tr.
  unfold mipi_dbi_buf_copy, bind, ext, ext_void, ret.
  destruct (import_attach fb) eqn:Imp.
  all: repeat break_step.
  all: try absurd_branch.
  all: zero_or_not.
  all: repeat match goal with
       | H : (_ =? _) = true |- _ => apply Z.eqb_eq in H
       | H : (_ =? _) = false |- _ => apply Z.eqb_neq in H
       end.
  all: rewrite <- ?app_assoc in *; cbn [app] in *.
  all: try match goal with
           | H : reply _ _ dma_buf_begin_cpu_access = 0 |- _ =>
               rewrite !H in *
           end.
  all: first [ do 2 eexists; split; [ reflexivity | ]
             | exists (- EINVAL), []; rewrite app_nil_r;
               split; [ reflexivity | ] ].
  all: repeat split.
  all: try reflexivity; try discriminate; try congruence.
  all: cbn [In map fst filter is_staging_copy]; try tauto.
  all: try (intros _ e Hin Hs; cbn [In] in Hin;
            repeat match goal with
                   | H : _ \/ _ |- _ => destruct H as [H | H]
                   end;
            try contradiction; subst e; cbn in Hs;
            first [ discriminate Hs | reflexivity ]).
  all: try (intros [X | X]; first [ discriminate X | exact X ]).
Qed.

(** ** Set-up and the commands that follow it *)

(** X13: reading a device after set-up.  Whatever [mipi_dbi_spi_init]
    returns, the device it leaves classifies exactly the twenty DCS read
    commands as reads.  Without a D/C line every one of them is refused with
    [-ENOTSUPP]; with a D/C line and the write-only flag every one of them is
    refused with [-EACCES], or with [-EINVAL] when no byte is asked for.  In
    all these cases nothing is called: the bus is not touched. *)
Theorem spi_init_read_commands :
  forall (hl : helpers) (oc : oracle) (s : spi_device) (mipi : mipi_dbi)
         (dc_desc wo : bool) (mode : drm_display_mode) (rot : Z)
         (tr : list event),
  exists r mipi' tr',
    mipi_dbi_spi_init hl oc s mipi dc_desc wo mode rot tr
    = Some ((r, mipi'), tr')
    /\ (forall cmd,
           mipi_dbi_command_is_read mipi' cmd = Some true
           <-> In cmd (removelast mipi_dbi_dcs_read_commands))
    /\ (forall cmd par num tr0,
           In cmd (removelast mipi_dbi_dcs_read_commands) ->
           (dc_desc = false ->
            call_command hl oc mipi' cmd par num tr0
            = Some ((- ENOTSUPP, None), tr0))
           /\ (dc_desc = true -> wo = true ->
               call_command hl oc mipi' cmd par num tr0
               = Some ((if num =? 0 then - EINVAL else - EACCES, None), tr0))).
Proof.
  intros hl oc s mipi dc_desc wo mode rot tr.
  unfold mipi_dbi_spi_init.
  match goal with
  | |- context [mipi_dbi_init oc ?m mode rot tr] =>
      destruct (mipi_dbi_init_command oc m mode rot tr)
        as (r & mipi' & tr' & E & Hc & _ & _ & Hw & Ht)
  end.
  cbn [command write_only read_commands] in Hc, Hw, Ht.
  exists r, mipi', tr'. split; [ exact E | ].
  assert (forall cmd,
             mipi_dbi_command_is_read mipi' cmd = Some true
             <-> In cmd (removelast mipi_dbi_dcs_read_commands)) as Hread.
  { intros cmd. rewrite (dcs_table_is_read mipi' cmd Ht).
    rewrite <- existsb_eqb_In. split; intros X; congruence. }
  split; [ exact Hread | ].
  intros cmd par num tr0 Hin. apply Hread in Hin.
  split.
  - intros ->. unfold call_command. rewrite Hc.
    unfold mipi_dbi_typec1_command. rewrite Hin. reflexivity.
  - intros -> ->. unfold call_command. rewrite Hc.
    unfold mipi_dbi_typec3_command. rewrite Hin.
    unfold mipi_dbi_typec3_command_read. rewrite Hw.
    destruct (num =? 0); reflexivity.
Qed.

(** ** The power mode *)

Lemma power_mode_bits_small :
  forallb (fun w =>
             Bool.eqb (Z.land w 124 =? 28)
                      (Z.testbit w 2 && Z.testbit w 3 && Z.testbit w 4
                       && negb (Z.testbit w 5) && negb (Z.testbit w 6)))
          (map Z.of_nat (seq 0 128)) = true.
Proof. vm_compute. reflexivity. Qed.

Lemma power_mode_bits (v : Z) :
  (to_u8 (Z.land (to_u8 v) (Z.lnot DCS_POWER_MODE_RESERVED_MASK))
   =? Z.lor (Z.lor DCS_POWER_MODE_DISPLAY DCS_POWER_MODE_DISPLAY_NORMAL_MODE)
            DCS_POWER_MODE_SLEEP_MODE)
  = Z.testbit v 2 && Z.testbit v 3 && Z.testbit v 4
    && negb (Z.testbit v 5) && negb (Z.testbit v 6).
Proof.
  unfold to_u8.
  change (Z.lor (Z.lor DCS_POWER_MODE_DISPLAY DCS_POWER_MODE_DISPLAY_NORMAL_MODE)
                DCS_POWER_MODE_SLEEP_MODE) with 28.
  rewrite <- !Z.land_assoc.
  change (Z.land 255 (Z.land (Z.lnot DCS_POWER_MODE_RESERVED_MASK) 255))
    with (Z.land (Z.ones 7) 124).
  rewrite Z.land_assoc, Z.land_ones by lia.
  assert (0 <= v mod 2 ^ 7 < 128) as Hw by (apply Z.mod_pos_bound; lia).
  rewrite <- (Z.mod_pow2_bits_low v 7 2), <- (Z.mod_pow2_bits_low v 7 3),
    <- (Z.mod_pow2_bits_low v 7 4), <- (Z.mod_pow2_bits_low v 7 5),
    <- (Z.mod_pow2_bits_low v 7 6) by lia.
  generalize dependent (v mod 2 ^ 7). intros w Hw.
  pose proof power_mode_bits_small as H.
  rewrite forallb_forall in H.
  apply Bool.eqb_prop, H.
  apply in_map_iff. exists (Z.to_nat w). split; [ lia | ].
  apply in_seq. lia.
Qed.

(** X14: whether the display is on, for a device with a D/C line that may be
    read and knows the DCS read commands, when the power mode command is run
    by [mipi->command], the receive buffer is granted and the bus accepts
    the message: the answer is yes exactly when, in the byte that the
    controller clocks out, the display, normal mode and sleep bits (2, 3, 4)
    are set and the partial and idle bits (5, 6) are clear; bits 0, 1 and 7
    play no part. *)
Theorem display_is_on_power_mode :
  forall (hl : helpers) (oc : oracle) (mipi : mipi_dbi) (val0 : Z)
         (tr : list event),
    command mipi = Some typec3_command ->
    read_commands mipi = Some mipi_dbi_dcs_read_commands ->
    write_only mipi = false ->
    kmalloc_ok oc tr 1 = true ->
    (forall m, reply oc (tr ++ [(gpiod_set_value_cansleep 0, 0)]) (spi_sync m)
               = 0) ->
    exists m,
      let v := rx_byte oc (tr ++ [(gpiod_set_value_cansleep 0, 0)]) 0 in
      mipi_dbi_display_is_on (call_command hl oc mipi) val0 tr
      = Some (Z.testbit v 2 && Z.testbit v 3 && Z.testbit v 4
              && negb (Z.testbit v 5) && negb (Z.testbit v 6),
              tr ++ [(gpiod_set_value_cansleep 0, 0); (spi_sync m, 0)]).
Proof.
  intros hl oc mipi val0 tr Hc Ht Hw Hk Hr.
  assert (mipi_dbi_command_is_read mipi MIPI_DCS_GET_POWER_MODE = Some true)
    as Hrd.
  { rewrite (dcs_table_is_read mipi _ Ht). reflexivity. }
  unfold mipi_dbi_display_is_on, call_command, bind. rewrite Hc.
  unfold mipi_dbi_typec3_command. rewrite Hrd.
  unfold mipi_dbi_typec3_command_read, bind, kmalloc, ext, ext_void,
    received, ret.
  rewrite Hw.
  change (1 =? 0) with false.
  change ((MIPI_DCS_GET_POWER_MODE =? MIPI_DCS_GET_DISPLAY_ID)
          || (MIPI_DCS_GET_POWER_MODE =? MIPI_DCS_GET_DISPLAY_STATUS))
    with false.
  cbn [andb negb]. cbv iota. rewrite Hk. cbn [negb]. cbv iota beta.
  rewrite Hr. change (negb (0 =? 0)) with false. cbv iota.
  change (1 =? 1) with true. cbv iota beta.
  change (Z.to_nat 1) with 1%nat. cbn [seq map firstn nth].
  eexists. cbv zeta.
  rewrite power_mode_bits.
  rewrite <- app_assoc. cbn [app].
  destruct (Z.testbit _ 2 && Z.testbit _ 3 && Z.testbit _ 4
            && negb (Z.testbit _ 5) && negb (Z.testbit _ 6));
    reflexivity.
Qed.

Lemma display_is_on_power_mode_witness :
  exists m,
    mipi_dbi_display_is_on
      (call_command (sample_helpers false) (bus_ok [0x9C])
                    (sample_mipi false false)) 0 []
    = Some (true, [] ++ [(gpiod_set_value_cansleep 0, 0); (spi_sync m, 0)]).
Proof.
  exact (display_is_on_power_mode (sample_helpers false) (bus_ok [0x9C])
           (sample_mipi false false) 0 [] eq_refl eq_refl eq_refl eq_refl
           (fun _ => eq_refl)).
Defined.

(** X15: whether the display is on, for a device that cannot be read: set up
    without a D/C line, or with one and the write-only flag.  The answer is
    no and nothing is called, the command being run by [mipi->command]. *)
Theorem display_is_on_unreadable :
  forall (hl : helpers) (oc : oracle) (s : spi_device) (mipi : mipi_dbi)
         (dc_desc wo : bool) (mode : drm_display_mode) (rot : Z)
         (tr : list event),
    dc_desc = false \/ wo = true ->
    exists r mipi' tr',
      mipi_dbi_spi_init hl oc s mipi dc_desc wo mode rot tr
      = Some ((r, mipi'), tr')
      /\ forall val0 tr0,
           mipi_dbi_display_is_on (call_command hl oc mipi') val0 tr0
           = Some (false, tr0).
Proof.
  intros hl oc s mipi dc_desc wo mode rot tr Hcase.
  unfold mipi_dbi_spi_init.
  match goal with
  | |- context [mipi_dbi_init oc ?m mode rot tr] =>
      destruct (mipi_dbi_init_command oc m mode rot tr)
        as (r & mipi' & tr' & E & Hc & _ & _ & Hw & Ht)
  end.
  cbn [command write_only read_commands] in Hc, Hw, Ht.
  exists r, mipi', tr'. split; [ exact E | ].
  intros val0 tr0.
  assert (mipi_dbi_command_is_read mipi' MIPI_DCS_GET_POWER_MODE = Some true)
    as Hrd.
  { rewrite (dcs_table_is_read mipi' _ Ht). reflexivity. }
  unfold mipi_dbi_display_is_on, call_command, bind. rewrite Hc.
  destruct dc_desc.
  - destruct Hcase as [X | ->]; [ discriminate X | ].
    unfold mipi_dbi_typec3_command. rewrite Hrd.
    unfold mipi_dbi_typec3_command_read. rewrite Hw. reflexivity.
  - unfold mipi_dbi_typec1_command, bind. rewrite Hrd. reflexivity.
Qed.

Lemma display_is_on_unreadable_witness :
  exists r mipi' tr',
    mipi_dbi_spi_init (sample_helpers false) (bus_ok [0x9C]) sample_spi
                      (sample_mipi false false) true true sample_mode 0 []
    = Some ((r, mipi'), tr')
    /\ forall val0 tr0,
         mipi_dbi_display_is_on
           (call_command (sample_helpers false) (bus_ok [0x9C]) mipi') val0 tr0
         = Some (false, tr0).
Proof.
  exact (display_is_on_unreadable (sample_helpers false) (bus_ok [0x9C])
           sample_spi (sample_mipi false false) true true sample_mode 0 []
           (or_intror eq_refl)).
Defined.

(** ** Disabling the pipe *)

(** X16: disabling the pipe always leaves the device not enabled, and not
    prepared when there is a regulator, and changes nothing else of it;
    its calls are made under the device lock.  Disabling it once more does
    nothing but take and release the lock: no backlight call, no regulator
    call, no blanking. *)
Theorem pipe_disable_twice :
  forall (mipi : mipi_dbi) (backlight regulator : bool) (w h : Z),
  exists mid mipi',
    mipi_dbi_pipe_disable mipi backlight regulator w h
    = (driver_call mutex_lock :: mid ++ [driver_call mutex_unlock], mipi')
    /\ ~ In (driver_call mutex_lock) mid
    /\ ~ In (driver_call mutex_unlock) mid
    /\ mipi' = set_power mipi false
                 (prepared (tinydrm mipi) && negb regulator)
    /\ mipi_dbi_pipe_disable mipi' backlight regulator w h
       = ([driver_call mutex_lock; driver_call mutex_unlock], mipi').
Proof.
  intros mipi backlight regulator w h.
  unfold mipi_dbi_pipe_disable, mipi_dbi_blank.
  destruct (enabled (tinydrm mipi)), (prepared (tinydrm mipi)),
    backlight, regulator; cbn [andb negb app].
  all: let go n := (split_at n; eexists; split; [ reflexivity | ]) in
       first [ go 0%nat | go 1%nat | go 2%nat | go 3%nat | go 4%nat
             | go 5%nat ].
  all: cbn [In]; repeat split; try reflexivity.
  all: intros X; repeat destruct X as [X | X]; try discriminate X;
    exact X.
Qed.

(** X17: a flush after a disable switches the display on again.  From the
    device that [mipi_dbi_pipe_disable] leaves, a flush with something to do
    on a framebuffer in a supported format, all of whose calls succeed (the
    address window commands apart, whose result is not looked at), returns
    0, enables the backlight once, as the last call before the unlock, and
    leaves the device enabled. *)
Theorem flush_after_disable :
  forall (hl : helpers) (oc : oracle) (mipi : mipi_dbi)
         (backlight regulator : bool) (w h : Z) (fb : drm_framebuffer)
         (flags : Z) (clips : list drm_clip_rect) (n : Z) (tr : list event),
    let mipi0 := snd (mipi_dbi_pipe_disable mipi backlight regulator w h) in
    (forall t c, is_window_command c = false -> reply oc t c = 0) ->
    tinydrm_check_dirty hl mipi0 fb clips n <> None ->
    format fb = DRM_FORMAT_RGB565 \/ format fb = DRM_FORMAT_XRGB8888 ->
    exists pre,
      mipi_dbi_fb_dirty hl oc mipi0 fb flags clips n tr
      = Some ((0, set_enabled mipi0 true),
              tr ++ pre ++ [(tinydrm_enable_backlight, 0); (mutex_unlock, 0)])
      /\ filter is_backlight_enable pre = []
      /\ length (filter is_command pre) = 3%nat.
Proof.
  intros hl oc mipi backlight regulator w h fb flags clips n tr mipi0
         Hok CD Hfmt.
  assert (enabled (tinydrm mipi0) = false) as En by reflexivity.
  clearbody mipi0.
  unfold mipi_dbi_fb_dirty, mipi_dbi_buf_copy, mipi_dbi_command,
    bind, ext, ext_void, ret.
  destruct (tinydrm_check_dirty hl mipi0 fb clips n) as [[cl nc] | ];
    [ clear CD | contradiction ].
  cbv beta iota. rewrite En. cbn [negb].
  assert ((format fb =? DRM_FORMAT_RGB565) = false ->
          (format fb =? DRM_FORMAT_XRGB8888) = true) as Hx.
  { destruct Hfmt as [-> | ->]; [ discriminate | reflexivity ]. }
  repeat break_step.
  all: rewrite ?(Hok _ dma_buf_begin_cpu_access eq_refl) in *.
  all: rewrite ?(Hok _ dma_buf_end_cpu_access eq_refl) in *.
  all: rewrite ?(Hok _ tinydrm_enable_backlight eq_refl) in *.
  all: rewrite ?(Hok _ (mipi_dbi_command_buf MIPI_DCS_WRITE_MEMORY_START
                          (cmd_pixels _) _) eq_refl) in *.
  all: try absurd_branch.
  all: try (specialize (Hx eq_refl); discriminate Hx).
  all: rewrite <- ?app_assoc in *; cbn [app] in *.
  all: let go n := solve [ split_at n; split; [ reflexivity | ];
                           split; reflexivity ] in
       first [ go 4%nat | go 5%nat | go 6%nat | go 7%nat | go 8%nat ].
Qed.

Lemma flush_after_disable_witness :
  exists pre,
    mipi_dbi_fb_dirty (sample_helpers false) bus_no_window
      (snd (mipi_dbi_pipe_disable (sample_mipi false true) true false 320 240))
      sample_fb 0 [] 0 []
    = Some ((0, set_enabled
                  (snd (mipi_dbi_pipe_disable (sample_mipi false true)
                          true false 320 240)) true),
            [] ++ pre ++ [(tinydrm_enable_backlight, 0); (mutex_unlock, 0)])
    /\ filter is_backlight_enable pre = []
    /\ length (filter is_command pre) = 3%nat.
Proof.
  apply (flush_after_disable (sample_helpers false) bus_no_window
           (sample_mipi false true) true false 320 240 sample_fb 0 [] 0 []).
  - intros t c Hc. cbn [reply bus_no_window]. rewrite Hc. reflexivity.
  - discriminate.
  - left. reflexivity.
Defined.

(** X18: blanking.  For a mode of [w] by [h] pixels, both below 65536 and
    with [2 * w * h] within an [int], the blanking zeroes [2 * w * h] bytes
    of the transmit buffer and sends a window that starts at column 0 and
    page 0, then the memory write of these [2 * w * h] bytes.  The low byte
    of each end is that of the last column or page; the high byte is that of
    [w] or [h] itself, which is the high byte of the last column or page
    exactly when [w] or [h] is not a multiple of 256. *)
Theorem blank_window :
  forall (w h : Z),
    0 < w < 65536 -> 0 < h < 65536 -> w * h * 2 <= INT_MAX ->
    mipi_dbi_blank w h
    = [ memset_tx_buf (w * h * 2);
        driver_call (mipi_dbi_command_buf MIPI_DCS_SET_COLUMN_ADDRESS
                       (cmd_bytes [0; 0; w / 256; (w - 1) mod 256]) 4);
        driver_call (mipi_dbi_command_buf MIPI_DCS_SET_PAGE_ADDRESS
                       (cmd_bytes [0; 0; h / 256; (h - 1) mod 256]) 4);
        driver_call (mipi_dbi_command_buf MIPI_DCS_WRITE_MEMORY_START
                       (cmd_pixels from_tx_buf) (w * h * 2)) ]
    /\ (w / 256 = (w - 1) / 256 <-> w mod 256 <> 0)
    /\ (h / 256 = (h - 1) / 256 <-> h mod 256 <> 0).
Proof.
  intros w h Hw Hh Hlen.
  assert (forall v, 0 < v < 65536 ->
            to_u16 v = v
            /\ to_u8 (Z.land (Z.shiftr v 8) 0xFF) = v / 256
            /\ to_u8 (Z.land (v - 1) 0xFF) = (v - 1) mod 256
            /\ (v / 256 = (v - 1) / 256 <-> v mod 256 <> 0)) as Hb.
  { intros v Hv. unfold to_u16, to_u8.
    change 0xFFFF with (Z.ones 16). change 0xFF with (Z.ones 8).
    rewrite !Z.land_ones, Z.shiftr_div_pow2 by lia.
    change (2 ^ 8) with 256. change (2 ^ 16) with 65536.
    rewrite !Z.mod_mod by lia.
    rewrite (Z.mod_small v 65536) by lia.
    rewrite (Z.mod_small (v / 256))
      by (split; [ apply Z.div_pos; lia | apply Z.div_lt_upper_bound; lia ]).
    split; [ reflexivity | ]. split; [ reflexivity | ].
    split; [ reflexivity | ]. split.
    - intros X Y. revert X. Z.div_mod_to_equations. lia.
    - intros X. Z.div_mod_to_equations. lia. }
  destruct (Hb w Hw) as (W1 & W2 & W3 & W4).
  destruct (Hb h Hh) as (H1 & H2 & H3 & H4).
  split; [ | split; assumption ].
  unfold mipi_dbi_blank, command_call. cbn [map length Z.of_nat].
  rewrite W1, H1, W2, W3, H2, H3.
  rewrite to_int_small by (unfold INT_MAX in *; nia).
  reflexivity.
Qed.

Lemma blank_window_witness :
  mipi_dbi_blank 256 240
  = [ memset_tx_buf (256 * 240 * 2);
      driver_call (mipi_dbi_command_buf MIPI_DCS_SET_COLUMN_ADDRESS
                     (cmd_bytes [0; 0; 256 / 256; (256 - 1) mod 256]) 4);
      driver_call (mipi_dbi_command_buf MIPI_DCS_SET_PAGE_ADDRESS
                     (cmd_bytes [0; 0; 240 / 256; (240 - 1) mod 256]) 4);
      driver_call (mipi_dbi_command_buf MIPI_DCS_WRITE_MEMORY_START
                     (cmd_pixels from_tx_buf) (256 * 240 * 2)) ]
  /\ (256 / 256 = (256 - 1) / 256 <-> 256 mod 256 <> 0)
  /\ (240 / 256 = (240 - 1) / 256 <-> 240 mod 256 <> 0).
Proof.
  apply (blank_window 256 240); unfold INT_MAX; lia.
Defined.

(** ** A read-command table without its terminator *)

Lemma command_is_read_from_scan (cmd : Z) (rest : list Z) :
  forall (pre done : list Z) (left : nat),
    Forall (fun e => e <> 0) pre ->
    length pre = left ->
    command_is_read_from left (length done) (done ++ pre ++ rest) cmd
    = Some (existsb (Z.eqb cmd) pre).
Proof.
  induction pre as [ | e pre IH]; intros done left NZ LE.
  - subst left. reflexivity.
  - destruct left as [ | left]; cbn [length] in LE; [ discriminate LE | ].
    inversion NZ as [ | ? ? He NZ']; subst.
    cbn [command_is_read_from].
    rewrite nth_error_app2, Nat.sub_diag by lia. cbn [nth_error app].
    destruct (Z.eqb_spec e 0) as [ | _]; [ contradiction | ].
    cbn [existsb].
    destruct (Z.eqb_spec cmd e) as [ | _]; [ reflexivity | ].
    cbn [orb].
    injection LE as LE. subst left.
    specialize (IH (done ++ [e]) (length pre) NZ' eq_refl).
    rewrite length_app, Nat.add_1_r, <- app_assoc in IH. exact IH.
Qed.

Lemma command_is_read_from_short (cmd : Z) :
  forall (pre done : list Z) (left : nat),
    Forall (fun e => e <> 0) pre ->
    (length pre < left)%nat ->
    command_is_read_from left (length done) (done ++ pre) cmd
    = if existsb (Z.eqb cmd) pre then Some true else None.
Proof.
  induction pre as [ | e pre IH]; intros done left NZ LE.
  - destruct left as [ | left]; [ inversion LE | ].
    cbn [command_is_read_from existsb]. rewrite app_nil_r.
    rewrite (proj2 (nth_error_None done (length done)) (Nat.le_refl _)).
    reflexivity.
  - destruct left as [ | left]; cbn [length] in LE; [ inversion LE | ].
    inversion NZ as [ | ? ? He NZ']; subst.
    cbn [command_is_read_from].
    rewrite nth_error_app2, Nat.sub_diag by lia. cbn [nth_error app].
    destruct (Z.eqb_spec e 0) as [ | _]; [ contradiction | ].
    cbn [existsb].
    destruct (Z.eqb_spec cmd e) as [ | _]; [ reflexivity | ].
    cbn [orb].
    specialize (IH (done ++ [e]) left NZ' ltac:(lia)).
    rewrite length_app, Nat.add_1_r, <- app_assoc in IH. exact IH.
Qed.

(** X19: a table that lacks its terminator.  The look-up reads 255 entries at
    most.  A command that is one of the first 255 entries is a read.  Any
    other command is not a read when the table has 255 entries or more:
    what follows them, a further read command or the terminator, is never
    looked at.  When the table is shorter, the look-up of such a command runs
    past the end of the array. *)
Theorem command_is_read_unterminated :
  forall (mipi : mipi_dbi) (tbl : list Z) (cmd : Z),
    read_commands mipi = Some tbl ->
    Forall (fun e => e <> 0) tbl ->
    mipi_dbi_command_is_read mipi cmd
    = if existsb (Z.eqb cmd) (firstn 255 tbl) then Some true
      else if (255 <=? length tbl)%nat then Some false
      else None.
Proof.
  intros mipi tbl cmd Ht NZ.
  unfold mipi_dbi_command_is_read. rewrite Ht.
  destruct (Nat.leb_spec 255 (length tbl)) as [L | L].
  - assert (Forall (fun e => e <> 0) (firstn 255 tbl)) as NZ'.
    { apply Forall_forall. intros x Hx. rewrite Forall_forall in NZ.
      apply NZ. eapply (In_nth_error) in Hx. destruct Hx as [i Hi].
      apply nth_error_In with (n := i).
      destruct (Nat.lt_ge_cases i 255) as [Hlt | Hge].
      + rewrite nth_error_firstn in Hi.
        destruct (Nat.ltb_spec i 255); [ exact Hi | lia ].
      + assert (nth_error (firstn 255 tbl) i = None) as X.
        { apply nth_error_None. rewrite length_firstn. lia. }
        congruence. }
    pose proof (command_is_read_from_scan cmd (skipn 255 tbl)
                  (firstn 255 tbl) [] 255 NZ'
                  ltac:(rewrite length_firstn; lia)) as X.
    cbn [length app] in X. rewrite firstn_skipn in X. rewrite X.
    destruct (existsb (Z.eqb cmd) (firstn 255 tbl)); reflexivity.
  - rewrite firstn_all2 by lia.
    pose proof (command_is_read_from_short cmd tbl [] 255 NZ L) as X.
    cbn [length app] in X. exact X.
Qed.

Lemma command_is_read_unterminated_witness :
  mipi_dbi_command_is_read
    {| tinydrm := {| enabled := false; prepared := false |};
       spi := sample_spi; command := None;
       read_commands := Some [MIPI_DCS_GET_DISPLAY_ID; MIPI_DCS_GET_POWER_MODE];
       dc := true; mipi_tx_buf := None; swap_bytes := false;
       write_only := false; enable_delay_ms := 0; rotation := 0 |}
    MIPI_DCS_WRITE_MEMORY_START
  = None.
Proof.
  refine (command_is_read_unterminated
            {| tinydrm := {| enabled := false; prepared := false |};
               spi := sample_spi; command := None;
               read_commands :=
                 Some [MIPI_DCS_GET_DISPLAY_ID; MIPI_DCS_GET_POWER_MODE];
               dc := true; mipi_tx_buf := None; swap_bytes := false;
               write_only := false; enable_delay_ms := 0; rotation := 0 |}
            [MIPI_DCS_GET_DISPLAY_ID; MIPI_DCS_GET_POWER_MODE]
            MIPI_DCS_WRITE_MEMORY_START eq_refl _).
  repeat (constructor; [ intro E; cbv in E; discriminate E | ]).
  constructor.
Defined.

(** ** Set-up *)

